(** * terraform-provider-equinix: configuration, retry policy, schema mapping
    and resource lifecycle, embedded from the Go sources.

    Layout: first the modules that embed the Go code (one per Go package
    or file), then the vocabulary the properties are stated in, then the
    properties. *)

From Stdlib Require Import ZArith Lia Ascii.
From stdpp Require Import base tactics option list gmap strings.

Local Open Scope Z_scope.

(** ** Go runtime pieces used by the sources *)

Module Go.

(** A Go call either returns or panics (nil dereference, failed type
    assertion). *)
Inductive result (A : Type) : Type :=
| Return (a : A)
| Panic (why : string).
Arguments Return {A} a.
Arguments Panic {A} why.

Definition bind {A B} (r : result A) (k : A -> result B) : result B :=
  match r with
  | Return a => k a
  | Panic w => Panic w
  end.

Notation "'let!' x ':=' r 'in' k" := (bind r (fun x => k))
  (at level 10, x pattern, r at level 100, k at level 200).

(** Dereferencing a possibly-nil pointer. *)
Definition deref {A} (what : string) (p : option A) : result A :=
  match p with
  | Some a => Return a
  | None => Panic what
  end.

Definition byte (n : nat) : ascii := ascii_of_nat n.

Definition dquote : string := String (byte 34) EmptyString.
Definition newline : string := String (byte 10) EmptyString.

Definition is_empty (s : string) : bool :=
  match s with
  | EmptyString => true
  | String _ _ => false
  end.

(** [strings.Join] *)
Fixpoint Join (elems : list string) (sep : string) : string :=
  match elems with
  | [] => EmptyString
  | [e] => e
  | e :: rest => e +:+ sep +:+ Join rest sep
  end.

(** The six ASCII bytes of Go's [asciiSpace] table. *)
Definition asciiSpace (c : ascii) : bool :=
  let n := nat_of_ascii c in
  (Nat.eqb n 9 || Nat.eqb n 10 || Nat.eqb n 11 || Nat.eqb n 12
   || Nat.eqb n 13 || Nat.eqb n 32)%bool.

(** UTF-8 encodings of the non-ASCII runes of [unicode.IsSpace]:
    U+0085 and U+00A0 take two bytes; U+1680, U+2000..U+200A, U+2028,
    U+2029, U+202F, U+205F and U+3000 take three. *)
Definition space2 (a b : nat) : bool :=
  (Nat.eqb a 194 && (Nat.eqb b 133 || Nat.eqb b 160))%bool.

Definition space3 (a b c : nat) : bool :=
  (Nat.eqb a 225 && Nat.eqb b 154 && Nat.eqb c 128
   || Nat.eqb a 226 && Nat.eqb b 128
      && (Nat.leb 128 c && Nat.leb c 138
          || Nat.eqb c 168 || Nat.eqb c 169 || Nat.eqb c 175)
   || Nat.eqb a 226 && Nat.eqb b 129 && Nat.eqb c 159
   || Nat.eqb a 227 && Nat.eqb b 128 && Nat.eqb c 128)%bool.

(** [strings.TrimLeftFunc s unicode.IsSpace] on the bytes of [s]. *)
Fixpoint TrimLeft (s : string) : string :=
  match s with
  | EmptyString => EmptyString
  | String c1 s1 =>
      if asciiSpace c1 then TrimLeft s1
      else
        match s1 with
        | EmptyString => s
        | String c2 s2 =>
            if space2 (nat_of_ascii c1) (nat_of_ascii c2) then TrimLeft s2
            else
              match s2 with
              | EmptyString => s
              | String c3 s3 =>
                  if space3 (nat_of_ascii c1) (nat_of_ascii c2)
                       (nat_of_ascii c3)
                  then TrimLeft s3
                  else s
              end
        end
  end.

(** The same scan over the reversed bytes: a space rune that ends the
    string shows up as its encoding read backwards. *)
Fixpoint TrimLeftRev (s : string) : string :=
  match s with
  | EmptyString => EmptyString
  | String c1 s1 =>
      if asciiSpace c1 then TrimLeftRev s1
      else
        match s1 with
        | EmptyString => s
        | String c2 s2 =>
            if space2 (nat_of_ascii c2) (nat_of_ascii c1) then TrimLeftRev s2
            else
              match s2 with
              | EmptyString => s
              | String c3 s3 =>
                  if space3 (nat_of_ascii c3) (nat_of_ascii c2)
                       (nat_of_ascii c1)
                  then TrimLeftRev s3
                  else s
              end
        end
  end.

Definition TrimRight (s : string) : string :=
  String.rev (TrimLeftRev (String.rev s)).

(** [strings.TrimSpace] *)
Definition TrimSpace (s : string) : string := TrimRight (TrimLeft s).

(** Go's [error] interface, by the dynamic types the sources test for. *)
Inductive error : Type :=
| errorString (msg : string)
    (* errors.New, and fmt.Errorf on a format without verbs *)
| UnknownAuthorityError (msg : string)
    (* x509.UnknownAuthorityError *)
| urlError (Op URL : string) (Err : error)
    (* *url.Error *)
| foreignError (type msg : string)
    (* an error value of any other dynamic type *)
| certificateVerificationError (Err : error).
    (* *tls.CertificateVerificationError, around the error of the
       verification *)

Global Instance error_eq_dec : EqDecision error.
Proof. solve_decision. Defined.

(** [context.Context], as far as the sources look at it: [ctx.Err()]. *)
Record Context := { ctx_Err : option error }.

Definition Background : Context := {| ctx_Err := None |}.
Definition Canceled : error := errorString "context canceled".

(** [*http.Response] *)
Record Response := { StatusCode : Z }.

End Go.

(** ** A matcher for the regular expressions of package [config] *)

Module Regexp.

Inductive re : Type :=
| Void
| Eps
| Lit (c : ascii)
| Digit                     (* \d : the ASCII digits *)
| Cat (r s : re)
| Alt (r s : re)
| Plus (r : re).

Definition isDigit (c : ascii) : bool :=
  (Nat.leb 48 (nat_of_ascii c) && Nat.leb (nat_of_ascii c) 57)%bool.

Fixpoint nullable (r : re) : bool :=
  match r with
  | Void | Lit _ | Digit => false
  | Eps => true
  | Cat r s => nullable r && nullable s
  | Alt r s => nullable r || nullable s
  | Plus r => nullable r
  end.

(** Brzozowski derivative. *)
Fixpoint deriv (c : ascii) (r : re) : re :=
  match r with
  | Void | Eps => Void
  | Lit d => if Ascii.eqb c d then Eps else Void
  | Digit => if isDigit c then Eps else Void
  | Cat r s =>
      if nullable r then Alt (Cat (deriv c r) s) (deriv c s)
      else Cat (deriv c r) s
  | Alt r s => Alt (deriv c r) (deriv c s)
  | Plus r => Cat (deriv c r) (Alt Eps (Plus r))
  end.

(** The whole of [s] is matched by [r]. *)
Fixpoint fullmatch (r : re) (s : string) : bool :=
  match s with
  | EmptyString => nullable r
  | String c s' => fullmatch (deriv c r) s'
  end.

(** [Regexp.MatchString] for a pattern that ends in [\z]: the search is
    unanchored on the left and the match has to reach the end of the
    text, so some suffix of [s] is matched in full. *)
Fixpoint MatchStringToEnd (r : re) (s : string) : bool :=
  fullmatch r s
  || match s with
     | EmptyString => false
     | String _ s' => MatchStringToEnd r s'
     end.

Fixpoint lits (s : string) : re :=
  match s with
  | EmptyString => Eps
  | String c s' => Cat (Lit c) (lits s')
  end.

End Regexp.

(** ** Diagnostics of the plugin framework, as the resources use them *)

Module Diag.

Inductive Severity : Type := SeverityError | SeverityWarning.

Record Diagnostic : Type := mkDiagnostic {
  severity : Severity;
  summary : string;
  detail : string
}.

Abbreviation Diagnostics := (list Diagnostic).

Global Instance Severity_eq_dec : EqDecision Severity.
Proof. solve_decision. Defined.

Global Instance Diagnostic_eq_dec : EqDecision Diagnostic.
Proof. solve_decision. Defined.

Definition isError (d : Diagnostic) : bool :=
  match severity d with
  | SeverityError => true
  | SeverityWarning => false
  end.

Definition Contains (ds : Diagnostics) (d : Diagnostic) : bool :=
  bool_decide (d ∈ ds).

(** [Diagnostics.Append] skips a diagnostic that is already there. *)
Definition Append (ds : Diagnostics) (new : Diagnostics) : Diagnostics :=
  foldl (fun acc d => if Contains acc d then acc else acc ++ [d]) ds new.

Definition AddError (ds : Diagnostics) (s d : string) : Diagnostics :=
  Append ds [mkDiagnostic SeverityError s d].

Definition AddWarning (ds : Diagnostics) (s d : string) : Diagnostics :=
  Append ds [mkDiagnostic SeverityWarning s d].

Definition HasError (ds : Diagnostics) : bool := existsb isError ds.

End Diag.

(** ** Package [config] (src/unnamed/part_000) *)

Module Config.
Import Go.

Definition EndpointEnvVar : string := "EQUINIX_API_ENDPOINT".
Definition ClientIDEnvVar : string := "EQUINIX_API_CLIENTID".
Definition ClientSecretEnvVar : string := "EQUINIX_API_CLIENTSECRET".
Definition ClientTokenEnvVar : string := "EQUINIX_API_TOKEN".
Definition ClientTimeoutEnvVar : string := "EQUINIX_API_TIMEOUT".
Definition MetalAuthTokenEnvVar : string := "METAL_AUTH_TOKEN".

(** [type ProviderMeta struct { ModuleName string `cty:"module_name"` }]:
    the structure, and the struct tag of its one field, key and name. *)
Record ProviderMeta := { ModuleName : string }.

Definition ProviderMeta_tag : string * string := ("cty", "module_name").

Definition consumerToken : string :=
  "aZ9GmqHTPtxevvFq9SK3Pi2yr9YCbRzduCSXF2SNem5sjB91mDq7Th3ZwTtRqMWZ".
Definition metalBasePath : string := "/metal/v1/".
Definition uaEnvVar : string := "TF_APPEND_USER_AGENT".

Definition quoted (s : string) : string := dquote +:+ s +:+ dquote.

Definition emptyCredentialsError : string :=
  Join
    [ "the provider needs to be configured with the proper credentials before it";
      "can be used.";
      EmptyString;
      "One of pair " +:+ quoted "client_id" +:+ " - " +:+ quoted "client_secret"
        +:+ " or " +:+ quoted "token" +:+ " must be set in the provider";
      "configuration to interact with Equinix Fabric and Network Edge services, and";
      quoted "auth_token"
        +:+ " to interact with Equinix Metal. These can also be configured using";
      "environment variables.";
      EmptyString;
      "Please note that while the authentication arguments are individually optional to allow";
      "interaction with the different services independently, trying to provision the resources";
      "of a service without the required credentials will return an API error referring to";
      "'Invalid authentication token' or 'error when acquiring token'.";
      EmptyString;
      "More information on the provider configuration can be found here:";
      "https://registry.terraform.io/providers/equinix/equinix/latest/docs" ]
    newline.

Definition DefaultBaseURL : string := "https://api.equinix.com".
Definition DefaultTimeout : Z := 30.

(** [regexp.MustCompile(`stopped after \d+ redirects\z`)]; the closing
    [\z] is carried by [Regexp.MatchStringToEnd]. *)
Definition redirectsErrorRe : Regexp.re :=
  Regexp.Cat (Regexp.lits "stopped after ")
    (Regexp.Cat (Regexp.Plus Regexp.Digit) (Regexp.lits " redirects")).

(** [time.Duration] counts nanoseconds. *)
Definition Second : Z := 1000000000.

(** *** What the imported packages hand back *)

Inductive Transport : Type :=
| DefaultTransport
| StaticTokenTransport (AccessToken : string)
| OAuthTransport (ClientID ClientSecret BaseURL : string)
| LoggingTransport (name : string) (inner : Transport)
| RetryTransport (RetryMax RetryWaitMin RetryWaitMax : Z)
    (CheckRetry : Context -> option Response -> option error ->
                  bool * option error)
    (inner : Transport).

Record HttpClient := {
  http_Transport : Transport;
  http_Timeout : Z
}.

(** [ecx.RestClient] and [ne.RestClient] *)
Record RestClient := {
  rest_baseURL : string;
  rest_http : HttpClient;
  rest_PageSize : option Z;
  rest_headers : gmap string string
}.

Definition SetPageSize (n : Z) (r : RestClient) : RestClient :=
  {| rest_baseURL := rest_baseURL r; rest_http := rest_http r;
     rest_PageSize := Some n; rest_headers := rest_headers r |}.

Definition SetHeaders (h : gmap string string) (r : RestClient)
  : RestClient :=
  {| rest_baseURL := rest_baseURL r; rest_http := rest_http r;
     rest_PageSize := rest_PageSize r; rest_headers := h |}.

Record PackngoClient := {
  packngo_UserAgent : string;
  packngo_BaseURL : string;
  packngo_ConsumerToken : string;
  packngo_APIKey : string;
  packngo_http : HttpClient
}.

Definition packngo_setUserAgent (ua : string) (p : PackngoClient)
  : PackngoClient :=
  {| packngo_UserAgent := ua; packngo_BaseURL := packngo_BaseURL p;
     packngo_ConsumerToken := packngo_ConsumerToken p;
     packngo_APIKey := packngo_APIKey p; packngo_http := packngo_http p |}.

(** [metalv1.Configuration]; [metalv1.APIClient] holds one. *)
Record MetalGoConfiguration := {
  mg_Servers : list string;
  mg_HTTPClient : option HttpClient;
  mg_DefaultHeader : gmap string string;
  mg_UserAgent : string
}.

Record MetalGoClient := { mg_cfg : MetalGoConfiguration }.

Definition mg_setUserAgent (ua : string) (m : MetalGoClient)
  : MetalGoClient :=
  {| mg_cfg :=
       {| mg_Servers := mg_Servers (mg_cfg m);
          mg_HTTPClient := mg_HTTPClient (mg_cfg m);
          mg_DefaultHeader := mg_DefaultHeader (mg_cfg m);
          mg_UserAgent := ua |} |}.

(** [v4.Configuration]; [v4.APIClient] holds one. *)
Record FabricConfiguration := {
  fab_BasePath : string;
  fab_DefaultHeader : gmap string string;
  fab_UserAgent : string;
  fab_HTTPClient : HttpClient
}.

Record V4APIClient := { fab_cfg : FabricConfiguration }.

Record URL := {
  url_Scheme : string;
  url_Host : string;
  url_Path : string;
  url_RawQuery : string
}.

(** [xoauth2.Token] *)
Record OAuthToken := { tok_AccessToken : string }.

(** The collaborators outside the repository: standard library, vendor
    SDKs, process environment, and the two constants and the helper of
    this repository that are not among the sources
    ([version.ProviderVersion], [meta.SDKVersionString()],
    [correlationId]). A pointer result that may be nil is an [option]. *)
Class Platform := {
  strconv_Quote : string -> string;
  os_Getenv : string -> string;
  SDKVersionString : string;
  ProviderVersion : string;
  (* authConfig.TokenSource(ctx, authClient).Token(): the token pointer
     and the message of the error, if any *)
  oauth2_Token : string -> string -> string -> option OAuthToken * option string;
  url_Parse : string -> option URL;
  URL_String : URL -> string;
  path_Join : string -> string -> string;
  packngo_NewClientWithBaseURL :
    string -> string -> HttpClient -> string -> option PackngoClient;
  metalv1_NewConfiguration : MetalGoConfiguration;
  correlationId : Z -> string
}.

(** [tfsdk.Config], the provider_meta block of a request to the plugin
    framework: its string attributes by name. *)
Record tfsdkConfig := { meta_attributes : gmap string string }.

(** [meta.Get(ctx, &m)] of the plugin framework, with a structure of one
    string field as its target. The framework pairs the attributes of
    the block with the fields of the structure by the [tfsdk] struct tag
    of each exported field, and reports an error for a field that has no
    such tag; the target is then left as it was. With the tag, the
    attribute of that name is stored into the field, and an attribute
    that is not set is an error for a field of type string. *)
Definition tfsdk_Get (tag : string * string) (meta : tfsdkConfig)
    (m : ProviderMeta) : Diag.Diagnostics * ProviderMeta :=
  if String.eqb tag.1 "tfsdk" then
    match meta_attributes meta !! tag.2 with
    | Some value => ([], {| ModuleName := value |})
    | None =>
        ([Diag.mkDiagnostic Diag.SeverityError "Value Conversion Error"
            "unhandled null value"], m)
    end
  else
    ([Diag.mkDiagnostic Diag.SeverityError "Value Conversion Error"
        "need a struct tag for tfsdk"], m).

(** [*schema.ResourceData], by what reading the provider_meta block out
    of it gives: [d.GetProviderMeta(&m)], which goes by the [cty] tags. *)
Record ResourceData := {
  pm_err : option error;
  pm_value : ProviderMeta
}.

(** *** The configuration structure *)

Record Config := mkConfig {
  BaseURL : string;
  AuthToken : string;
  ClientID : string;
  ClientSecret : string;
  MaxRetries : Z;
  MaxRetryWait : Z;
  RequestTimeout : Z;
  PageSize : Z;
  Token : string;

  Ecx : option RestClient;
  Ne : option RestClient;
  Metal : option PackngoClient;
  Metalgo : option MetalGoClient;

  ecxUserAgent : string;
  neUserAgent : string;
  metalUserAgent : string;
  metalGoUserAgent : string;

  TerraformVersion : string;
  FabricClient : option V4APIClient;
  FabricAuthToken : string
}.

(** Field assignments [c.f = v]. *)
Definition set_Ecx (v : option RestClient) (c : Config) : Config :=
  mkConfig (BaseURL c) (AuthToken c) (ClientID c) (ClientSecret c)
    (MaxRetries c) (MaxRetryWait c) (RequestTimeout c) (PageSize c)
    (Token c) v (Ne c) (Metal c) (Metalgo c) (ecxUserAgent c)
    (neUserAgent c) (metalUserAgent c) (metalGoUserAgent c)
    (TerraformVersion c) (FabricClient c) (FabricAuthToken c).

Definition set_Ne (v : option RestClient) (c : Config) : Config :=
  mkConfig (BaseURL c) (AuthToken c) (ClientID c) (ClientSecret c)
    (MaxRetries c) (MaxRetryWait c) (RequestTimeout c) (PageSize c)
    (Token c) (Ecx c) v (Metal c) (Metalgo c) (ecxUserAgent c)
    (neUserAgent c) (metalUserAgent c) (metalGoUserAgent c)
    (TerraformVersion c) (FabricClient c) (FabricAuthToken c).

Definition set_Metal (v : option PackngoClient) (c : Config) : Config :=
  mkConfig (BaseURL c) (AuthToken c) (ClientID c) (ClientSecret c)
    (MaxRetries c) (MaxRetryWait c) (RequestTimeout c) (PageSize c)
    (Token c) (Ecx c) (Ne c) v (Metalgo c) (ecxUserAgent c)
    (neUserAgent c) (metalUserAgent c) (metalGoUserAgent c)
    (TerraformVersion c) (FabricClient c) (FabricAuthToken c).

Definition set_Metalgo (v : option MetalGoClient) (c : Config) : Config :=
  mkConfig (BaseURL c) (AuthToken c) (ClientID c) (ClientSecret c)
    (MaxRetries c) (MaxRetryWait c) (RequestTimeout c) (PageSize c)
    (Token c) (Ecx c) (Ne c) (Metal c) v (ecxUserAgent c)
    (neUserAgent c) (metalUserAgent c) (metalGoUserAgent c)
    (TerraformVersion c) (FabricClient c) (FabricAuthToken c).

Definition set_ecxUserAgent (v : string) (c : Config) : Config :=
  mkConfig (BaseURL c) (AuthToken c) (ClientID c) (ClientSecret c)
    (MaxRetries c) (MaxRetryWait c) (RequestTimeout c) (PageSize c)
    (Token c) (Ecx c) (Ne c) (Metal c) (Metalgo c) v
    (neUserAgent c) (metalUserAgent c) (metalGoUserAgent c)
    (TerraformVersion c) (FabricClient c) (FabricAuthToken c).

Definition set_neUserAgent (v : string) (c : Config) : Config :=
  mkConfig (BaseURL c) (AuthToken c) (ClientID c) (ClientSecret c)
    (MaxRetries c) (MaxRetryWait c) (RequestTimeout c) (PageSize c)
    (Token c) (Ecx c) (Ne c) (Metal c) (Metalgo c) (ecxUserAgent c)
    v (metalUserAgent c) (metalGoUserAgent c)
    (TerraformVersion c) (FabricClient c) (FabricAuthToken c).

Definition set_metalUserAgent (v : string) (c : Config) : Config :=
  mkConfig (BaseURL c) (AuthToken c) (ClientID c) (ClientSecret c)
    (MaxRetries c) (MaxRetryWait c) (RequestTimeout c) (PageSize c)
    (Token c) (Ecx c) (Ne c) (Metal c) (Metalgo c) (ecxUserAgent c)
    (neUserAgent c) v (metalGoUserAgent c)
    (TerraformVersion c) (FabricClient c) (FabricAuthToken c).

Definition set_metalGoUserAgent (v : string) (c : Config) : Config :=
  mkConfig (BaseURL c) (AuthToken c) (ClientID c) (ClientSecret c)
    (MaxRetries c) (MaxRetryWait c) (RequestTimeout c) (PageSize c)
    (Token c) (Ecx c) (Ne c) (Metal c) (Metalgo c) (ecxUserAgent c)
    (neUserAgent c) (metalUserAgent c) v
    (TerraformVersion c) (FabricClient c) (FabricAuthToken c).

Definition set_FabricClient (v : option V4APIClient) (c : Config)
  : Config :=
  mkConfig (BaseURL c) (AuthToken c) (ClientID c) (ClientSecret c)
    (MaxRetries c) (MaxRetryWait c) (RequestTimeout c) (PageSize c)
    (Token c) (Ecx c) (Ne c) (Metal c) (Metalgo c) (ecxUserAgent c)
    (neUserAgent c) (metalUserAgent c) (metalGoUserAgent c)
    (TerraformVersion c) v (FabricAuthToken c).

Definition set_FabricAuthToken (v : string) (c : Config) : Config :=
  mkConfig (BaseURL c) (AuthToken c) (ClientID c) (ClientSecret c)
    (MaxRetries c) (MaxRetryWait c) (RequestTimeout c) (PageSize c)
    (Token c) (Ecx c) (Ne c) (Metal c) (Metalgo c) (ecxUserAgent c)
    (neUserAgent c) (metalUserAgent c) (metalGoUserAgent c)
    (TerraformVersion c) (FabricClient c) v.

Definition set_url_Path (v : string) (u : URL) : URL :=
  {| url_Scheme := url_Scheme u; url_Host := url_Host u; url_Path := v;
     url_RawQuery := url_RawQuery u |}.

Section WithPlatform.
Context `{Platform}.

(** [err.Error()] *)
Fixpoint Error (e : error) : string :=
  match e with
  | errorString msg => msg
  | UnknownAuthorityError msg => msg
  | urlError op url err =>
      (* fmt.Sprintf("%s %q: %s", e.Op, e.URL, e.Err) *)
      op +:+ " " +:+ strconv_Quote url +:+ ": " +:+ Error err
  | foreignError _ msg => msg
  | certificateVerificationError err =>
      "tls: failed to verify certificate: " +:+ Error err
  end.

Definition requestTimeout (c : Config) : Z :=
  if RequestTimeout c =? 0 then 5 * Second else RequestTimeout c.

Definition MetalRetryPolicy (ctx : Context) (resp : option Response)
    (err : option error) : bool * option error :=
  match ctx_Err ctx with
  | Some cerr => (false, Some cerr)
  | None =>
      match err with
      | Some e =>
          match e with
          | urlError _ _ inner =>
              if Regexp.MatchStringToEnd redirectsErrorRe (Error e)
              then (false, None)
              else
                match inner with
                | UnknownAuthorityError _ => (false, None)
                | _ => (true, None)
                end
          | _ => (true, None)
          end
      | None => (false, None)
      end
  end.

(** The two [log.Printf] calls of this file write to the log only and
    are left out. *)
Definition terraformUserAgent (version : string) : string :=
  let ua :=
    "HashiCorp Terraform/" +:+ version
    +:+ " (+https://www.terraform.io) Terraform Plugin SDK/"
    +:+ SDKVersionString in
  let add := os_Getenv uaEnvVar in
  if negb (is_empty add) then
    let add := TrimSpace add in
    if (0 <? String.length add)%nat then ua +:+ " " +:+ add else ua
  else ua.

Definition fullUserAgent (c : Config) (suffix : string) : string :=
  let tfUserAgent := terraformUserAgent (TerraformVersion c) in
  let userAgent :=
    tfUserAgent +:+ " terraform-provider-equinix/" +:+ ProviderVersion
    +:+ " " +:+ suffix in
  TrimSpace userAgent.

Definition generateFwModuleUserAgentString (meta : tfsdkConfig)
    (baseUserAgent : string) : string :=
  let '(diags, m) :=
    tfsdk_Get ProviderMeta_tag meta {| ModuleName := EmptyString |} in
  if Diag.HasError diags then baseUserAgent
  else if negb (is_empty (ModuleName m))
       then Join [ModuleName m; baseUserAgent] " "
       else baseUserAgent.

Definition generateModuleUserAgentString (d : ResourceData)
    (baseUserAgent : string) : string :=
  let m := pm_value d in
  match pm_err d with
  | Some _ => baseUserAgent
  | None =>
      if negb (is_empty (ModuleName m))
      then Join [ModuleName m; baseUserAgent] " "
      else baseUserAgent
  end.

(** [retryablehttp.NewClient()] with the settings of the two Metal
    constructors, then [StandardClient()]. *)
Definition metalStandardClient (c : Config) (logName : string)
  : HttpClient :=
  {| http_Transport :=
       RetryTransport (MaxRetries c) Second (MaxRetryWait c)
         MetalRetryPolicy
         (LoggingTransport logName DefaultTransport);
     http_Timeout := 0 |}.

(** [baseURL, _ := url.Parse(c.BaseURL)] followed by the assignment to
    [baseURL.Path]: the error of the parse is dropped, and a nil
    [baseURL] is dereferenced. *)
Definition metalBaseURL (c : Config) : result URL :=
  let! baseURL := deref "baseURL" (url_Parse (BaseURL c)) in
  Return (set_url_Path
            (path_Join (url_Path baseURL) metalBasePath +:+ "/")
            baseURL).

Definition NewFabricClient (c : Config) : V4APIClient :=
  let authClient :=
    {| http_Transport := LoggingTransport "Equinix Fabric" DefaultTransport;
       http_Timeout := requestTimeout c |} in
  let fabricHeaderMap : gmap string string :=
    <["X-CORRELATION-ID" := correlationId 25]>
      (<["X-SOURCE" := "API"]> ∅) in
  {| fab_cfg :=
       {| fab_BasePath := BaseURL c;
          fab_DefaultHeader := fabricHeaderMap;
          fab_UserAgent := "equinix/fabric-go";
          fab_HTTPClient := authClient |} |}.

(** The constructor writes [c.metalUserAgent], so it hands back the
    configuration too. *)
Definition NewMetalClient (c : Config) : result (Config * PackngoClient) :=
  let standardClient := metalStandardClient c "Equinix Metal (packngo)" in
  let! baseURL := metalBaseURL c in
  let! client :=
    deref "client"
      (packngo_NewClientWithBaseURL consumerToken (AuthToken c)
         standardClient (URL_String baseURL)) in
  let client :=
    packngo_setUserAgent (fullUserAgent c (packngo_UserAgent client))
      client in
  Return (set_metalUserAgent (packngo_UserAgent client) c, client).

Definition NewMetalGoClient (c : Config) : result (Config * MetalGoClient) :=
  let standardClient := metalStandardClient c "Equinix Metal (metal-go)" in
  let! baseURL := metalBaseURL c in
  let configuration := metalv1_NewConfiguration in
  let configuration :=
    {| mg_Servers := [URL_String baseURL];
       mg_HTTPClient := Some standardClient;
       mg_DefaultHeader :=
         <["X-Auth-Token" := AuthToken c]> (mg_DefaultHeader configuration);
       mg_UserAgent := fullUserAgent c (mg_UserAgent configuration) |} in
  let client := {| mg_cfg := configuration |} in
  Return (set_metalGoUserAgent (mg_UserAgent (mg_cfg client)) c, client).

(** The first half of [Load] after the two checks: the HTTP client
    that authenticates, and [c.FabricAuthToken] where a token was
    acquired; or the error of the token exchange. *)
Definition authenticate (c : Config) : (Config * HttpClient) + error :=
  if negb (is_empty (Token c)) then
    inl (c, {| http_Transport := StaticTokenTransport (Token c);
               http_Timeout := 0 |})
  else
    let authClient :=
      {| http_Transport :=
           OAuthTransport (ClientID c) (ClientSecret c) (BaseURL c);
         http_Timeout := 0 |} in
    if negb (is_empty (ClientID c)) && negb (is_empty (ClientSecret c))
    then
      match oauth2_Token (ClientID c) (ClientSecret c) (BaseURL c) with
      | (_, Some msg) => inr (foreignError "oauth2" msg)
      | (Some tke, None) =>
          inl (set_FabricAuthToken (tok_AccessToken tke) c, authClient)
      | (None, None) => inl (c, authClient)
      end
    else inl (c, authClient).

(** [Load] validates configuration structure fields and configures
    all required API clients. The receiver is a pointer: the result
    carries the configuration as [Load] leaves it. *)
Definition Load (ctx : Context) (c : Config)
  : result (Config * option error) :=
  if is_empty (BaseURL c) then
    Return (c, Some (errorString "'baseURL' cannot be empty"))
  else if is_empty (Token c)
          && (is_empty (ClientID c) || is_empty (ClientSecret c))
          && is_empty (AuthToken c)
  then Return (c, Some (errorString emptyCredentialsError))
  else
    match authenticate c with
    | inr err => Return (c, Some err)
    | inl (c, authClient) =>
        let c :=
          if is_empty (FabricAuthToken c)
          then set_FabricAuthToken (Token c) c else c in
        let authClient :=
          {| http_Transport :=
               LoggingTransport "Equinix" (http_Transport authClient);
             http_Timeout := requestTimeout c |} in
        let ecxClient :=
          {| rest_baseURL := BaseURL c; rest_http := authClient;
             rest_PageSize := None; rest_headers := ∅ |} in
        let neClient :=
          {| rest_baseURL := BaseURL c; rest_http := authClient;
             rest_PageSize := None; rest_headers := ∅ |} in
        let ecxClient :=
          if 0 <? PageSize c then SetPageSize (PageSize c) ecxClient
          else ecxClient in
        let neClient :=
          if 0 <? PageSize c then SetPageSize (PageSize c) neClient
          else neClient in
        let c := set_ecxUserAgent (fullUserAgent c "equinix/ecx-go") c in
        let ecxClient :=
          SetHeaders {["User-agent" := ecxUserAgent c]} ecxClient in
        let c := set_neUserAgent (fullUserAgent c "equinix/ecx-go") c in
        let neClient :=
          SetHeaders {["User-agent" := neUserAgent c]} neClient in
        let c := set_Ecx (Some ecxClient) c in
        let c := set_Ne (Some neClient) c in
        let! (c, metal) := NewMetalClient c in
        let c := set_Metal (Some metal) c in
        let! (c, metalgo) := NewMetalGoClient c in
        let c := set_Metalgo (Some metalgo) c in
        let c := set_FabricClient (Some (NewFabricClient c)) c in
        Return (c, None)
    end.


Definition AddFwModuleToMetalGoUserAgent (c : Config) (meta : tfsdkConfig)
  : result Config :=
  let! metalgo := deref "c.Metalgo" (Metalgo c) in
  Return (set_Metalgo
            (Some (mg_setUserAgent
                     (generateFwModuleUserAgentString meta
                        (metalGoUserAgent c)) metalgo)) c).



End WithPlatform.

End Config.

(** ** Fabric schema mapping (src/unnamed/part_002) *)

Module Fabric.
Import Go.

(** The [interface{}] values a schema list holds: scalars, and maps from
    attribute names to scalars. [AOther] stands for a value of any type
    the two mapped functions do not look at. *)
Inductive atom : Type :=
| ANil
| AString (s : string)
| AInt (n : Z)
| ABool (b : bool)
| AOther.

Inductive iface : Type :=
| IAtom (a : atom)
| IMap (m : gmap string atom).

Global Instance atom_eq_dec : EqDecision atom.
Proof. solve_decision. Defined.

(** [x.(map[string]interface{})] *)
Definition assertMap (x : iface) : result (gmap string atom) :=
  match x with
  | IMap m => Return m
  | IAtom _ => Panic "interface conversion: not map[string]interface {}"
  end.

(** [m[k].(string)]: a missing key reads as the nil interface. *)
Definition assertString (x : option atom) : result string :=
  match x with
  | Some (AString s) => Return s
  | _ => Panic "interface conversion: not string"
  end.

(** [v4.ServiceToken], the two fields the mapping writes; [Type_] is a
    pointer. *)
Record ServiceToken := {
  Type_ : option string;
  Uuid : string
}.

Definition emptyServiceToken : ServiceToken :=
  {| Type_ := None; Uuid := EmptyString |}.

(** The [for ... range] loop of [serviceTokenToFabric], with the value of
    [mappedST] on entry. *)
Fixpoint serviceTokenLoop (mappedST : ServiceToken)
    (serviceTokenRequest : list iface)
  : result (ServiceToken * option error) :=
  match serviceTokenRequest with
  | [] => Return (mappedST, None)
  | str :: rest =>
      let! stMap := assertMap str in
      let! stType := assertString (stMap !! "type") in
      let! uuid := assertString (stMap !! "uuid") in
      if negb (is_empty stType) then
        if negb (String.eqb stType "VC_TOKEN") then
          Return (emptyServiceToken,
                  Some (errorString
                          ("invalid service token type in config. Must be: VC_TOKEN; Received: "
                           +:+ stType)))
        else
          serviceTokenLoop {| Type_ := Some stType; Uuid := uuid |} rest
      else
        serviceTokenLoop {| Type_ := None; Uuid := uuid |} rest
  end.

Definition serviceTokenToFabric (serviceTokenRequest : list iface)
  : result (ServiceToken * option error) :=
  serviceTokenLoop emptyServiceToken serviceTokenRequest.

(** [make([]interface{}, n)] *)
Definition make (n : nat) : list atom := replicate n ANil.

(** [int(bandwidth)] on an [int32]: the value is kept. *)
Definition int_of_int32 (bandwidth : Z) : Z := bandwidth.

(** The argument is a pointer to a slice and the result a slice; [None]
    is nil on both sides. *)
Definition supportedBandwidthsToTerra (supportedBandwidths : option (list Z))
  : option (list atom) :=
  match supportedBandwidths with
  | None => None
  | Some bws =>
      let mappedSupportedBandwidths := make (length bws) in
      Some (foldl (fun acc bandwidth => acc ++ [AInt (int_of_int32 bandwidth)])
              mappedSupportedBandwidths bws)
  end.

End Fabric.

(** ** The project SSH key resource
    (src/internal/resources/metal/project_ssh_key/resource.go) *)

Module ProjectSSHKey.
Import Go.
Import Diag.

(** [types.String] of the plugin framework. *)
Inductive tfString : Type :=
| StringNull
| StringUnknown
| StringValue (s : string).

Definition ValueString (v : tfString) : string :=
  match v with
  | StringValue s => s
  | _ => EmptyString
  end.

Global Instance tfString_eq_dec : EqDecision tfString.
Proof. solve_decision. Defined.

Record ResourceModel := {
  ID : tfString;
  Name : tfString;
  PublicKey : tfString;
  ProjectID : tfString
}.

(** [tfsdk.State] and [tfsdk.Plan]: the stored object, or null once the
    resource is removed. *)
Inductive State : Type :=
| StateNull
| StateObject (raw : gmap string tfString).

Definition RemoveResource (s : State) : State := StateNull.

(** What [Read] and [Delete] call and do not define: the vendor API of
    SSH keys, the helpers of [internal/errors], the [parse] method of
    the resource model and the framework's conversion between a state
    and the model. None of them is among the sources. [parse] reads
    through the key pointer it is given, which is nil after a failed
    call, so it is the one that may panic. *)
Class Collaborators := {
  SSHKey : Type;
  FindSSHKeyById : string -> option SSHKey * option Response * option error;
  DeleteSSHKey : string -> option Response * option error;
  FriendlyError : error -> error;
  IsNotFound : error -> bool;
  HttpForbidden : option Response -> option error -> bool;
  HttpNotFound : option Response -> option error -> bool;
  parse : ResourceModel -> option SSHKey -> result (Diagnostics * ResourceModel);
  State_Get : State -> Diagnostics * ResourceModel;
  State_Set : State -> ResourceModel -> Diagnostics * State
}.

(** Modelled from the spec: [equinix_errors.IgnoreHttpResponseErrors] is
    not among the sources. By its use in [Delete] and by the spec's
    section 7 (a vendor error subtype that is treated specially instead
    of failing), it builds a filter over the (response, error) pair of
    a call: the error is dropped when one of the given matchers accepts
    the pair, and passed on otherwise. *)
Definition IgnoreHttpResponseErrors
    (ignore : list (option Response -> option error -> bool))
    (resp : option Response) (err : option error) : option error :=
  if existsb (fun ignored => ignored resp err) ignore then None else err.

(** [resource.ReadRequest] and [resource.DeleteRequest] *)
Record Request := {
  req_ProviderMeta : Config.tfsdkConfig;
  req_State : State
}.

(** [resource.ReadResponse] and [resource.DeleteResponse] *)
Record ResourceResponse := {
  resp_Diagnostics : Diagnostics;
  resp_State : State
}.

Definition appendDiags (new : Diagnostics) (resp : ResourceResponse)
  : ResourceResponse :=
  {| resp_Diagnostics := Append (resp_Diagnostics resp) new;
     resp_State := resp_State resp |}.

Section WithCollaborators.
Context `{Config.Platform} `{Collaborators}.

(** [r.Meta] is the provider's [Config]; the first statement of each
    method writes the user agent of its metal-go client, so the
    configuration is handed back with the response. *)
Definition Read (meta : Config.Config) (req : Request)
    (resp : ResourceResponse) : result (Config.Config * ResourceResponse) :=
  let! meta :=
    Config.AddFwModuleToMetalGoUserAgent meta (req_ProviderMeta req) in
  let '(diags, state) := State_Get (req_State req) in
  let resp := appendDiags diags resp in
  if HasError (resp_Diagnostics resp) then Return (meta, resp)
  else
    let id := ValueString (ID state) in
    let '(key, _, err) := FindSSHKeyById id in
    (* the [if err != nil] block: [inl] where it returns *)
    let afterFind : ResourceResponse + ResourceResponse :=
      match err with
      | Some err =>
          let err := FriendlyError err in
          if IsNotFound err then
            inl {| resp_Diagnostics :=
                     AddWarning (resp_Diagnostics resp)
                       "Equinix Metal Project SSHKey not found during refresh"
                       ("[WARN] SSHKey (" +:+ id
                        +:+ ") not found, removing from state");
                   resp_State := RemoveResource (resp_State resp) |}
          else
            inr {| resp_Diagnostics :=
                     AddError (resp_Diagnostics resp)
                       ("Failed to get Project SSHKey " +:+ id)
                       (Config.Error err);
                   resp_State := resp_State resp |}
      | None => inr resp
      end in
    match afterFind with
    | inl resp => Return (meta, resp)
    | inr resp =>
        let! (diags, state) := parse state key in
        let resp := appendDiags diags resp in
        if HasError (resp_Diagnostics resp) then Return (meta, resp)
        else
          let '(diags, st) := State_Set (resp_State resp) state in
          Return (meta,
                  {| resp_Diagnostics :=
                       Append (resp_Diagnostics resp) diags;
                     resp_State := st |})
    end.

Definition Delete (meta : Config.Config) (req : Request)
    (resp : ResourceResponse) : result (Config.Config * ResourceResponse) :=
  let! meta :=
    Config.AddFwModuleToMetalGoUserAgent meta (req_ProviderMeta req) in
  let '(diags, state) := State_Get (req_State req) in
  let resp := appendDiags diags resp in
  if HasError (resp_Diagnostics resp) then Return (meta, resp)
  else
    let id := ValueString (ID state) in
    let '(deleteResp, err) := DeleteSSHKey id in
    match IgnoreHttpResponseErrors [HttpForbidden; HttpNotFound]
            deleteResp err with
    | Some _ =>
        (* [err.Error()] on the error of the call *)
        let! err := deref "err" err in
        let err := FriendlyError err in
        Return (meta,
                {| resp_Diagnostics :=
                     AddError (resp_Diagnostics resp)
                       ("Failed to delete Project SSHKey " +:+ id)
                       (Config.Error err);
                   resp_State := resp_State resp |})
    | None => Return (meta, resp)
    end.

End WithCollaborators.

End ProjectSSHKey.

(** ** Waiting for a hardware reservation, and its test
    (src/unnamed/part_001) *)

Module Reservation.
Import Go.

(** [metalv1.HardwareReservation], the two fields the test serves: the
    identifier of the device, when a device is included, and the
    provisionable flag. *)
Record HardwareReservation := {
  Device : option string;
  Provisionable : bool
}.

(** One status fetch: the reservation, or the error of the API call. *)
Inductive Fetch : Type :=
| FetchError (e : error)
| Fetched (r : HardwareReservation).

(** How a wait ends: with nil, or with one of the errors of section 7
    of the spec. [OutOfFuel] is the loop cut short; a wait with a
    positive interval does not end so. *)
Inductive Outcome : Type :=
| Success
| FetchFailed (e : error)
| TimedOut (reservationId : string) (last : option HardwareReservation)
| Cancelled (e : error)
| OutOfFuel.

(** What a poll did: its outcome, how many times it fetched the status,
    and the time (in milliseconds) it had waited when it returned. *)
Record Run := {
  outcome : Outcome;
  fetches : nat;
  elapsed : Z
}.

(** The two points where the repository's test says more than the
    spec's words: what a changed instance identity means while the
    reservation is not provisionable, and whether a satisfied condition
    is checked once more after the stabilization interval. *)
Inductive IdentityChange : Type := TreatAsProgress | TreatAsTarget.

Record Design := {
  onIdentityChange : IdentityChange;
  recheck : bool
}.

(** Modelled from the spec: the discriminating field of section 4.1 is
    the instance identity an observation shows, compared with the one
    known so far. The spec's data model makes the instance identifier
    optional: no device, and a device with the empty identifier, show
    none. *)
Definition identityChanged (known : string) (r : HardwareReservation)
  : bool :=
  match Device r with
  | Some id => negb (is_empty id) && negb (String.eqb id known)
  | None => false
  end.

Definition identityOf (known : string) (r : HardwareReservation) : string :=
  if identityChanged known r then default known (Device r) else known.

Section Poller.
Variable design : Design.
(** [ctx.Err()] after the given time of waiting. *)
Variable ctxErr : Z -> option error.
(** The status fetch of the collaborator: the result of its n-th call. *)
Variable fetch : nat -> Fetch.
Variables reservationId instanceId : string.
Variables interval maxWait settle : Z.

(** Modelled from the spec: [waitUntilReservationProvisionable] is
    called by the test of part_001 and defined in no source file. The
    loop follows section 4.1 and section 5 of the spec: on every tick
    the cancellation signal is looked at first; a total elapsed time
    above the maximum wait fails with the error that names the
    identifier and the last observed status; then the status is
    fetched, and a failed fetch is reported upward at once (section 7);
    (a) a satisfied condition succeeds, after one more fetch a
    stabilization interval later when [recheck design] asks for it;
    (b) an unsatisfied condition with a changed instance identity is
    handled as [onIdentityChange design] says; (c) otherwise the loop
    sleeps for the polling interval and ticks again. [t] is the time
    waited so far, [n] the number of fetches made, [known] the
    instance identity known so far, [last] the last observation. *)
Fixpoint poll (fuel : nat) (t : Z) (n : nat) (known : string)
    (last : option HardwareReservation) : Run :=
  match fuel with
  | O => {| outcome := OutOfFuel; fetches := n; elapsed := t |}
  | S fuel =>
      match ctxErr t with
      | Some e => {| outcome := Cancelled e; fetches := n; elapsed := t |}
      | None =>
          if maxWait <? t then
            {| outcome := TimedOut reservationId last;
               fetches := n; elapsed := t |}
          else
            match fetch n with
            | FetchError e =>
                {| outcome := FetchFailed e; fetches := S n; elapsed := t |}
            | Fetched r =>
                if Provisionable r then
                  if recheck design then
                    match fetch (S n) with
                    | FetchError e =>
                        {| outcome := FetchFailed e; fetches := S (S n);
                           elapsed := t + settle |}
                    | Fetched r' =>
                        if Provisionable r' then
                          {| outcome := Success; fetches := S (S n);
                             elapsed := t + settle |}
                        else
                          poll fuel (t + settle + interval) (S (S n))
                            (identityOf known r') (Some r')
                    end
                  else
                    {| outcome := Success; fetches := S n; elapsed := t |}
                else if identityChanged known r then
                  match onIdentityChange design with
                  | TreatAsTarget =>
                      {| outcome := Success; fetches := S n; elapsed := t |}
                  | TreatAsProgress =>
                      poll fuel (t + interval) (S n) (identityOf known r)
                        (Some r)
                  end
                else poll fuel (t + interval) (S n) known (Some r)
            end
      end
  end.

(** Modelled from the spec: every tick that does not return adds at
    least [interval] to the time waited, so with a positive interval the
    deadline of section 4.1 is passed within this many ticks. *)
Definition ticksToDeadline : nat := Z.to_nat (maxWait / interval) + 2.

(** Modelled from the spec: the wait starts at time 0 with no fetch
    made, the caller's instance as the known identity and no
    observation. *)
Definition wait : Run := poll ticksToDeadline 0 0 instanceId None.

End Poller.

(** Modelled from the spec: the design of
    [waitUntilReservationProvisionable] that the test of part_001
    accepts (see [Test_waitUntilReservationProvisionable] below): a new
    instance identity ends the wait with success, and a satisfied
    condition is not fetched again. *)
Definition acceptedDesign : Design :=
  {| onIdentityChange := TreatAsTarget; recheck := false |}.

(** Modelled from the spec: [waitUntilReservationProvisionable], with
    the arguments of the call in the test of part_001 (the context, the
    API client as the status fetch, the reservation, the expected
    instance, the delay between ticks, the timeout and the minimum
    timeout), in the design that test accepts. Times are in
    milliseconds. *)
Definition waitUntilReservationProvisionable
    (ctxErr : Z -> option error) (fetch : nat -> Fetch)
    (reservationId instanceId : string) (delay timeout minTimeout : Z)
  : Run :=
  wait acceptedDesign ctxErr fetch reservationId instanceId delay timeout minTimeout.

(** *** The test *)

(** What a handler of the mock server writes: the status code and, with
    200, the reservation it marshals. *)
Record Reply := {
  status : Z;
  body : option HardwareReservation
}.

Definition StatusOK : Z := 200.
Definition StatusInternalServerError : Z := 500.

(** The vendor SDK turns a reply into the result of
    [FindHardwareReservationById(...).Execute()]. *)
Definition sdkFetch (r : Reply) : Fetch :=
  match body r with
  | Some res =>
      if status r =? StatusOK then Fetched res
      else FetchError (foreignError "metalv1.GenericOpenAPIError"
                         "unexpected status")
  | None =>
      FetchError (foreignError "metalv1.GenericOpenAPIError"
                    "unexpected status")
  end.

(** [responses[*invoked]] on a Go map: the zero value where the key is
    missing. *)
Definition response (responses : gmap nat (string * bool)) (invoked : nat)
  : string * bool :=
  default (EmptyString, false) (responses !! invoked).

(** The table-driven handlers; [include] tells whether the query asks
    for the device, [invoked] counts the earlier calls. *)
Definition reservationReply (include : bool) (r : string * bool) : Reply :=
  {| status := StatusOK;
     body := Some {| Device := if include then Some (fst r) else None;
                     Provisionable := snd r |} |}.

Definition handler_error (include : bool) (invoked : nat) : Reply :=
  {| status := StatusInternalServerError; body := None |}.

Definition handler_provisionable (include : bool) (invoked : nat) : Reply :=
  let responses : gmap nat (string * bool) :=
    <[1%nat := (EmptyString, true)]> (<[0%nat := ("instanceId", false)]> ∅) in
  reservationReply include (response responses invoked).

Definition handler_reprovisioned (include : bool) (invoked : nat) : Reply :=
  let responses : gmap nat (string * bool) :=
    <[1%nat := ("new instance id", false)]>
      (<[0%nat := ("instanceId", false)]> ∅) in
  reservationReply include (response responses invoked).

Definition handler_foreverDeprovisioning (include : bool) (invoked : nat)
  : Reply :=
  {| status := StatusOK;
     body := Some {| Device := None; Provisionable := false |} |}.

(** The cases of the table: name, handler, [wantErr]. *)
Definition tests : list (string * (bool -> nat -> Reply) * bool) :=
  [ ("error", handler_error, true);
    ("provisionable", handler_provisionable, false);
    ("reprovisioned", handler_reprovisioned, false);
    ("foreverDeprovisioning", handler_foreverDeprovisioning, true) ].

Definition isErr (o : Outcome) : bool :=
  match o with
  | Success => false
  | _ => true
  end.

(** The body of [t.Run]: the wait runs under [context.Background()]
    against the mock server, asking for the device, with a delay of
    50ms, a timeout of 1s and a minimum timeout of 50ms; the case passes
    when [(err != nil) = wantErr]. *)
Definition runCase (design : Design)
    (tt : string * (bool -> nat -> Reply) * bool) : bool :=
  let '(_, handler, wantErr) := tt in
  let run :=
    wait design (fun _ => None) (fun n => sdkFetch (handler true n))
      "reservationId" "instanceId" 50 1000 50 in
  Bool.eqb (isErr (outcome run)) wantErr.

Definition Test_waitUntilReservationProvisionable (design : Design) : bool :=
  forallb (runCase design) tests.

End Reservation.

(** ** Fabric schema mapping, the other mappers of the file
    (src/unnamed/part_002) *)

Module FabricMappers.
Import Go.
Import Fabric.

(** [m[k].(int)] and [m[k].(bool)] *)
Definition assertInt (x : option atom) : result Z :=
  match x with
  | Some (AInt n) => Return n
  | _ => Panic "interface conversion: not int"
  end.

Definition assertBool (x : option atom) : result bool :=
  match x with
  | Some (ABool b) => Return b
  | _ => Panic "interface conversion: not bool"
  end.

(** [int32(x)] on an [int]: the low 32 bits, read as a signed number. *)
Definition int32_of_int (x : Z) : Z := (x + 2 ^ 31) mod 2 ^ 32 - 2 ^ 31.

(** [for _, x := range l { s = body(s, x) }], where the body may panic. *)
Fixpoint forRange {S : Type} (body : S -> iface -> result S) (s : S)
    (l : list iface) : result S :=
  match l with
  | [] => Return s
  | x :: rest => let! s' := body s x in forRange body s' rest
  end.

(** [append(s, x)] on a slice that may be nil. *)
Definition goAppend {A : Type} (s : option (list A)) (x : A)
  : option (list A) :=
  Some (default [] s ++ [x]).

(** [make([]interface{}, n)] *)
Definition makeIfaces (n : nat) : list iface := replicate n (IAtom ANil).

(** *** The vendor structures, with the fields these mappers touch *)

Record ConnectionSideAdditionalInfo := {
  ai_Key : string;
  ai_Value : string
}.

Record CloudRouter := { cr_Uuid : string; cr_Href : string }.

Record SimplifiedLinkProtocol := {
  slp_Type_ : option string;
  slp_VlanSTag : Z;
  slp_VlanTag : Z;
  slp_VlanCTag : Z
}.

Record SimplifiedNetwork := { net_Uuid : string }.

Record SimplifiedServiceProfile := {
  ssp_Uuid : string;
  ssp_Type_ : option string
}.

Record VirtualDevice := {
  vd_Href : string;
  vd_Type_ : string;
  vd_Uuid : string;
  vd_Name : string
}.

Record ModelInterface := {
  mi_Type_ : string;
  mi_Uuid : string;
  mi_Id : Z
}.

Record DirectConnectionIpv4 := { d4_EquinixIfaceIp : string }.
Record DirectConnectionIpv6 := { d6_EquinixIfaceIp : string }.

Record BgpConnectionIpv4 := {
  b4_CustomerPeerIp : string;
  b4_EquinixPeerIp : string;
  b4_Enabled : bool
}.

Record BgpConnectionIpv6 := {
  b6_CustomerPeerIp : string;
  b6_EquinixPeerIp : string;
  b6_Enabled : bool
}.

Record RoutingProtocolBfd := { bfd_Enabled : bool; bfd_Interval : string }.

Record RoutingProtocolChange := {
  rpc_Uuid : string;
  rpc_Type_ : string;
  rpc_Href : string
}.

(** [*schema.Set], by the call that makes it: the resource or schema
    whose hash keys the set, and the items handed to [schema.NewSet]. *)
Inductive SchemaSet : Type :=
| NewSet (hashOf : string) (items : list iface).

(** *** From the declarative attributes to the vendor structures *)

Definition additionalInfoTerraToGo (additionalInfoRequest : list iface)
  : result (option (list ConnectionSideAdditionalInfo)) :=
  forRange
    (fun mappedaiArray ai =>
       let! aiMap := assertMap ai in
       let! key := assertString (aiMap !! "key") in
       let! value := assertString (aiMap !! "value") in
       let mappedai := {| ai_Key := key; ai_Value := value |} in
       Return (goAppend mappedaiArray mappedai))
    None additionalInfoRequest.

(** A nil request and an empty one both skip the loop and give the zero
    value. *)
Definition cloudRouterToFabric (cloudRouterRequest : list iface)
  : result CloudRouter :=
  forRange
    (fun cloudRouterMapped crr =>
       let! crrMap := assertMap crr in
       let! cruuid := assertString (crrMap !! "uuid") in
       Return {| cr_Uuid := cruuid; cr_Href := EmptyString |})
    {| cr_Uuid := EmptyString; cr_Href := EmptyString |} cloudRouterRequest.

Definition linkProtocolToFabric (linkProtocolList : list iface)
  : result SimplifiedLinkProtocol :=
  forRange
    (fun slp lp =>
       let! lpMap := assertMap lp in
       let! lpType := assertString (lpMap !! "type") in
       let! lpVlanSTag := assertInt (lpMap !! "vlan_s_tag") in
       let! lpVlanTag := assertInt (lpMap !! "vlan_tag") in
       let! lpVlanCTag := assertInt (lpMap !! "vlan_c_tag") in
       Return {| slp_Type_ := Some lpType;
                 slp_VlanSTag := int32_of_int lpVlanSTag;
                 slp_VlanTag := int32_of_int lpVlanTag;
                 slp_VlanCTag := int32_of_int lpVlanCTag |})
    {| slp_Type_ := None; slp_VlanSTag := 0; slp_VlanTag := 0;
       slp_VlanCTag := 0 |}
    linkProtocolList.

Definition networkToFabric (networkList : list iface)
  : result SimplifiedNetwork :=
  forRange
    (fun p pl =>
       let! plMap := assertMap pl in
       let! uuid := assertString (plMap !! "uuid") in
       Return {| net_Uuid := uuid |})
    {| net_Uuid := EmptyString |} networkList.

Definition simplifiedServiceProfileToFabric (profileList : list iface)
  : result SimplifiedServiceProfile :=
  forRange
    (fun ssp pl =>
       let! plMap := assertMap pl in
       let! ptype := assertString (plMap !! "type") in
       let! uuid := assertString (plMap !! "uuid") in
       Return {| ssp_Uuid := uuid; ssp_Type_ := Some ptype |})
    {| ssp_Uuid := EmptyString; ssp_Type_ := None |} profileList.

Definition virtualdeviceToFabric (virtualdeviceList : list iface)
  : result VirtualDevice :=
  forRange
    (fun vd ll =>
       let! llMap := assertMap ll in
       let! hr := assertString (llMap !! "href") in
       let! tp := assertString (llMap !! "type") in
       let! ud := assertString (llMap !! "uuid") in
       let! na := assertString (llMap !! "name") in
       Return {| vd_Href := hr; vd_Type_ := tp; vd_Uuid := ud; vd_Name := na |})
    {| vd_Href := EmptyString; vd_Type_ := EmptyString;
       vd_Uuid := EmptyString; vd_Name := EmptyString |}
    virtualdeviceList.

Definition interfaceToFabric (interfaceList : list iface)
  : result ModelInterface :=
  forRange
    (fun il ll =>
       let! llMap := assertMap ll in
       let! ud := assertString (llMap !! "uuid") in
       let! tp := assertString (llMap !! "type") in
       let! id := assertInt (llMap !! "id") in
       Return {| mi_Type_ := tp; mi_Uuid := ud; mi_Id := int32_of_int id |})
    {| mi_Type_ := EmptyString; mi_Uuid := EmptyString; mi_Id := 0 |}
    interfaceList.

Definition routingProtocolDirectIpv4ToFabric
    (routingProtocolDirectIpv4Request : list iface)
  : result DirectConnectionIpv4 :=
  forRange
    (fun mappedRpDirectIpv4 str =>
       let! directIpv4Map := assertMap str in
       let! equinixIfaceIp :=
         assertString (directIpv4Map !! "equinix_iface_ip") in
       Return {| d4_EquinixIfaceIp := equinixIfaceIp |})
    {| d4_EquinixIfaceIp := EmptyString |} routingProtocolDirectIpv4Request.

Definition routingProtocolDirectIpv6ToFabric
    (routingProtocolDirectIpv6Request : list iface)
  : result DirectConnectionIpv6 :=
  forRange
    (fun mappedRpDirectIpv6 str =>
       let! directIpv6Map := assertMap str in
       let! equinixIfaceIp :=
         assertString (directIpv6Map !! "equinix_iface_ip") in
       Return {| d6_EquinixIfaceIp := equinixIfaceIp |})
    {| d6_EquinixIfaceIp := EmptyString |} routingProtocolDirectIpv6Request.

Definition routingProtocolBgpIpv4ToFabric
    (routingProtocolBgpIpv4Request : list iface)
  : result BgpConnectionIpv4 :=
  forRange
    (fun mappedRpBgpIpv4 str =>
       let! bgpIpv4Map := assertMap str in
       let! customerPeerIp := assertString (bgpIpv4Map !! "customer_peer_ip") in
       let! enabled := assertBool (bgpIpv4Map !! "enabled") in
       Return {| b4_CustomerPeerIp := customerPeerIp;
                 b4_EquinixPeerIp := EmptyString; b4_Enabled := enabled |})
    {| b4_CustomerPeerIp := EmptyString; b4_EquinixPeerIp := EmptyString;
       b4_Enabled := false |}
    routingProtocolBgpIpv4Request.

Definition routingProtocolBgpIpv6ToFabric
    (routingProtocolBgpIpv6Request : list iface)
  : result BgpConnectionIpv6 :=
  forRange
    (fun mappedRpBgpIpv6 str =>
       let! bgpIpv6Map := assertMap str in
       let! customerPeerIp := assertString (bgpIpv6Map !! "customer_peer_ip") in
       let! enabled := assertBool (bgpIpv6Map !! "enabled") in
       Return {| b6_CustomerPeerIp := customerPeerIp;
                 b6_EquinixPeerIp := EmptyString; b6_Enabled := enabled |})
    {| b6_CustomerPeerIp := EmptyString; b6_EquinixPeerIp := EmptyString;
       b6_Enabled := false |}
    routingProtocolBgpIpv6Request.

Definition routingProtocolBfdToFabric (routingProtocolBfdRequest : list iface)
  : result RoutingProtocolBfd :=
  forRange
    (fun mappedRpBfd str =>
       let! rpBfdMap := assertMap str in
       let! bfdEnabled := assertBool (rpBfdMap !! "enabled") in
       let! bfdInterval := assertString (rpBfdMap !! "interval") in
       Return {| bfd_Enabled := bfdEnabled; bfd_Interval := bfdInterval |})
    {| bfd_Enabled := false; bfd_Interval := EmptyString |}
    routingProtocolBfdRequest.

Definition routingProtocolChangeToFabric
    (routingProtocolChangeRequest : list iface)
  : result RoutingProtocolChange :=
  forRange
    (fun mappedRpChange str =>
       let! rpChangeMap := assertMap str in
       let! uuid := assertString (rpChangeMap !! "uuid") in
       let! rpChangeType := assertString (rpChangeMap !! "type") in
       Return {| rpc_Uuid := uuid; rpc_Type_ := rpChangeType;
                 rpc_Href := EmptyString |})
    {| rpc_Uuid := EmptyString; rpc_Type_ := EmptyString;
       rpc_Href := EmptyString |}
    routingProtocolChangeRequest.

(** *** From the vendor structures to the declarative attributes *)

(** [for index, x := range l { mapped[index] = f(x) }] on a slice made
    with the length of [l]. *)
Definition assignEach {A B : Type} (f : A -> B) (mapped : list B) (l : list A)
  : list B :=
  foldl (fun mapped ix => <[ix.1 := f ix.2]> mapped) mapped
    (imap (fun index x => (index, x)) l).

(** The result is a slice of maps; [None] is nil on both sides, and a
    made map slot is the nil map, which reads as the empty one. *)
Definition additionalInfoToTerra
    (additionalInfol : option (list ConnectionSideAdditionalInfo))
  : option (list (gmap string atom)) :=
  match additionalInfol with
  | None => None
  | Some additionalInfol =>
      let mappedadditionalInfol := replicate (length additionalInfol) ∅ in
      Some (assignEach
              (fun additionalInfo =>
                 <["value" := AString (ai_Value additionalInfo)]>
                   (<["key" := AString (ai_Key additionalInfo)]> ∅))
              mappedadditionalInfol additionalInfol)
  end.

Definition cloudRouterToTerra (cloudRouter : option CloudRouter)
  : option SchemaSet :=
  match cloudRouter with
  | None => None
  | Some cloudRouter =>
      let cloudRouters := [cloudRouter] in
      let mappedCloudRouters := makeIfaces (length cloudRouters) in
      Some (NewSet "equinix_schema.ProjectSch"
              (foldl
                 (fun mappedCloudRouters cloudRouter =>
                    mappedCloudRouters
                    ++ [IMap (<["href" := AString (cr_Href cloudRouter)]>
                                (<["uuid" := AString (cr_Uuid cloudRouter)]> ∅))])
                 mappedCloudRouters cloudRouters))
  end.

Definition virtualDeviceToTerra (virtualDevice : option VirtualDevice)
  : option SchemaSet :=
  match virtualDevice with
  | None => None
  | Some virtualDevice =>
      let virtualDevices := [virtualDevice] in
      let mappedVirtualDevices := makeIfaces (length virtualDevices) in
      Some (NewSet "accessPointVirtualDeviceSch"
              (foldl
                 (fun mappedVirtualDevices virtualDevice =>
                    mappedVirtualDevices
                    ++ [IMap (<["uuid" := AString (vd_Uuid virtualDevice)]>
                                (<["type" := AString (vd_Type_ virtualDevice)]>
                                   (<["href" := AString (vd_Href virtualDevice)]>
                                      (<["name" := AString (vd_Name virtualDevice)]>
                                         ∅))))])
                 mappedVirtualDevices virtualDevices))
  end.

Definition interfaceToTerra (mInterface : option ModelInterface)
  : option SchemaSet :=
  match mInterface with
  | None => None
  | Some mInterface =>
      let mInterfaces := [mInterface] in
      let mappedMInterfaces := makeIfaces (length mInterfaces) in
      Some (NewSet "accessPointInterface"
              (foldl
                 (fun mappedMInterfaces mInterface =>
                    mappedMInterfaces
                    ++ [IMap (<["uuid" := AString (mi_Uuid mInterface)]>
                                (<["type" := AString (mi_Type_ mInterface)]>
                                   (<["id" := AInt (int_of_int32 (mi_Id mInterface))]>
                                      ∅)))])
                 mappedMInterfaces mInterfaces))
  end.

(** The argument is a structure, not a pointer; its [Type_] is
    dereferenced without a check. *)
Definition linkedProtocolToTerra (linkedProtocol : SimplifiedLinkProtocol)
  : result SchemaSet :=
  let linkedProtocols := [linkedProtocol] in
  let mappedLinkedProtocols := makeIfaces (length linkedProtocols) in
  let! mappedLinkedProtocols :=
    foldl
      (fun acc linkedProtocol =>
         let! mappedLinkedProtocols := acc in
         let! type := deref "linkedProtocol.Type_" (slp_Type_ linkedProtocol) in
         Return
           (mappedLinkedProtocols
            ++ [IMap (<["vlan_c_tag" :=
                          AInt (int_of_int32 (slp_VlanCTag linkedProtocol))]>
                        (<["vlan_s_tag" :=
                             AInt (int_of_int32 (slp_VlanSTag linkedProtocol))]>
                           (<["vlan_tag" :=
                                AInt (int_of_int32 (slp_VlanTag linkedProtocol))]>
                              (<["type" := AString type]> ∅))))]))
      (Return mappedLinkedProtocols) linkedProtocols in
  Return (NewSet "accessPointLinkProtocolSch" mappedLinkedProtocols).

Definition routingProtocolDirectConnectionIpv4ToTerra
    (routingProtocolDirectIpv4 : option DirectConnectionIpv4)
  : option SchemaSet :=
  match routingProtocolDirectIpv4 with
  | None => None
  | Some routingProtocolDirectIpv4 =>
      let routingProtocolDirectIpv4s := [routingProtocolDirectIpv4] in
      let mappedDirectIpv4s := makeIfaces (length routingProtocolDirectIpv4s) in
      Some (NewSet "createDirectConnectionIpv4Res"
              (assignEach
                 (fun routingProtocolDirectIpv4 =>
                    IMap (<["equinix_iface_ip" :=
                              AString (d4_EquinixIfaceIp routingProtocolDirectIpv4)]>
                            ∅))
                 mappedDirectIpv4s routingProtocolDirectIpv4s))
  end.

Definition routingProtocolDirectConnectionIpv6ToTerra
    (routingProtocolDirectIpv6 : option DirectConnectionIpv6)
  : option SchemaSet :=
  match routingProtocolDirectIpv6 with
  | None => None
  | Some routingProtocolDirectIpv6 =>
      let routingProtocolDirectIpv6s := [routingProtocolDirectIpv6] in
      let mappedDirectIpv6s := makeIfaces (length routingProtocolDirectIpv6s) in
      Some (NewSet "createDirectConnectionIpv6Res"
              (assignEach
                 (fun routingProtocolDirectIpv6 =>
                    IMap (<["equinix_iface_ip" :=
                              AString (d6_EquinixIfaceIp routingProtocolDirectIpv6)]>
                            ∅))
                 mappedDirectIpv6s routingProtocolDirectIpv6s))
  end.

Definition routingProtocolBgpConnectionIpv4ToTerra
    (routingProtocolBgpIpv4 : option BgpConnectionIpv4) : option SchemaSet :=
  match routingProtocolBgpIpv4 with
  | None => None
  | Some routingProtocolBgpIpv4 =>
      let routingProtocolBgpIpv4s := [routingProtocolBgpIpv4] in
      let mappedBgpIpv4s := makeIfaces (length routingProtocolBgpIpv4s) in
      Some (NewSet "createBgpConnectionIpv4Res"
              (assignEach
                 (fun routingProtocolBgpIpv4 =>
                    IMap (<["enabled" := ABool (b4_Enabled routingProtocolBgpIpv4)]>
                            (<["equinix_peer_ip" :=
                                 AString (b4_EquinixPeerIp routingProtocolBgpIpv4)]>
                               (<["customer_peer_ip" :=
                                    AString (b4_CustomerPeerIp routingProtocolBgpIpv4)]>
                                  ∅))))
                 mappedBgpIpv4s routingProtocolBgpIpv4s))
  end.

Definition routingProtocolBgpConnectionIpv6ToTerra
    (routingProtocolBgpIpv6 : option BgpConnectionIpv6) : option SchemaSet :=
  match routingProtocolBgpIpv6 with
  | None => None
  | Some routingProtocolBgpIpv6 =>
      let routingProtocolBgpIpv6s := [routingProtocolBgpIpv6] in
      let mappedBgpIpv6s := makeIfaces (length routingProtocolBgpIpv6s) in
      Some (NewSet "createBgpConnectionIpv6Res"
              (assignEach
                 (fun routingProtocolBgpIpv6 =>
                    IMap (<["enabled" := ABool (b6_Enabled routingProtocolBgpIpv6)]>
                            (<["equinix_peer_ip" :=
                                 AString (b6_EquinixPeerIp routingProtocolBgpIpv6)]>
                               (<["customer_peer_ip" :=
                                    AString (b6_CustomerPeerIp routingProtocolBgpIpv6)]>
                                  ∅))))
                 mappedBgpIpv6s routingProtocolBgpIpv6s))
  end.

Definition routingProtocolBfdToTerra
    (routingProtocolBfd : option RoutingProtocolBfd) : option SchemaSet :=
  match routingProtocolBfd with
  | None => None
  | Some routingProtocolBfd =>
      let routingProtocolBfds := [routingProtocolBfd] in
      let mappedRpBfds := makeIfaces (length routingProtocolBfds) in
      Some (NewSet "createRoutingProtocolBfdRes"
              (assignEach
                 (fun routingProtocolBfd =>
                    IMap (<["interval" := AString (bfd_Interval routingProtocolBfd)]>
                            (<["enabled" := ABool (bfd_Enabled routingProtocolBfd)]>
                               ∅)))
                 mappedRpBfds routingProtocolBfds))
  end.

Definition routingProtocolChangeToTerra
    (routingProtocolChange : option RoutingProtocolChange) : option SchemaSet :=
  match routingProtocolChange with
  | None => None
  | Some routingProtocolChange =>
      let routingProtocolChanges := [routingProtocolChange] in
      let mappedRpChanges := makeIfaces (length routingProtocolChanges) in
      Some (NewSet "createRoutingProtocolChangeRes"
              (assignEach
                 (fun rpChanges =>
                    IMap (<["href" := AString (rpc_Href rpChanges)]>
                            (<["type" := AString (rpc_Type_ rpChanges)]>
                               (<["uuid" := AString (rpc_Uuid rpChanges)]> ∅))))
                 mappedRpChanges routingProtocolChanges))
  end.

(** *** Patch requests *)

(** What [d.Get(key)] hands back, an [interface{}]: a scalar or a list. *)
Inductive dvalue : Type :=
| DAtom (a : atom)
| DList (l : list iface).

(** [*schema.ResourceData], by its [Get]; package [config] reads the
    provider metadata out of it and has its own view of it. *)
Record ResourceDataValues := { Get : string -> dvalue }.

Definition getString (x : dvalue) : result string :=
  match x with
  | DAtom (AString s) => Return s
  | _ => Panic "interface conversion: not string"
  end.

Definition getInt (x : dvalue) : result Z :=
  match x with
  | DAtom (AInt n) => Return n
  | _ => Panic "interface conversion: not int"
  end.

Definition getList (x : dvalue) : result (list iface) :=
  match x with
  | DList l => Return l
  | _ => Panic "interface conversion: not []interface {}"
  end.

(** [b != x] between a [bool] and an [interface{}]: they are equal when
    the interface holds a [bool], and the same one. *)
Definition boolDiffers (b : bool) (x : dvalue) : bool :=
  match x with
  | DAtom (ABool b') => negb (eqb b b')
  | _ => true
  end.

(** The [Value] of a change operation, an [interface{}]: nil in the
    zero operation, a value as [d.Get] gave it (or the string or the
    int asserted out of it), or the one-entry map under
    ["additionalInfo"]. *)
Inductive opValue (S : Type) : Type :=
| OVNil
| OVGet (v : dvalue)
| OVAdditionalInfo (awsSecrets : S).
Arguments OVNil {S}.
Arguments OVGet {S} v.
Arguments OVAdditionalInfo {S} awsSecrets.

Record ConnectionChangeOperation (S : Type) := {
  Op : string;
  Path : string;
  Value : opValue S
}.
Arguments Op {S} _.
Arguments Path {S} _.
Arguments Value {S} _.

(** [v4.RoutingProtocolData], with the fields read here; the two
    connections are pointers, as the mappers above take them. *)
Record RoutingProtocolData := {
  rp_BgpIpv4 : option BgpConnectionIpv4;
  rp_BgpIpv6 : option BgpConnectionIpv6;
  rp_Uuid : string
}.

Record ConnectionOperation := { op_ProviderStatus : option string }.

Record Connection := {
  conn_Name : string;
  conn_Bandwidth : Z;
  conn_Operation : option ConnectionOperation
}.

(** What [getUpdateRequests] uses and this file does not define: the
    helper that picks the AWS secrets out of the additional information
    (with the type of what it picks), and the vendor's constant. *)
Class Vendor := {
  AWSSecrets : Type;
  additionalInfoContainsAWSSecrets : list iface -> result (AWSSecrets * bool);
  PENDING_APPROVAL_ProviderStatus : string
}.

Section WithVendor.
Context `{Vendor}.

(** The [log.Printf] call writes to the log only and is left out. *)
Definition getRoutingProtocolPatchUpdateRequest (rp : RoutingProtocolData)
    (d : ResourceDataValues)
  : result (ConnectionChangeOperation AWSSecrets * option error) :=
  let changeOps := {| Op := EmptyString; Path := EmptyString; Value := OVNil |} in
  let! bgpIpv4 := deref "rp.BgpIpv4" (rp_BgpIpv4 rp) in
  let existingBgpIpv4Status := b4_Enabled bgpIpv4 in
  let! bgpIpv6 := deref "rp.BgpIpv6" (rp_BgpIpv6 rp) in
  let existingBgpIpv6Status := b6_Enabled bgpIpv6 in
  let updateBgpIpv4Status := Get d "rp.BgpIpv4.Enabled" in
  let updateBgpIpv6Status := Get d "rp.BgpIpv6.Enabled" in
  if boolDiffers existingBgpIpv4Status updateBgpIpv4Status then
    Return ({| Op := "replace"; Path := "/bgpIpv4/enabled";
               Value := OVGet updateBgpIpv4Status |}, None)
  else if boolDiffers existingBgpIpv6Status updateBgpIpv6Status then
    Return ({| Op := "replace"; Path := "/bgpIpv6/enabled";
               Value := OVGet updateBgpIpv6Status |}, None)
  else
    Return (changeOps,
            Some (errorString
                    ("nothing to update for the routing protocol "
                     +:+ rp_Uuid rp))).

Definition getUpdateRequests (conn : Connection) (d : ResourceDataValues)
  : result (option (list (list (ConnectionChangeOperation AWSSecrets)))
            * option error) :=
  let changeOps : option (list (list (ConnectionChangeOperation AWSSecrets))) :=
    None in
  let existingName := conn_Name conn in
  let existingBandwidth := int_of_int32 (conn_Bandwidth conn) in
  let! updateNameVal := getString (Get d "name") in
  let! updateBandwidthVal := getInt (Get d "bandwidth") in
  let! additionalInfo := getList (Get d "additional_info") in
  let! (awsSecrets, hasAWSSecrets) :=
    additionalInfoContainsAWSSecrets additionalInfo in
  let changeOps :=
    if negb (String.eqb existingName updateNameVal) then
      goAppend changeOps
        [{| Op := "replace"; Path := "/name";
            Value := OVGet (DAtom (AString updateNameVal)) |}]
    else changeOps in
  let changeOps :=
    if negb (existingBandwidth =? updateBandwidthVal) then
      goAppend changeOps
        [{| Op := "replace"; Path := "/bandwidth";
            Value := OVGet (DAtom (AInt updateBandwidthVal)) |}]
    else changeOps in
  let! operation := deref "conn.Operation" (conn_Operation conn) in
  let! providerStatus :=
    deref "conn.Operation.ProviderStatus" (op_ProviderStatus operation) in
  let changeOps :=
    if String.eqb providerStatus PENDING_APPROVAL_ProviderStatus
       && hasAWSSecrets then
      goAppend changeOps
        [{| Op := "add"; Path := EmptyString;
            Value := OVAdditionalInfo awsSecrets |}]
    else changeOps in
  if (length (default [] changeOps) =? 0)%nat then
    Return (changeOps,
            Some (errorString
                    ("nothing to update for the connection " +:+ existingName)))
  else Return (changeOps, None).

End WithVendor.

End FabricMappers.

(** ** Fabric schema mapping, the access point (src/unnamed/part_002) *)

Module FabricAccessPoint.
Import Go.
Import Fabric.
Import FabricMappers.

(** What the map of an access point holds, each an [interface{}]: a
    string, a [*schema.Set] by the list that its [List()] gives, or
    something else. *)
Inductive apValue : Type :=
| APString (s : string)
| APSet (items : list iface)
| APOther.

(** An element of the request: the map, or something that is not one. *)
Inductive apIface : Type :=
| APMap (m : gmap string apValue)
| APNotMap.

Definition assertAPMap (x : apIface) : result (gmap string apValue) :=
  match x with
  | APMap m => Return m
  | APNotMap => Panic "interface conversion: not map[string]interface {}"
  end.

(** [m[k]] asserted to be a [*schema.Set], and its [List()] *)
Definition setList (x : option apValue) : result (list iface) :=
  match x with
  | Some (APSet items) => Return items
  | _ => Panic "interface conversion: not *schema.Set"
  end.

(** [m[k].(string)] *)
Definition apString (x : option apValue) : result string :=
  match x with
  | Some (APString s) => Return s
  | _ => Panic "interface conversion: not string"
  end.

(** The two mappers that [accessPointToFabric] calls and that are not
    among the sources, with the structures they return. *)
Class Helpers := {
  SimplifiedPort : Type;
  port_Uuid : SimplifiedPort -> string;
  portToFabric : list iface -> result SimplifiedPort;
  SimplifiedLocation : Type;
  LocationToFabric : list iface -> result SimplifiedLocation
}.

Section WithHelpers.
Context `{Helpers}.

(** [v4.AccessPoint], with the fields set here. *)
Record AccessPoint := mkAccessPoint {
  ap_Type_ : option string;
  ap_AuthenticationKey : string;
  ap_ProviderConnectionId : string;
  ap_SellerRegion : string;
  ap_PeeringType : option string;
  ap_Router : option CloudRouter;
  ap_Port : option SimplifiedPort;
  ap_Network : option SimplifiedNetwork;
  ap_LinkProtocol : option SimplifiedLinkProtocol;
  ap_Profile : option SimplifiedServiceProfile;
  ap_Location : option SimplifiedLocation;
  ap_VirtualDevice : option VirtualDevice;
  ap_Interface_ : option ModelInterface
}.

(** Field assignments [accessPoint.f = v]. *)
Definition set_ap_Type_ (v : option string) (a : AccessPoint) : AccessPoint :=
  mkAccessPoint v (ap_AuthenticationKey a) (ap_ProviderConnectionId a)
    (ap_SellerRegion a) (ap_PeeringType a) (ap_Router a) (ap_Port a)
    (ap_Network a) (ap_LinkProtocol a) (ap_Profile a) (ap_Location a)
    (ap_VirtualDevice a) (ap_Interface_ a).

Definition set_ap_AuthenticationKey (v : string) (a : AccessPoint) : AccessPoint :=
  mkAccessPoint (ap_Type_ a) v (ap_ProviderConnectionId a)
    (ap_SellerRegion a) (ap_PeeringType a) (ap_Router a) (ap_Port a)
    (ap_Network a) (ap_LinkProtocol a) (ap_Profile a) (ap_Location a)
    (ap_VirtualDevice a) (ap_Interface_ a).

Definition set_ap_ProviderConnectionId (v : string) (a : AccessPoint) : AccessPoint :=
  mkAccessPoint (ap_Type_ a) (ap_AuthenticationKey a) v (ap_SellerRegion a)
    (ap_PeeringType a) (ap_Router a) (ap_Port a) (ap_Network a)
    (ap_LinkProtocol a) (ap_Profile a) (ap_Location a) (ap_VirtualDevice a)
    (ap_Interface_ a).

Definition set_ap_SellerRegion (v : string) (a : AccessPoint) : AccessPoint :=
  mkAccessPoint (ap_Type_ a) (ap_AuthenticationKey a)
    (ap_ProviderConnectionId a) v (ap_PeeringType a) (ap_Router a)
    (ap_Port a) (ap_Network a) (ap_LinkProtocol a) (ap_Profile a)
    (ap_Location a) (ap_VirtualDevice a) (ap_Interface_ a).

Definition set_ap_PeeringType (v : option string) (a : AccessPoint) : AccessPoint :=
  mkAccessPoint (ap_Type_ a) (ap_AuthenticationKey a)
    (ap_ProviderConnectionId a) (ap_SellerRegion a) v (ap_Router a)
    (ap_Port a) (ap_Network a) (ap_LinkProtocol a) (ap_Profile a)
    (ap_Location a) (ap_VirtualDevice a) (ap_Interface_ a).

Definition set_ap_Router (v : option CloudRouter) (a : AccessPoint) : AccessPoint :=
  mkAccessPoint (ap_Type_ a) (ap_AuthenticationKey a)
    (ap_ProviderConnectionId a) (ap_SellerRegion a) (ap_PeeringType a) v
    (ap_Port a) (ap_Network a) (ap_LinkProtocol a) (ap_Profile a)
    (ap_Location a) (ap_VirtualDevice a) (ap_Interface_ a).

Definition set_ap_Port (v : option SimplifiedPort) (a : AccessPoint) : AccessPoint :=
  mkAccessPoint (ap_Type_ a) (ap_AuthenticationKey a)
    (ap_ProviderConnectionId a) (ap_SellerRegion a) (ap_PeeringType a)
    (ap_Router a) v (ap_Network a) (ap_LinkProtocol a) (ap_Profile a)
    (ap_Location a) (ap_VirtualDevice a) (ap_Interface_ a).

Definition set_ap_Network (v : option SimplifiedNetwork) (a : AccessPoint) : AccessPoint :=
  mkAccessPoint (ap_Type_ a) (ap_AuthenticationKey a)
    (ap_ProviderConnectionId a) (ap_SellerRegion a) (ap_PeeringType a)
    (ap_Router a) (ap_Port a) v (ap_LinkProtocol a) (ap_Profile a)
    (ap_Location a) (ap_VirtualDevice a) (ap_Interface_ a).

Definition set_ap_LinkProtocol (v : option SimplifiedLinkProtocol) (a : AccessPoint) : AccessPoint :=
  mkAccessPoint (ap_Type_ a) (ap_AuthenticationKey a)
    (ap_ProviderConnectionId a) (ap_SellerRegion a) (ap_PeeringType a)
    (ap_Router a) (ap_Port a) (ap_Network a) v (ap_Profile a)
    (ap_Location a) (ap_VirtualDevice a) (ap_Interface_ a).

Definition set_ap_Profile (v : option SimplifiedServiceProfile) (a : AccessPoint) : AccessPoint :=
  mkAccessPoint (ap_Type_ a) (ap_AuthenticationKey a)
    (ap_ProviderConnectionId a) (ap_SellerRegion a) (ap_PeeringType a)
    (ap_Router a) (ap_Port a) (ap_Network a) (ap_LinkProtocol a) v
    (ap_Location a) (ap_VirtualDevice a) (ap_Interface_ a).

Definition set_ap_Location (v : option SimplifiedLocation) (a : AccessPoint) : AccessPoint :=
  mkAccessPoint (ap_Type_ a) (ap_AuthenticationKey a)
    (ap_ProviderConnectionId a) (ap_SellerRegion a) (ap_PeeringType a)
    (ap_Router a) (ap_Port a) (ap_Network a) (ap_LinkProtocol a)
    (ap_Profile a) v (ap_VirtualDevice a) (ap_Interface_ a).

Definition set_ap_VirtualDevice (v : option VirtualDevice) (a : AccessPoint) : AccessPoint :=
  mkAccessPoint (ap_Type_ a) (ap_AuthenticationKey a)
    (ap_ProviderConnectionId a) (ap_SellerRegion a) (ap_PeeringType a)
    (ap_Router a) (ap_Port a) (ap_Network a) (ap_LinkProtocol a)
    (ap_Profile a) (ap_Location a) v (ap_Interface_ a).

Definition set_ap_Interface_ (v : option ModelInterface) (a : AccessPoint) : AccessPoint :=
  mkAccessPoint (ap_Type_ a) (ap_AuthenticationKey a)
    (ap_ProviderConnectionId a) (ap_SellerRegion a) (ap_PeeringType a)
    (ap_Router a) (ap_Port a) (ap_Network a) (ap_LinkProtocol a)
    (ap_Profile a) (ap_Location a) (ap_VirtualDevice a) v.

Definition zeroAccessPoint : AccessPoint :=
  mkAccessPoint None EmptyString EmptyString EmptyString None None None None
    None None None None None.

(** [for _, x := range l { s = body(s, x) }] over the elements of the
    request. *)
Fixpoint forEach {S : Type} (body : S -> apIface -> result S) (s : S)
    (l : list apIface) : result S :=
  match l with
  | [] => Return s
  | x :: rest => let! s' := body s x in forEach body s' rest
  end.

(** [len(l) != 0] *)
Definition nonEmpty {A : Type} (l : list A) : bool :=
  negb (length l =? 0)%nat.

(** The body of the loop of [accessPointToFabric]. The [log.Print] call
    writes to the log only and is left out. *)
Definition accessPointStep (accessPoint : AccessPoint) (ap : apIface)
  : result AccessPoint :=
  let! accessPointMap := assertAPMap ap in
  let! portList := setList (accessPointMap !! "port") in
  let! profileList := setList (accessPointMap !! "profile") in
  let! locationList := setList (accessPointMap !! "location") in
  let! virtualdeviceList := setList (accessPointMap !! "virtual_device") in
  let! interfaceList := setList (accessPointMap !! "interface") in
  let! networkList := setList (accessPointMap !! "network") in
  let! typeVal := apString (accessPointMap !! "type") in
  let! authenticationKey :=
    apString (accessPointMap !! "authentication_key") in
  let accessPoint :=
    if negb (is_empty authenticationKey)
    then set_ap_AuthenticationKey authenticationKey accessPoint
    else accessPoint in
  let! providerConnectionId :=
    apString (accessPointMap !! "provider_connection_id") in
  let accessPoint :=
    if negb (is_empty providerConnectionId)
    then set_ap_ProviderConnectionId providerConnectionId accessPoint
    else accessPoint in
  let! sellerRegion := apString (accessPointMap !! "seller_region") in
  let accessPoint :=
    if negb (is_empty sellerRegion)
    then set_ap_SellerRegion sellerRegion accessPoint
    else accessPoint in
  let! peeringTypeRaw := apString (accessPointMap !! "peering_type") in
  let accessPoint :=
    if negb (is_empty peeringTypeRaw)
    then set_ap_PeeringType (Some peeringTypeRaw) accessPoint
    else accessPoint in
  let! cloudRouterRequest := setList (accessPointMap !! "router") in
  let! cloudRouterRequest :=
    if negb (nonEmpty cloudRouterRequest)
    then setList (accessPointMap !! "gateway")
    else Return cloudRouterRequest in
  let! accessPoint :=
    if nonEmpty cloudRouterRequest then
      let! mappedGWr := cloudRouterToFabric cloudRouterRequest in
      Return (if negb (is_empty (cr_Uuid mappedGWr))
              then set_ap_Router (Some mappedGWr) accessPoint
              else accessPoint)
    else Return accessPoint in
  let apt := typeVal in
  let accessPoint := set_ap_Type_ (Some apt) accessPoint in
  let! accessPoint :=
    if nonEmpty portList then
      let! port := portToFabric portList in
      Return (if negb (is_empty (port_Uuid port))
              then set_ap_Port (Some port) accessPoint
              else accessPoint)
    else Return accessPoint in
  let! accessPoint :=
    if nonEmpty networkList then
      let! network := networkToFabric networkList in
      Return (if negb (is_empty (net_Uuid network))
              then set_ap_Network (Some network) accessPoint
              else accessPoint)
    else Return accessPoint in
  let! linkProtocolList := setList (accessPointMap !! "link_protocol") in
  let! accessPoint :=
    if nonEmpty linkProtocolList then
      let! slp := linkProtocolToFabric linkProtocolList in
      Return (match slp_Type_ slp with
              | Some _ => set_ap_LinkProtocol (Some slp) accessPoint
              | None => accessPoint
              end)
    else Return accessPoint in
  let! accessPoint :=
    if nonEmpty profileList then
      let! ssp := simplifiedServiceProfileToFabric profileList in
      Return (if negb (is_empty (ssp_Uuid ssp))
              then set_ap_Profile (Some ssp) accessPoint
              else accessPoint)
    else Return accessPoint in
  let! accessPoint :=
    if nonEmpty locationList then
      let! sl := LocationToFabric locationList in
      Return (set_ap_Location (Some sl) accessPoint)
    else Return accessPoint in
  let! accessPoint :=
    if nonEmpty virtualdeviceList then
      let! vd := virtualdeviceToFabric virtualdeviceList in
      Return (set_ap_VirtualDevice (Some vd) accessPoint)
    else Return accessPoint in
  let! accessPoint :=
    if nonEmpty interfaceList then
      let! il := interfaceToFabric interfaceList in
      Return (set_ap_Interface_ (Some il) accessPoint)
    else Return accessPoint in
  Return accessPoint.

Definition accessPointToFabric (accessPointRequest : list apIface)
  : result AccessPoint :=
  forEach accessPointStep zeroAccessPoint accessPointRequest.

End WithHelpers.

End FabricAccessPoint.

(** ** Project SSH key resource, the writing methods
    (src/internal/resources/metal/project_ssh_key/resource.go) *)

Module ProjectSSHKeyWrite.
Import Go.
Import Diag.
Import ProjectSSHKey.

(** [ValueStringPointer] of the plugin framework: nil for a null value,
    and a pointer to the value otherwise, which is the empty string for
    an unknown one. *)
Definition ValueStringPointer (v : tfString) : option string :=
  match v with
  | StringNull => None
  | StringUnknown => Some EmptyString
  | StringValue s => Some s
  end.

(** [a.Equal(b)] on two [types.String]: the same state and, when known,
    the same value. *)
Definition Equal (a b : tfString) : bool := bool_decide (a = b).

(** [metalv1.SSHKeyCreateInput] and [metalv1.SSHKeyInput], with the
    fields set here. *)
Record SSHKeyCreateInput := { create_Label : option string; create_Key : option string }.
Record SSHKeyInput := { input_Label : option string; input_Key : option string }.

(** The two writing calls of the vendor API, and the framework's
    conversion of a plan to the model. *)
Class WriteApi `{Collaborators} := {
  CreateProjectSSHKey :
    string -> SSHKeyCreateInput -> option SSHKey * option Response * option error;
  UpdateSSHKey :
    string -> SSHKeyInput -> option SSHKey * option Response * option error;
  Plan_Get : State -> Diagnostics * ResourceModel
}.

(** [resource.CreateRequest] and [resource.UpdateRequest]; a create
    request has no prior state to read. *)
Record WriteRequest := {
  wreq_ProviderMeta : Config.tfsdkConfig;
  wreq_Plan : State;
  wreq_State : State
}.

Section WithWriteApi.
Context `{Config.Platform} `{WriteApi}.

Definition Create (meta : Config.Config) (req : WriteRequest)
    (resp : ResourceResponse) : result (Config.Config * ResourceResponse) :=
  let! meta :=
    Config.AddFwModuleToMetalGoUserAgent meta (wreq_ProviderMeta req) in
  let '(diags, plan) := Plan_Get (wreq_Plan req) in
  let resp := appendDiags diags resp in
  if HasError (resp_Diagnostics resp) then Return (meta, resp)
  else
    let createRequest :=
      {| create_Label := ValueStringPointer (Name plan);
         create_Key := ValueStringPointer (PublicKey plan) |} in
    let projectId := ValueString (ProjectID plan) in
    let '(key, _, err) := CreateProjectSSHKey projectId createRequest in
    match err with
    | Some err =>
        Return (meta,
                {| resp_Diagnostics :=
                     AddError (resp_Diagnostics resp)
                       "Failed to create Project SSH Key"
                       (Config.Error (FriendlyError err));
                   resp_State := resp_State resp |})
    | None =>
        let! (diags, plan) := parse plan key in
        let resp := appendDiags diags resp in
        if HasError (resp_Diagnostics resp) then Return (meta, resp)
        else
          let '(diags, st) := State_Set (resp_State resp) plan in
          Return (meta,
                  {| resp_Diagnostics :=
                       Append (resp_Diagnostics resp) diags;
                     resp_State := st |})
    end.

(** The request body of [Update]: a field is set only where the plan
    differs from the state. *)
Definition updateRequest (state plan : ResourceModel) : SSHKeyInput :=
  let updateRequest := {| input_Label := None; input_Key := None |} in
  let updateRequest :=
    if negb (Equal (Name state) (Name plan)) then
      {| input_Label := ValueStringPointer (Name plan);
         input_Key := input_Key updateRequest |}
    else updateRequest in
  let updateRequest :=
    if negb (Equal (PublicKey state) (PublicKey plan)) then
      {| input_Label := input_Label updateRequest;
         input_Key := ValueStringPointer (PublicKey plan) |}
    else updateRequest in
  updateRequest.

Definition Update (meta : Config.Config) (req : WriteRequest)
    (resp : ResourceResponse) : result (Config.Config * ResourceResponse) :=
  let! meta :=
    Config.AddFwModuleToMetalGoUserAgent meta (wreq_ProviderMeta req) in
  let '(diags, plan) := Plan_Get (wreq_Plan req) in
  let resp := appendDiags diags resp in
  let '(diags, state) := State_Get (wreq_State req) in
  let resp := appendDiags diags resp in
  if HasError (resp_Diagnostics resp) then Return (meta, resp)
  else
    let id := ValueString (ID plan) in
    let updateRequest := updateRequest state plan in
    let '(key, _, err) := UpdateSSHKey id updateRequest in
    match err with
    | Some err =>
        let err := FriendlyError err in
        Return (meta,
                {| resp_Diagnostics :=
                     AddError (resp_Diagnostics resp)
                       "Error updating resource"
                       ("Could not update resource with ID " +:+ id
                        +:+ ": " +:+ Config.Error err);
                   resp_State := resp_State resp |})
    | None =>
        let! (diags, plan) := parse plan key in
        let resp := appendDiags diags resp in
        if HasError (resp_Diagnostics resp) then Return (meta, resp)
        else
          let '(diags, st) := State_Set (resp_State resp) plan in
          Return (meta,
                  {| resp_Diagnostics :=
                       Append (resp_Diagnostics resp) diags;
                     resp_State := st |})
    end.

End WithWriteApi.

End ProjectSSHKeyWrite.

(** * The vocabulary of the properties

    What the statements below speak of, and the inputs they are run on.
    Nothing here embeds source code. *)

(** ** Texts a regular expression matches *)

Module RegexpSpec.
Import Regexp.

Inductive matches : re -> string -> Prop :=
| MEps : matches Eps EmptyString
| MLit (c : ascii) : matches (Lit c) (String c EmptyString)
| MDigit (c : ascii) : isDigit c = true -> matches Digit (String c EmptyString)
| MCat (r s : re) (u v : string) :
    matches r u -> matches s v -> matches (Cat r s) (u +:+ v)
| MAltL (r s : re) (u : string) : matches r u -> matches (Alt r s) u
| MAltR (r s : re) (u : string) : matches s u -> matches (Alt r s) u
| MPlusOne (r : re) (u : string) : matches r u -> matches (Plus r) u
| MPlusMore (r : re) (u v : string) :
    matches r u -> matches (Plus r) v -> matches (Plus r) (u +:+ v).

(** A non-empty run of ASCII digits. *)
Fixpoint digits (s : string) : bool :=
  match s with
  | EmptyString => false
  | String c EmptyString => isDigit c
  | String c s' => isDigit c && digits s'
  end.

End RegexpSpec.

(** ** Package [config] *)

Module ConfigSpec.
Import Go.
Import Config.

(** A byte that no space rune begins or ends with: ASCII and not one of
    the six ASCII spaces. *)
Definition plainByte (c : ascii) : bool :=
  Nat.ltb (nat_of_ascii c) 128 && negb (asciiSpace c).

(** No credential form is present: no static token, an incomplete
    client-id/client-secret pair, no auth token. *)
Definition noCredentials (c : Config) : Prop :=
  Token c = EmptyString
  /\ (ClientID c = EmptyString \/ ClientSecret c = EmptyString)
  /\ AuthToken c = EmptyString.

(** [Load] returned the error made by [fmt.Errorf] on this message. *)
Definition failsWith (r : result (Config * option error)) (msg : string)
  : Prop :=
  exists c', r = Return (c', Some (errorString msg)).

Definition clientsPopulated (c : Config) : Prop :=
  is_Some (Ecx c) /\ is_Some (Ne c) /\ is_Some (Metal c)
  /\ is_Some (Metalgo c) /\ is_Some (FabricClient c).

(** A number written in decimal digits: not empty, and every byte
    between 0 and 9. *)
Definition decimal (n : string) : Prop :=
  n <> EmptyString
  /\ Forall (fun c => (48 <= nat_of_ascii c <= 57)%nat)
       (String.list_ascii_of_string n).

(** The text ends with the message of the redirect limit of the HTTP
    client: "stopped after", a number, "redirects". *)
Definition redirectLimitText (s : string) : Prop :=
  exists before n,
    decimal n /\ s = before +:+ "stopped after " +:+ n +:+ " redirects".

Section WithPlatform.
Context `{Platform}.

(** A redirect-limit error, as the HTTP client reports it: a
    [*url.Error] whose text ends with the message of the limit. *)
Definition redirectLimitExceeded (e : error) : Prop :=
  (exists op url inner, e = urlError op url inner)
  /\ redirectLimitText (Error e).

(** A [*url.Error] whose [Err] is an [x509.UnknownAuthorityError] value
    itself. *)
Definition bareUnknownAuthority (e : error) : Prop :=
  exists op url msg, e = urlError op url (UnknownAuthorityError msg).

(** A certificate signed by an unknown authority, as the TLS handshake
    of the HTTP client reports it: a [*url.Error] around a
    [*tls.CertificateVerificationError] around the
    [x509.UnknownAuthorityError]. *)
Definition certificateTrustFailure (e : error) : Prop :=
  exists op url msg,
    e = urlError op url
          (certificateVerificationError (UnknownAuthorityError msg)).

(** What [generateFwModuleUserAgentString] reads: the metadata of the
    request into a fresh [ProviderMeta]. *)
Definition metadataRead (meta : tfsdkConfig)
  : Diag.Diagnostics * ProviderMeta :=
  tfsdk_Get ProviderMeta_tag meta {| ModuleName := EmptyString |}.

(** The layers of the identifying string. *)
Definition hostFrameworkIdentity (version : string) : string :=
  "HashiCorp Terraform/" +:+ version +:+ " (+https://www.terraform.io)".

Definition sdkIdentity : string := "Terraform Plugin SDK/" +:+ SDKVersionString.

Definition productIdentity (suffix : string) : string :=
  "terraform-provider-equinix/" +:+ ProviderVersion +:+ " " +:+ suffix.

(** The value of TF_APPEND_USER_AGENT, trimmed, when something is left
    of it. *)
Definition appendedIdentity : list string :=
  let add := TrimSpace (os_Getenv uaEnvVar) in
  if is_empty add then [] else [add].

(** The identity made of the host-framework, SDK and product layers
    alone. *)
Definition fourLayers (c : Config) (suffix : string) : string :=
  Join [hostFrameworkIdentity (TerraformVersion c); sdkIdentity;
        productIdentity suffix] " ".

(** The text that [NewMetalClient] hands to the packngo constructor. *)
Definition metalEndpoint (baseURL : URL) : string :=
  URL_String
    (set_url_Path (path_Join (url_Path baseURL) metalBasePath +:+ "/") baseURL).

End WithPlatform.

(** A platform to run the definitions on: no environment variable is
    set, the URL parser accepts what does not start with a colon, the
    token exchange answers with a token. *)
Definition samplePlatform : Platform :=
  {| strconv_Quote := quoted;
     os_Getenv := fun _ => EmptyString;
     SDKVersionString := "2.31.0";
     ProviderVersion := "1.20.0";
     oauth2_Token := fun _ _ _ => (Some {| tok_AccessToken := "acquired" |}, None);
     url_Parse := fun s =>
       match s with
       | String ":" _ => None
       | _ => Some {| url_Scheme := "https"; url_Host := s;
                      url_Path := EmptyString; url_RawQuery := EmptyString |}
       end;
     URL_String := fun u => url_Scheme u +:+ "://" +:+ url_Host u +:+ url_Path u;
     path_Join := fun a b => a +:+ b;
     packngo_NewClientWithBaseURL := fun consumer key client base =>
       Some {| packngo_UserAgent := "packngo/0.30.0";
               packngo_BaseURL := base;
               packngo_ConsumerToken := consumer;
               packngo_APIKey := key;
               packngo_http := client |};
     metalv1_NewConfiguration :=
       {| mg_Servers := []; mg_HTTPClient := None; mg_DefaultHeader := ∅;
          mg_UserAgent := "metal-go/0.29.0" |};
     correlationId := fun _ => "0123456789abcdefghijklmno" |}.

(** [samplePlatform] with TF_APPEND_USER_AGENT set. *)
Definition appendingPlatform : Platform :=
  {| strconv_Quote := @strconv_Quote samplePlatform;
     os_Getenv := fun name =>
       if String.eqb name uaEnvVar then "  ci/42 " else EmptyString;
     SDKVersionString := @SDKVersionString samplePlatform;
     ProviderVersion := @ProviderVersion samplePlatform;
     oauth2_Token := @oauth2_Token samplePlatform;
     url_Parse := @url_Parse samplePlatform;
     URL_String := @URL_String samplePlatform;
     path_Join := @path_Join samplePlatform;
     packngo_NewClientWithBaseURL := @packngo_NewClientWithBaseURL samplePlatform;
     metalv1_NewConfiguration := @metalv1_NewConfiguration samplePlatform;
     correlationId := @correlationId samplePlatform |}.

(** The configuration of the test of part_001, with a static token. *)
Definition sampleConfig : Config :=
  {| BaseURL := "https://api.equinix.com"; AuthToken := EmptyString;
     ClientID := EmptyString; ClientSecret := EmptyString;
     MaxRetries := 10; MaxRetryWait := 30 * Second; RequestTimeout := 0;
     PageSize := 100; Token := "fakeTokenForMock";
     Ecx := None; Ne := None; Metal := None; Metalgo := None;
     ecxUserAgent := EmptyString; neUserAgent := EmptyString;
     metalUserAgent := EmptyString; metalGoUserAgent := EmptyString;
     TerraformVersion := "1.5.7"; FabricClient := None;
     FabricAuthToken := EmptyString |}.

(** The zero value of [Config]. *)
Definition emptyConfig : Config :=
  {| BaseURL := EmptyString; AuthToken := EmptyString;
     ClientID := EmptyString; ClientSecret := EmptyString;
     MaxRetries := 0; MaxRetryWait := 0; RequestTimeout := 0;
     PageSize := 0; Token := EmptyString;
     Ecx := None; Ne := None; Metal := None; Metalgo := None;
     ecxUserAgent := EmptyString; neUserAgent := EmptyString;
     metalUserAgent := EmptyString; metalGoUserAgent := EmptyString;
     TerraformVersion := EmptyString; FabricClient := None;
     FabricAuthToken := EmptyString |}.

(** A provider_meta block that names a module, for the plugin
    framework and for the plugin SDK. *)
Definition namedModule : tfsdkConfig :=
  {| meta_attributes := {["module_name" := "equinix-fabric-modules"]} |}.

Definition namedData : ResourceData :=
  {| pm_err := None;
     pm_value := {| ModuleName := "equinix-fabric-modules" |} |}.

Definition redirectLimitError : error :=
  urlError "Get" "https://api.equinix.com/metal/v1/projects"
    (errorString "stopped after 10 redirects").

(** What a request to a server with a certificate of an unknown
    authority ends in. *)
Definition untrustedCertificateError : error :=
  urlError "Get" "https://api.equinix.com/metal/v1/projects"
    (certificateVerificationError
       (UnknownAuthorityError
          "x509: certificate signed by unknown authority")).

End ConfigSpec.

(** ** Fabric schema mapping *)

Module FabricSpec.
Import Go.
Import Fabric.

(** The ["type"] and ["uuid"] strings of a well-formed element of the
    service-token list, as the schema delivers it. *)
Definition tokenFields (x : iface) : option (string * string) :=
  match x with
  | IMap m =>
      match m !! "type", m !! "uuid" with
      | Some (AString stType), Some (AString uuid) => Some (stType, uuid)
      | _, _ => None
      end
  | IAtom _ => None
  end.

Definition invalidType (stType : string) : bool :=
  negb (is_empty stType) && negb (String.eqb stType "VC_TOKEN").

(** The type of the first element whose type is neither empty nor
    VC_TOKEN. *)
Fixpoint firstInvalid (fields : list (string * string)) : option string :=
  match fields with
  | [] => None
  | (stType, _) :: rest =>
      if invalidType stType then Some stType else firstInvalid rest
  end.

(** The service token of an element: [Type_] is set when the type is
    not empty. *)
Definition tokenOf (field : string * string) : ServiceToken :=
  {| Type_ := if is_empty field.1 then None else Some field.1;
     Uuid := field.2 |}.

(** The call returned a non-nil error. *)
Definition failed {A} (r : result (A * option error)) : Prop :=
  exists a e, r = Return (a, Some e).

Definition vcToken (uuid : string) : iface :=
  IMap (<["uuid" := AString uuid]> (<["type" := AString "VC_TOKEN"]> ∅)).

Definition untypedToken (uuid : string) : iface :=
  IMap (<["uuid" := AString uuid]> (<["type" := AString EmptyString]> ∅)).

End FabricSpec.

(** ** The project SSH key resource *)

Module ProjectSSHKeySpec.
Import Go.
Import Diag.
Import ProjectSSHKey.

Section WithCollaborators.
Context `{Config.Platform} `{Collaborators}.



End WithCollaborators.

(** The warning [Read] adds when the key is gone. *)
Definition notFoundWarning (id : string) : Diagnostic :=
  mkDiagnostic SeverityWarning
    "Equinix Metal Project SSHKey not found during refresh"
    ("[WARN] SSHKey (" +:+ id +:+ ") not found, removing from state").

Definition notFound : error :=
  foreignError "metalv1.GenericOpenAPIError" "404 Not Found".

Definition serverError : error :=
  foreignError "metalv1.GenericOpenAPIError" "500 Internal Server Error".

Definition hasStatus (code : Z) (resp : option Response) (err : option error)
  : bool :=
  match resp, err with
  | Some r, Some _ => StatusCode r =? code
  | _, _ => false
  end.

Definition modelOf (st : State) : ResourceModel :=
  match st with
  | StateObject raw =>
      {| ID := default StringNull (raw !! "id");
         Name := default StringNull (raw !! "name");
         PublicKey := default StringNull (raw !! "public_key");
         ProjectID := default StringNull (raw !! "project_id") |}
  | StateNull =>
      {| ID := StringNull; Name := StringNull; PublicKey := StringNull;
         ProjectID := StringNull |}
  end.

(** A vendor that answers every lookup and every delete with [failure]
    and the status code [code]; [parse] leaves the model as it is. *)
Definition failingVendor (code : Z) (failure : error) : Collaborators :=
  {| SSHKey := unit;
     FindSSHKeyById := fun _ =>
       (None, Some {| StatusCode := code |}, Some failure);
     DeleteSSHKey := fun _ => (Some {| StatusCode := code |}, Some failure);
     FriendlyError := fun e => e;
     IsNotFound := fun e => bool_decide (e = notFound);
     HttpForbidden := hasStatus 403;
     HttpNotFound := hasStatus 404;
     parse := fun m _ => Return ([], m);
     State_Get := fun st => ([], modelOf st);
     State_Set := fun st _ => ([], st) |}.

(** [failingVendor] with a [parse] that reads through the key pointer
    it is given, and so panics on the nil key of a failed call. *)
Definition nilKeyVendor (code : Z) (failure : error) : Collaborators :=
  {| SSHKey := unit;
     FindSSHKeyById := fun _ =>
       (None, Some {| StatusCode := code |}, Some failure);
     DeleteSSHKey := fun _ => (Some {| StatusCode := code |}, Some failure);
     FriendlyError := fun e => e;
     IsNotFound := fun e => bool_decide (e = notFound);
     HttpForbidden := hasStatus 403;
     HttpNotFound := hasStatus 404;
     parse := fun m key =>
       match key with
       | Some _ => Return ([], m)
       | None => Panic "invalid memory address or nil pointer dereference"
       end;
     State_Get := fun st => ([], modelOf st);
     State_Set := fun st _ => ([], st) |}.

Definition sampleClient : Config.MetalGoClient :=
  {| Config.mg_cfg := @Config.metalv1_NewConfiguration ConfigSpec.samplePlatform |}.

Definition loadedConfig : Config.Config :=
  Config.set_Metalgo (Some sampleClient) ConfigSpec.sampleConfig.

Definition storedKey : State :=
  StateObject (<["id" := StringValue "key-1"]> ∅).

Definition sampleRequest : Request :=
  {| req_ProviderMeta := ConfigSpec.namedModule; req_State := storedKey |}.

Definition freshResponse : ResourceResponse :=
  {| resp_Diagnostics := []; resp_State := storedKey |}.

End ProjectSSHKeySpec.

(** ** Waiting for a hardware reservation *)

Module ReservationSpec.
Import Go.
Import Reservation.

(** The time of tick [k]. *)
Definition tickTime (interval : Z) (k : nat) : Z := Z.of_nat k * interval.

(** Tick [k] gets to fetch: the context is alive and the deadline has
    not passed. *)
Definition live (ctxErr : Z -> option error) (interval maxWait : Z) (k : nat)
  : Prop :=
  ctxErr (tickTime interval k) = None /\ tickTime interval k <= maxWait.

(** The observation of tick [k] keeps the wait going: the reservation is
    not provisionable and shows no new instance identity. *)
Definition pending (fetch : nat -> Fetch) (instanceId : string) (k : nat)
  : Prop :=
  exists r, fetch k = Fetched r
            /\ Provisionable r = false
            /\ identityChanged instanceId r = false.

(** The status fetch against the mock server of the test, which asks for
    the device. *)
Definition mockFetch (handler : bool -> nat -> Reply) (n : nat) : Fetch :=
  sdkFetch (handler true n).

(** [context.Background()] *)
Definition neverCancelled (t : Z) : option error := None.


End ReservationSpec.

(** ** Fabric schema mapping, the other mappers *)

Module FabricMappersSpec.
Import Go.
Import Fabric.
Import FabricMappers.

(** The call returned: it did not panic. *)
Definition returns {A} (r : result A) : Prop := exists a, r = Return a.

(** The key and the value of a well-formed element of the
    additional-information list: a map with a string under ["key"] and a
    string under ["value"]. *)
Definition infoFields (x : iface) : option ConnectionSideAdditionalInfo :=
  match x with
  | IMap m =>
      match m !! "key", m !! "value" with
      | Some (AString key), Some (AString value) =>
          Some {| ai_Key := key; ai_Value := value |}
      | _, _ => None
      end
  | IAtom _ => None
  end.

(** The list that reading the attribute back gives for a slice of maps;
    a nil slice reads as the empty list. *)
Definition terraList (ms : option (list (gmap string atom))) : list iface :=
  IMap <$> default [] ms.

(** Of a list with one more element at its end, only that element
    counts. *)
Definition lastWins {A} (f : list iface -> result A) : Prop :=
  forall (l : list iface) (x : iface), returns (f l) -> f (l ++ [x]) = f [x].

(** The values of an [int32]. *)
Definition isInt32 (n : Z) : Prop := - 2 ^ 31 <= n < 2 ^ 31.

(** What [schema.NewSet] was given: one nil placeholder, then the map. *)
Definition placeholderThen (m : gmap string atom) (s : option SchemaSet)
  : Prop :=
  exists hashOf, s = Some (NewSet hashOf [IAtom ANil; IMap m]).

(** What [schema.NewSet] was given: the items and nothing else. *)
Definition itemsAre (items : list iface) (s : option SchemaSet) : Prop :=
  exists hashOf, s = Some (NewSet hashOf items).

Section WithVendor.
Context `{Vendor}.

(** The three patches of a connection, each of one operation. *)
Definition namePatch (name : string)
  : list (ConnectionChangeOperation AWSSecrets) :=
  [{| Op := "replace"; Path := "/name";
      Value := OVGet (DAtom (AString name)) |}].

Definition bandwidthPatch (bandwidth : Z)
  : list (ConnectionChangeOperation AWSSecrets) :=
  [{| Op := "replace"; Path := "/bandwidth";
      Value := OVGet (DAtom (AInt bandwidth)) |}].

Definition secretsPatch (awsSecrets : AWSSecrets)
  : list (ConnectionChangeOperation AWSSecrets) :=
  [{| Op := "add"; Path := EmptyString;
      Value := OVAdditionalInfo awsSecrets |}].

(** The operation that replaces what is at [path] by [v]. *)
Definition replaceOp (path : string) (v : dvalue)
  : ConnectionChangeOperation AWSSecrets :=
  {| Op := "replace"; Path := path; Value := OVGet v |}.

(** The resource data holds a string name, an int bandwidth and a list
    of additional information, out of which the helper picks [secrets]
    and says whether the AWS secrets are there. *)
Definition desired (d : ResourceDataValues) (name : string) (bandwidth : Z)
    (secrets : AWSSecrets) (hasSecrets : bool) : Prop :=
  Get d "name" = DAtom (AString name)
  /\ Get d "bandwidth" = DAtom (AInt bandwidth)
  /\ exists info,
       Get d "additional_info" = DList info
       /\ additionalInfoContainsAWSSecrets info = Return (secrets, hasSecrets).

(** The connection has an operation with a provider status. *)
Definition providerStatus (conn : Connection) (status : string) : Prop :=
  exists operation,
    conn_Operation conn = Some operation
    /\ op_ProviderStatus operation = Some status.

(** The secrets are to be added: the provider waits for approval and the
    AWS secrets are there. *)
Definition secretsDue (status : string) (hasSecrets : bool) : Prop :=
  status = PENDING_APPROVAL_ProviderStatus /\ hasSecrets = true.

End WithVendor.

(** A vendor to run the definitions on: the helper hands back the list
    it is given, and finds the secrets when that has two elements. *)
Definition sampleVendor : Vendor :=
  {| AWSSecrets := list iface;
     additionalInfoContainsAWSSecrets := fun info =>
       Return (info, bool_decide (length info = 2%nat));
     PENDING_APPROVAL_ProviderStatus := "PENDING_APPROVAL" |}.

Definition sampleData (name : string) (bandwidth : Z) (info : list iface)
  : ResourceDataValues :=
  {| Get := fun key =>
       if String.eqb key "name" then DAtom (AString name)
       else if String.eqb key "bandwidth" then DAtom (AInt bandwidth)
       else if String.eqb key "additional_info" then DList info
       else DAtom ANil |}.

Definition sampleConnection (status : string) : Connection :=
  {| conn_Name := "primary"; conn_Bandwidth := 50;
     conn_Operation := Some {| op_ProviderStatus := Some status |} |}.

Definition sampleInfo (key value : string) : iface :=
  IMap (<["value" := AString value]> (<["key" := AString key]> ∅)).

Definition uuidOnly (uuid : string) : iface :=
  IMap (<["uuid" := AString uuid]> ∅).

Definition sampleProtocol (ipv4 ipv6 : bool) : RoutingProtocolData :=
  {| rp_BgpIpv4 :=
       Some {| b4_CustomerPeerIp := "10.1.1.2"; b4_EquinixPeerIp := "10.1.1.3";
               b4_Enabled := ipv4 |};
     rp_BgpIpv6 :=
       Some {| b6_CustomerPeerIp := "2001:db8::2";
               b6_EquinixPeerIp := "2001:db8::3"; b6_Enabled := ipv6 |};
     rp_Uuid := "rp-1" |}.

End FabricMappersSpec.

(** ** Package [config], what [Load] leaves behind *)

Module ConfigLoadSpec.
Import Go.
Import Config.

(** The fields that configure the provider, as against the clients and
    the identities that [Load] derives from them. *)
Definition sameSettings (c c' : Config) : Prop :=
  BaseURL c' = BaseURL c /\ AuthToken c' = AuthToken c
  /\ ClientID c' = ClientID c /\ ClientSecret c' = ClientSecret c
  /\ MaxRetries c' = MaxRetries c /\ MaxRetryWait c' = MaxRetryWait c
  /\ RequestTimeout c' = RequestTimeout c /\ PageSize c' = PageSize c
  /\ Token c' = Token c /\ TerraformVersion c' = TerraformVersion c.

(** Every client sends the identity that the configuration recorded for
    it. *)
Definition recordedAgents (c : Config) : Prop :=
  rest_headers <$> Ecx c = Some {["User-agent" := ecxUserAgent c]}
  /\ rest_headers <$> Ne c = Some {["User-agent" := neUserAgent c]}
  /\ packngo_UserAgent <$> Metal c = Some (metalUserAgent c)
  /\ (mg_UserAgent ∘ mg_cfg) <$> Metalgo c = Some (metalGoUserAgent c).

(** The identity that the metal-go client sends. *)
Definition metalGoAgent (c : Config) : option string :=
  (mg_UserAgent ∘ mg_cfg) <$> Metalgo c.

(** The identity that the packngo client sends. *)
Definition metalAgent (c : Config) : option string :=
  packngo_UserAgent <$> Metal c.

Section WithPlatform.
Context `{Platform}.

(** The token exchange, where [Load] attempts it, gives no error. *)
Definition exchangeSucceeds (c : Config) : Prop :=
  Token c = EmptyString ->
  ClientID c <> EmptyString -> ClientSecret c <> EmptyString ->
  (oauth2_Token (ClientID c) (ClientSecret c) (BaseURL c)).2 = None.

(** The URL parser accepts the base URL and the packngo constructor
    hands back a client for the Metal endpoint under it. *)
Definition metalReachable (c : Config) : Prop :=
  exists baseURL client,
    url_Parse (BaseURL c) = Some baseURL
    /\ packngo_NewClientWithBaseURL consumerToken (AuthToken c)
         (metalStandardClient c "Equinix Metal (packngo)")
         (ConfigSpec.metalEndpoint baseURL)
       = Some client.

(** [Load] returned without an error. *)
Definition loaded (ctx : Context) (c c' : Config) : Prop :=
  Load ctx c = Return (c', None).

End WithPlatform.

(** Client credentials in place of the static token of
    [ConfigSpec.sampleConfig], and a fabric token set beforehand. *)
Definition exchangingConfig : Config :=
  set_FabricAuthToken "preset"
    (mkConfig "https://api.equinix.com" EmptyString "id" "secret"
       10 (30 * Second) 0 100 EmptyString None None None None
       EmptyString EmptyString EmptyString EmptyString "1.5.7" None
       EmptyString).

(** The successful outcomes of [Load] on the two sample
    configurations. *)
Definition loadedSample : Config :=
  match @Load ConfigSpec.samplePlatform Background ConfigSpec.sampleConfig with
  | Return (c', None) => c'
  | _ => ConfigSpec.sampleConfig
  end.

Definition loadedExchanging : Config :=
  match @Load ConfigSpec.samplePlatform Background exchangingConfig with
  | Return (c', None) => c'
  | _ => exchangingConfig
  end.


End ConfigLoadSpec.

(** ** The project SSH key resource, the writing methods *)

Module ProjectSSHKeyWriteSpec.
Import Go.
Import Diag.
Import ProjectSSHKey.
Import ProjectSSHKeyWrite.
Import ProjectSSHKeySpec.

Section WithWriteApi.
Context `{Config.Platform} `{WriteApi}.

(** The diagnostic [Create] adds when the vendor call fails. *)
Definition createFailure (err : error) : Diagnostic :=
  mkDiagnostic SeverityError "Failed to create Project SSH Key"
    (Config.Error (FriendlyError err)).

(** The diagnostic [Update] adds when the vendor call fails. *)
Definition updateFailure (id : string) (err : error) : Diagnostic :=
  mkDiagnostic SeverityError "Error updating resource"
    ("Could not update resource with ID " +:+ id +:+ ": "
     +:+ Config.Error (FriendlyError err)).

(** The request body that [Create] sends for a plan. *)
Definition createBody (plan : ResourceModel) : SSHKeyCreateInput :=
  {| create_Label := ValueStringPointer (Name plan);
     create_Key := ValueStringPointer (PublicKey plan) |}.

End WithWriteApi.

(** No diagnostic of the response is dropped. *)
Definition keepsDiagnostics (resp resp' : ResourceResponse) : Prop :=
  forall d, d ∈ resp_Diagnostics resp -> d ∈ resp_Diagnostics resp'.


(** The writing calls of [failingVendor]: both answer with [failure]
    and the status code [code]; the plan is read like the state. *)
Definition failingWrites (code : Z) (failure : error)
  : @WriteApi (failingVendor code failure) :=
  {| CreateProjectSSHKey := fun _ _ =>
       (None, Some {| StatusCode := code |}, Some failure);
     UpdateSSHKey := fun _ _ =>
       (None, Some {| StatusCode := code |}, Some failure);
     Plan_Get := fun st => ([], modelOf st) |}.

Definition plannedKey : State :=
  StateObject
    (<["project_id" := StringValue "project-1"]>
       (<["public_key" := StringValue "ssh-ed25519 AAAA"]>
          (<["name" := StringValue "laptop"]>
             (<["id" := StringValue "key-1"]> ∅)))).

(** The response that [Create] is handed: no diagnostic, no state. *)
Definition emptyResponse : ResourceResponse :=
  {| resp_Diagnostics := []; resp_State := StateNull |}.

(** A response that already carries an error. *)
Definition earlierError : Diagnostic :=
  mkDiagnostic SeverityError "Earlier failure" "reported before the method".

Definition erroredResponse : ResourceResponse :=
  {| resp_Diagnostics := [earlierError]; resp_State := storedKey |}.

Definition sampleWriteRequest : WriteRequest :=
  {| wreq_ProviderMeta := ConfigSpec.namedModule; wreq_Plan := plannedKey;
     wreq_State := storedKey |}.

End ProjectSSHKeyWriteSpec.

(** ** Fabric schema mapping, the access point *)

Module FabricAccessPointSpec.
Import Go.
Import Fabric.
Import FabricMappers.
Import FabricAccessPoint.

(** Helpers to run the definitions on: a port is mapped like a network,
    by its uuid, and a location is mapped to nothing. *)
Definition sampleHelpers : Helpers :=
  {| SimplifiedPort := SimplifiedNetwork;
     port_Uuid := net_Uuid;
     portToFabric := networkToFabric;
     SimplifiedLocation := unit;
     LocationToFabric := fun _ => Return tt |}.

(** The map of an access point of the given type with nothing else in
    it: every set is empty and every string is empty. *)
Definition bareAccessPoint (typeVal : string) : gmap string apValue :=
  <["type" := APString typeVal]>
    (<["authentication_key" := APString EmptyString]>
       (<["provider_connection_id" := APString EmptyString]>
          (<["seller_region" := APString EmptyString]>
             (<["peering_type" := APString EmptyString]>
                (<["port" := APSet []]>
                   (<["profile" := APSet []]>
                      (<["location" := APSet []]>
                         (<["virtual_device" := APSet []]>
                            (<["interface" := APSet []]>
                               (<["network" := APSet []]>
                                  (<["router" := APSet []]>
                                     (<["gateway" := APSet []]>
                                        (<["link_protocol" := APSet []]>
                                           ∅))))))))))))).

Definition uuidItem (uuid : string) : iface :=
  FabricMappersSpec.uuidOnly uuid.

(** An element of the list of link protocols: a tagged VLAN. *)
Definition dot1q (tag : Z) : iface :=
  IMap (<["vlan_c_tag" := AInt 0]>
          (<["vlan_tag" := AInt tag]>
             (<["vlan_s_tag" := AInt 0]> (<["type" := AString "DOT1Q"]> ∅)))).

End FabricAccessPointSpec.

(** * Properties *)

(** ** Strings *)

Module StringFacts.
Import Go.
Import ConfigSpec.

Lemma append_cons (a : ascii) (s t : string) :
  String a s +:+ t = String a (s +:+ t).
Proof. reflexivity. Qed.

Lemma append_nil_r (s : string) : s +:+ EmptyString = s.
Proof.
  induction s as [|a s IH]; [reflexivity | ].
  rewrite append_cons, IH. reflexivity.
Qed.

Lemma append_assoc (s t u : string) : (s +:+ t) +:+ u = s +:+ t +:+ u.
Proof.
  induction s as [|a s IH]; [reflexivity | ].
  rewrite !append_cons, IH. reflexivity.
Qed.

Lemma append_empty (u v : string) :
  u +:+ v = EmptyString -> u = EmptyString /\ v = EmptyString.
Proof.
  destruct u; [ | discriminate ].
  intros Hv. change (v = EmptyString) in Hv. now subst.
Qed.

Lemma is_empty_eq (s : string) : is_empty s = true <-> s = EmptyString.
Proof. destruct s; simpl; split; congruence. Qed.

Lemma length_pos_not_empty (s : string) :
  (0 <? String.length s)%nat = negb (is_empty s).
Proof. destruct s; reflexivity. Qed.

Lemma rev_app_append (s t acc : string) :
  String.rev_app (s +:+ t) acc = String.rev_app t (String.rev_app s acc).
Proof.
  revert acc. induction s as [|a s IH]; intros acc; [reflexivity | ].
  rewrite append_cons. simpl. apply IH.
Qed.

Lemma rev_app_rev_app (s acc acc' : string) :
  String.rev_app (String.rev_app s acc) acc' = String.rev_app acc (s +:+ acc').
Proof.
  revert acc acc'. induction s as [|a s IH]; intros acc acc'; [reflexivity | ].
  simpl. rewrite IH. simpl. now rewrite append_cons.
Qed.

Lemma rev_involutive (s : string) : String.rev (String.rev s) = s.
Proof.
  unfold String.rev. rewrite rev_app_rev_app. simpl. apply append_nil_r.
Qed.

Lemma rev_snoc (s : string) (c : ascii) :
  String.rev (s +:+ String c EmptyString) = String c (String.rev s).
Proof. unfold String.rev. now rewrite rev_app_append. Qed.

(** Closes a goal [space2 .. = false] or [space3 .. = false] once the
    plain byte in it is known to be below 128. *)
Ltac not_a_space c :=
  repeat match goal with
         | |- context [Nat.eqb (nat_of_ascii c) ?n] =>
             destruct (Nat.eqb_spec (nat_of_ascii c) n); [lia | ]
         | |- context [Nat.leb ?n (nat_of_ascii c)] =>
             destruct (Nat.leb_spec n (nat_of_ascii c)); [lia | ]
         end;
  repeat match goal with
         | |- context [Nat.eqb ?x ?y] => destruct (Nat.eqb x y)
         | |- context [Nat.leb ?x ?y] => destruct (Nat.leb x y)
         end;
  reflexivity.

Lemma plainByte_below (c : ascii) :
  plainByte c = true -> (nat_of_ascii c < 128)%nat /\ asciiSpace c = false.
Proof.
  unfold plainByte. intros [Hlt Hsp]%andb_true_iff.
  apply Nat.ltb_lt in Hlt. now apply negb_true_iff in Hsp.
Qed.

Lemma plainByte_not_space2_l (c : ascii) (b : nat) :
  plainByte c = true -> space2 (nat_of_ascii c) b = false.
Proof. intros [Hlt _]%plainByte_below. unfold space2. not_a_space c. Qed.

Lemma plainByte_not_space2_r (c : ascii) (a : nat) :
  plainByte c = true -> space2 a (nat_of_ascii c) = false.
Proof. intros [Hlt _]%plainByte_below. unfold space2. not_a_space c. Qed.

Lemma plainByte_not_space3_l (c : ascii) (b d : nat) :
  plainByte c = true -> space3 (nat_of_ascii c) b d = false.
Proof. intros [Hlt _]%plainByte_below. unfold space3. not_a_space c. Qed.

Lemma plainByte_not_space3_r (c : ascii) (a b : nat) :
  plainByte c = true -> space3 a b (nat_of_ascii c) = false.
Proof. intros [Hlt _]%plainByte_below. unfold space3. not_a_space c. Qed.

Lemma TrimLeft_plain (c : ascii) (s : string) :
  plainByte c = true -> TrimLeft (String c s) = String c s.
Proof.
  intros Hc. pose proof (plainByte_below c Hc) as [_ Hsp].
  destruct s as [|c2 [|c3 s3]]; simpl; rewrite Hsp; try reflexivity.
  - now rewrite plainByte_not_space2_l.
  - now rewrite plainByte_not_space2_l, plainByte_not_space3_l.
Qed.

Lemma TrimLeftRev_plain (c : ascii) (s : string) :
  plainByte c = true -> TrimLeftRev (String c s) = String c s.
Proof.
  intros Hc. pose proof (plainByte_below c Hc) as [_ Hsp].
  destruct s as [|c2 [|c3 s3]]; simpl; rewrite Hsp; try reflexivity.
  - now rewrite plainByte_not_space2_r.
  - now rewrite plainByte_not_space2_r, plainByte_not_space3_r.
Qed.

(** Trimming leaves alone a text that begins and ends with plain bytes. *)
Lemma TrimSpace_plain_ends (c : ascii) (body : string) (d : ascii) :
  plainByte c = true -> plainByte d = true ->
  TrimSpace (String c body +:+ String d EmptyString)
  = String c body +:+ String d EmptyString.
Proof.
  intros Hc Hd. unfold TrimSpace. rewrite append_cons, TrimLeft_plain by done.
  unfold TrimRight. rewrite <- append_cons, rev_snoc, TrimLeftRev_plain by done.
  rewrite <- rev_snoc. apply rev_involutive.
Qed.

Example TrimSpace_trims_both_ends :
  TrimSpace (String (byte 9) "  ci/42 " +:+ String (byte 194) (String (byte 160) EmptyString))
  = "ci/42".
Proof. vm_compute. reflexivity. Qed.

End StringFacts.

(** ** The regular-expression matcher *)

Module RegexpFacts.
Import Regexp.
Import RegexpSpec.
Import StringFacts.

Lemma matches_Void_inv (w : string) : ~ matches Void w.
Proof. inversion 1. Qed.

Lemma matches_Eps_inv (w : string) : matches Eps w -> w = EmptyString.
Proof. now inversion 1. Qed.

Lemma matches_Lit_inv (c : ascii) (w : string) :
  matches (Lit c) w -> w = String c EmptyString.
Proof. now inversion 1. Qed.

Lemma matches_Digit_inv (w : string) :
  matches Digit w -> exists c, w = String c EmptyString /\ isDigit c = true.
Proof. inversion 1; subst; eauto. Qed.

Lemma matches_Cat_inv (r s : re) (w : string) :
  matches (Cat r s) w ->
  exists u v, w = u +:+ v /\ matches r u /\ matches s v.
Proof. inversion 1; subst; eauto. Qed.

Lemma matches_Alt_inv (r s : re) (w : string) :
  matches (Alt r s) w -> matches r w \/ matches s w.
Proof. inversion 1; subst; tauto. Qed.

(** An iteration is one round, or one round and an iteration. *)
Lemma matches_Plus_inv (r : re) (w : string) :
  matches (Plus r) w ->
  exists u v, w = u +:+ v /\ matches r u
              /\ (v = EmptyString \/ matches (Plus r) v).
Proof.
  inversion 1; subst.
  - exists w, EmptyString. rewrite append_nil_r. tauto.
  - eauto 6.
Qed.

Lemma matches_Plus_empty (r : re) :
  matches (Plus r) EmptyString -> matches r EmptyString.
Proof.
  intros (u & v & Heq & Hu & _)%matches_Plus_inv.
  symmetry in Heq. now apply append_empty in Heq as [-> _].
Qed.

Lemma nullable_matches (r : re) : nullable r = true <-> matches r EmptyString.
Proof.
  induction r as [| | c | | r IHr s IHs | r IHr s IHs | r IHr]; simpl.
  - split; [discriminate | intros []%matches_Void_inv].
  - split; [constructor | reflexivity].
  - split; [discriminate | intros [=]%matches_Lit_inv].
  - split; [discriminate | intros (c & [=] & _)%matches_Digit_inv].
  - rewrite andb_true_iff, IHr, IHs. split.
    + intros [Hr Hs]. exact (MCat r s _ _ Hr Hs).
    + intros (u & v & Heq & Hr & Hs)%matches_Cat_inv.
      symmetry in Heq. apply append_empty in Heq as [-> ->]. tauto.
  - rewrite orb_true_iff, IHr, IHs. split.
    + intros [Hr | Hs]; [now apply MAltL | now apply MAltR].
    + apply matches_Alt_inv.
  - rewrite IHr. split; [apply MPlusOne | apply matches_Plus_empty].
Qed.

(** How a concatenation and an iteration match a text that begins with
    [c]. *)
Lemma matches_Cat_cons (r s : re) (c : ascii) (w : string) :
  matches (Cat r s) (String c w) ->
  (exists u v, w = u +:+ v /\ matches r (String c u) /\ matches s v)
  \/ (matches r EmptyString /\ matches s (String c w)).
Proof.
  intros (u & v & Heq & Hr & Hs)%matches_Cat_inv.
  destruct u as [|a u].
  - right. change (String c w = v) in Heq. subst. tauto.
  - left. rewrite append_cons in Heq. injection Heq as -> ->. eauto.
Qed.

Lemma matches_Plus_cons (r : re) (c : ascii) (w : string) :
  matches (Plus r) (String c w) ->
  exists u v, w = u +:+ v /\ matches r (String c u)
              /\ (v = EmptyString \/ matches (Plus r) v).
Proof.
  intros Hm. remember (Plus r) as p eqn:Hp. remember (String c w) as t eqn:Ht.
  revert w Ht.
  induction Hm as [| | | | | | r' u Hu | r' u v Hu _ Hv IHv]; try discriminate;
    intros w Ht; injection Hp as ->.
  - subst. exists w, EmptyString. rewrite append_nil_r. tauto.
  - destruct u as [|a u].
    + apply IHv; [reflexivity | exact Ht].
    + rewrite append_cons in Ht. injection Ht as -> <-.
      exists u, v. tauto.
Qed.

Lemma deriv_matches (r : re) :
  forall (c : ascii) (w : string),
    matches (deriv c r) w <-> matches r (String c w).
Proof.
  induction r as [| | d | | r IHr s IHs | r IHr s IHs | r IHr]; intros c w; simpl.
  - split; intros []%matches_Void_inv.
  - split; [intros []%matches_Void_inv | intros [=]%matches_Eps_inv].
  - destruct (Ascii.eqb_spec c d) as [-> | Hne]; split.
    + intros ->%matches_Eps_inv. constructor.
    + intros [= ->]%matches_Lit_inv. constructor.
    + intros []%matches_Void_inv.
    + intros [= -> ->]%matches_Lit_inv. congruence.
  - destruct (isDigit c) eqn:Hd; split.
    + intros ->%matches_Eps_inv. now constructor.
    + intros (c' & [= -> ->] & _)%matches_Digit_inv. constructor.
    + intros []%matches_Void_inv.
    + intros (c' & [= -> ->] & Hc)%matches_Digit_inv. congruence.
  - assert (Hcat : matches (Cat (deriv c r) s) w <->
                   exists u v, w = u +:+ v /\ matches r (String c u) /\ matches s v).
    { split.
      - intros (u & v & -> & Hr & Hs)%matches_Cat_inv.
        exists u, v. rewrite <- IHr. tauto.
      - intros (u & v & -> & Hr & Hs). apply MCat; [now apply IHr | assumption]. }
    destruct (nullable r) eqn:Hnull.
    + split.
      * intros [(u & v & -> & Hr & Hs)%Hcat | Hs%IHs]%matches_Alt_inv.
        -- rewrite <- append_cons. now apply MCat.
        -- apply nullable_matches in Hnull.
           change (String c w) with (EmptyString +:+ String c w). now apply MCat.
      * intros [Hsplit | [_ Hs]]%matches_Cat_cons.
        -- apply MAltL. now apply Hcat.
        -- apply MAltR. now apply IHs.
    + rewrite Hcat. split.
      * intros (u & v & -> & Hr & Hs). rewrite <- append_cons. now apply MCat.
      * intros [Hsplit | [Hr _]]%matches_Cat_cons; [assumption | ].
        apply nullable_matches in Hr. congruence.
  - split.
    + intros [Hr | Hs]%matches_Alt_inv; [apply MAltL, IHr | apply MAltR, IHs];
        assumption.
    + intros [Hr | Hs]%matches_Alt_inv; [apply MAltL, IHr | apply MAltR, IHs];
        assumption.
  - split.
    + intros (u & v & -> & Hr%IHr & Hv)%matches_Cat_inv.
      rewrite <- append_cons.
      apply matches_Alt_inv in Hv as [->%matches_Eps_inv | Hv].
      * rewrite append_nil_r. now apply MPlusOne.
      * now apply MPlusMore.
    + intros (u & v & -> & Hr & Hv)%matches_Plus_cons.
      apply MCat; [now apply IHr | ].
      destruct Hv as [-> | Hv]; [apply MAltL; constructor | now apply MAltR].
Qed.

Lemma fullmatch_matches (s : string) :
  forall r, fullmatch r s = true <-> matches r s.
Proof.
  induction s as [|c s IH]; intros r; simpl.
  - apply nullable_matches.
  - rewrite IH. apply deriv_matches.
Qed.

Lemma MatchStringToEnd_matches (r : re) (s : string) :
  MatchStringToEnd r s = true <->
  exists pre suf, s = pre +:+ suf /\ matches r suf.
Proof.
  induction s as [|c s IH]; cbn [MatchStringToEnd];
    rewrite orb_true_iff, fullmatch_matches.
  - split.
    + intros [Hm | [=]]. exists EmptyString, EmptyString. tauto.
    + intros (pre & suf & Heq & Hm). left.
      symmetry in Heq. apply append_empty in Heq as [_ ->]. assumption.
  - rewrite IH. split.
    + intros [Hm | (pre & suf & -> & Hm)].
      * exists EmptyString, (String c s). tauto.
      * exists (String c pre), suf. tauto.
    + intros (pre & suf & Heq & Hm). destruct pre as [|a pre].
      * left. change (String c s = suf) in Heq. now subst.
      * right. rewrite append_cons in Heq. injection Heq as -> ->. eauto.
Qed.

Lemma matches_lits (w s : string) : matches (lits w) s <-> s = w.
Proof.
  revert s. induction w as [|c w IH]; intros s; simpl.
  - split; [apply matches_Eps_inv | intros ->; constructor].
  - split.
    + intros (u & v & -> & ->%matches_Lit_inv & ->%IH)%matches_Cat_inv.
      reflexivity.
    + intros ->. change (String c w) with (String c EmptyString +:+ w).
      apply MCat; [constructor | now apply IH].
Qed.

Lemma matches_Plus_Digit (s : string) :
  matches (Plus Digit) s <-> digits s = true.
Proof.
  split.
  - intros Hm. remember (Plus Digit) as p eqn:Hp.
    induction Hm as [| | | | | | r' u Hu | r' u v Hu _ Hv IHv]; try discriminate;
      injection Hp as ->.
    + apply matches_Digit_inv in Hu as (c & -> & Hc). exact Hc.
    + apply matches_Digit_inv in Hu as (c & -> & Hc). specialize (IHv eq_refl).
      rewrite append_cons. change (EmptyString +:+ v) with v.
      destruct v; [discriminate | ]. simpl in *. now rewrite Hc.
  - induction s as [|c s IH]; [discriminate | ]. simpl.
    destruct s as [|c' s'].
    + intros Hc. apply MPlusOne. now constructor.
    + intros [Hc Hs]%andb_true_iff.
      change (String c (String c' s')) with (String c EmptyString +:+ String c' s').
      apply MPlusMore; [now constructor | now apply IH].
Qed.

Lemma matches_redirectsErrorRe (s : string) :
  matches Config.redirectsErrorRe s <->
  exists n, digits n = true /\ s = "stopped after " +:+ n +:+ " redirects".
Proof.
  unfold Config.redirectsErrorRe. split.
  - intros (u & v & -> & ->%matches_lits & Hv)%matches_Cat_inv.
    apply matches_Cat_inv in Hv as (n & t & -> & Hn%matches_Plus_Digit & ->%matches_lits).
    eauto.
  - intros (n & Hn & ->). apply MCat; [now apply matches_lits | ].
    apply MCat; [now apply matches_Plus_Digit | now apply matches_lits].
Qed.

End RegexpFacts.

(** ** Package [config] *)

Module ConfigFacts.
Import Go.
Import Config.
Import ConfigSpec.
Import StringFacts.

(** *** The retry policy *)

Section RetryPolicy.
Context `{Platform}.

Lemma isDigit_bounds (c : ascii) :
  Regexp.isDigit c = true <-> (48 <= nat_of_ascii c <= 57)%nat.
Proof.
  unfold Regexp.isDigit.
  rewrite andb_true_iff, !Nat.leb_le. tauto.
Qed.

Lemma digits_decimal (n : string) : RegexpSpec.digits n = true <-> decimal n.
Proof.
  unfold decimal. induction n as [|c n IH]; simpl.
  - split; [discriminate | intros [Hne _]; congruence].
  - destruct n as [|c' n'].
    + rewrite isDigit_bounds. simpl. split.
      * intros Hc. split; [discriminate | ]. constructor; [exact Hc | constructor].
      * intros [_ Hall]. now inversion Hall.
    + rewrite andb_true_iff, isDigit_bounds, IH. split.
      * intros [Hc [_ Hall]]. split; [discriminate | ].
        constructor; assumption.
      * intros [_ Hall]. inversion Hall as [|? ? Hc Hrest]; subst.
        split; [exact Hc | ]. split; [discriminate | exact Hrest].
Qed.

(** What the pattern of the policy accepts, in words: the text ends
    with "stopped after", a number in decimal digits, "redirects". *)
Lemma MatchStringToEnd_redirectLimit (s : string) :
  Regexp.MatchStringToEnd redirectsErrorRe s = true <-> redirectLimitText s.
Proof.
  rewrite RegexpFacts.MatchStringToEnd_matches. unfold redirectLimitText.
  setoid_rewrite RegexpFacts.matches_redirectsErrorRe.
  setoid_rewrite digits_decimal.
  split.
  - intros (before & suf & -> & n & Hn & ->). eauto.
  - intros (before & n & Hn & ->). eauto 6.
Qed.

(** C1. The decision of the Metal retry policy. A cancelled or expired
    context gives (false, the context's error) whatever the error is.
    With the context alive: no error gives (false, nil); a redirect-limit
    error, which is a [*url.Error] whose text ends with "stopped after",
    a number, "redirects", gives (false, nil); a [*url.Error] whose [Err]
    is an [x509.UnknownAuthorityError] value itself gives (false, nil);
    every other error gives (true, nil). And a certificate-trust failure
    as the TLS handshake reports it, with the
    [x509.UnknownAuthorityError] inside a
    [*tls.CertificateVerificationError], is one of these other errors:
    it is retried. *)
Theorem MetalRetryPolicy_decision_table
    (ctx : Context) (resp : option Response) (err : option error) :
  (forall cerr, ctx_Err ctx = Some cerr ->
     MetalRetryPolicy ctx resp err = (false, Some cerr))
  /\ (ctx_Err ctx = None ->
      (err = None -> MetalRetryPolicy ctx resp err = (false, None))
      /\ (forall e, err = Some e -> redirectLimitExceeded e ->
            MetalRetryPolicy ctx resp err = (false, None))
      /\ (forall e, err = Some e -> bareUnknownAuthority e ->
            MetalRetryPolicy ctx resp err = (false, None))
      /\ (forall e, err = Some e ->
            ~ redirectLimitExceeded e -> ~ bareUnknownAuthority e ->
            MetalRetryPolicy ctx resp err = (true, None))
      /\ (forall e, err = Some e ->
            certificateTrustFailure e -> ~ redirectLimitExceeded e ->
            MetalRetryPolicy ctx resp err = (true, None))).
Proof.
  unfold MetalRetryPolicy. split.
  - intros cerr ->. reflexivity.
  - intros ->. split; [intros ->; reflexivity | ].
    split; [ | split; [ | split]].
    + intros e -> [(op & url & inner & ->) Htext].
      apply MatchStringToEnd_redirectLimit in Htext. now rewrite Htext.
    + intros e -> (op & url & msg & ->).
      now destruct (Regexp.MatchStringToEnd _ _).
    + intros e -> Hredirect Hbare.
      destruct e as [| |op url inner| |]; try reflexivity.
      destruct (Regexp.MatchStringToEnd _ _) eqn:Hmatch.
      * exfalso. apply Hredirect. split; [eauto | ].
        now apply MatchStringToEnd_redirectLimit.
      * destruct inner; try reflexivity. exfalso. apply Hbare.
        unfold bareUnknownAuthority. eauto.
    + intros e -> (op & url & msg & ->) Hredirect.
      destruct (Regexp.MatchStringToEnd _ _) eqn:Hmatch; [ | reflexivity].
      exfalso. apply Hredirect. split; [eauto | ].
      now apply MatchStringToEnd_redirectLimit.
Qed.

End RetryPolicy.

(** The failure of a request to a server whose certificate no known
    authority signed: the policy asks for another attempt. *)
Lemma MetalRetryPolicy_decision_table_witness :
  @MetalRetryPolicy samplePlatform Background None
    (Some untrustedCertificateError)
  = (true, None).
Proof.
  destruct (@MetalRetryPolicy_decision_table samplePlatform Background None
              (Some untrustedCertificateError)) as [_ Hlive].
  destruct (Hlive eq_refl) as (_ & _ & _ & _ & Hcertificate).
  apply (Hcertificate untrustedCertificateError eq_refl).
  - unfold certificateTrustFailure, untrustedCertificateError. eauto.
  - intros [_ Htext].
    apply MatchStringToEnd_redirectLimit in Htext.
    vm_compute in Htext. discriminate.
Defined.

Example MetalRetryPolicy_redirect_limit :
  @MetalRetryPolicy samplePlatform Background None (Some redirectLimitError)
  = (false, None).
Proof. vm_compute. reflexivity. Qed.

Example MetalRetryPolicy_cancelled_context :
  @MetalRetryPolicy samplePlatform {| ctx_Err := Some Canceled |} None
    (Some redirectLimitError)
  = (false, Some Canceled).
Proof. reflexivity. Qed.

Example MetalRetryPolicy_unknown_authority :
  @MetalRetryPolicy samplePlatform Background None
    (Some (urlError "Get" "https://api.equinix.com"
             (UnknownAuthorityError "x509: certificate signed by unknown authority")))
  = (false, None).
Proof. vm_compute. reflexivity. Qed.

Example MetalRetryPolicy_connection_refused :
  @MetalRetryPolicy samplePlatform Background None
    (Some (urlError "Get" "https://api.equinix.com"
             (foreignError "*net.OpError" "dial tcp: connection refused")))
  = (true, None).
Proof. vm_compute. reflexivity. Qed.

(** *** The user agent *)

Section UserAgent.
Context `{Platform}.

Lemma terraformUserAgent_layers (version : string) :
  terraformUserAgent version
  = Join ([hostFrameworkIdentity version; sdkIdentity] ++ appendedIdentity) " ".
Proof.
  unfold terraformUserAgent, appendedIdentity, hostFrameworkIdentity, sdkIdentity.
  rewrite length_pos_not_empty.
  destruct (os_Getenv uaEnvVar) as [|a env] eqn:Henv.
  - cbn [is_empty negb]. change (TrimSpace EmptyString) with EmptyString.
    cbn [is_empty app Join]. rewrite ?append_assoc; reflexivity.
  - cbn [is_empty negb].
    destruct (is_empty (TrimSpace (String a env))); cbn [negb app Join];
      rewrite ?append_assoc; reflexivity.
Qed.

(** The base identity, layer by layer. *)
Lemma fullUserAgent_layers (c : Config) (suffix : string) :
  fullUserAgent c suffix
  = TrimSpace
      (Join ([hostFrameworkIdentity (TerraformVersion c); sdkIdentity]
             ++ appendedIdentity ++ [productIdentity suffix]) " ").
Proof.
  unfold fullUserAgent. rewrite terraformUserAgent_layers.
  unfold productIdentity, appendedIdentity. f_equal.
  destruct (is_empty (TrimSpace (os_Getenv uaEnvVar))); cbn [app Join];
    rewrite ?append_assoc; reflexivity.
Qed.

(** On the framework path the module name is never put in front: the
    one field of [ProviderMeta] carries a [cty] tag and no [tfsdk] tag,
    so reading the metadata reports an error whatever the block holds,
    and the base string is returned. The sibling on the SDK path,
    [generateModuleUserAgentString], reads by the [cty] tag. *)
Lemma generateFwModuleUserAgentString_returns_base
    (meta : tfsdkConfig) (base : string) :
  Diag.HasError (metadataRead meta).1 = true
  /\ generateFwModuleUserAgentString meta base = base.
Proof. split; reflexivity. Qed.

(** C7, as the code has it. The base identity is the host-framework
    identity, the SDK identity, the trimmed value of TF_APPEND_USER_AGENT
    when that is not blank, and the provider version followed by the
    vendor-SDK suffix, joined by single spaces and trimmed of surrounding
    white space. Where reading the request metadata fails or gives an
    empty module name, the base string is returned unchanged, on the
    framework path and on the SDK path; and on the SDK path a module
    name that is read without error and is not empty is put in front,
    followed by a space. *)
Theorem userAgent_layers
    (c : Config) (suffix : string) (meta : tfsdkConfig) (d : ResourceData)
    (base : string) :
  fullUserAgent c suffix
  = TrimSpace
      (Join ([hostFrameworkIdentity (TerraformVersion c); sdkIdentity]
             ++ appendedIdentity ++ [productIdentity suffix]) " ")
  /\ (Diag.HasError (metadataRead meta).1 = true
      \/ ModuleName (metadataRead meta).2 = EmptyString ->
      generateFwModuleUserAgentString meta base = base)
  /\ (pm_err d <> None \/ ModuleName (pm_value d) = EmptyString ->
      generateModuleUserAgentString d base = base)
  /\ (pm_err d = None -> ModuleName (pm_value d) <> EmptyString ->
      generateModuleUserAgentString d base
      = Join [ModuleName (pm_value d); base] " ").
Proof.
  split; [ | split; [ | split] ].
  - apply fullUserAgent_layers.
  - intros _. apply generateFwModuleUserAgentString_returns_base.
  - unfold generateModuleUserAgentString.
    intros [Herr | Hname].
    + destruct (pm_err d); [reflexivity | congruence].
    + rewrite Hname. now destruct (pm_err d).
  - intros Hok Hname. unfold generateModuleUserAgentString. rewrite Hok.
    destruct (is_empty (ModuleName (pm_value d))) eqn:Hemp;
      [ | reflexivity ].
    now apply is_empty_eq in Hemp.
Qed.

(** Where the base identity is exactly the three layers joined: nothing
    is appended through the environment and the suffix ends in a plain
    byte. *)
Lemma fullUserAgent_four_layers (c : Config) (body : string) (d : ascii) :
  TrimSpace (os_Getenv uaEnvVar) = EmptyString ->
  plainByte d = true ->
  fullUserAgent c (body +:+ String d EmptyString)
  = fourLayers c (body +:+ String d EmptyString).
Proof.
  intros Henv Hd.
  rewrite fullUserAgent_layers.
  unfold appendedIdentity. rewrite Henv. cbn [is_empty app].
  unfold fourLayers, productIdentity, hostFrameworkIdentity.
  cbn [Join]. rewrite <- !append_assoc.
  apply (TrimSpace_plain_ends "H"); [reflexivity | exact Hd].
Qed.

(** What goes out on a request of the metal-go client: the module name
    in front of the identity that [NewMetalGoClient] stored. *)
Lemma AddFwModuleToMetalGoUserAgent_sets (c : Config) (meta : tfsdkConfig)
    (client : MetalGoClient) :
  Metalgo c = Some client ->
  exists c',
    AddFwModuleToMetalGoUserAgent c meta = Return c'
    /\ (mg_UserAgent ∘ mg_cfg) <$> Metalgo c'
       = Some (generateFwModuleUserAgentString meta (metalGoUserAgent c)).
Proof.
  intros Hclient. unfold AddFwModuleToMetalGoUserAgent. rewrite Hclient.
  eexists. split; reflexivity.
Qed.

End UserAgent.

Lemma userAgent_layers_witness :
  @generateModuleUserAgentString namedData "base/1.0"
  = "equinix-fabric-modules base/1.0".
Proof.
  destruct (@userAgent_layers samplePlatform sampleConfig "equinix/ecx-go"
              namedModule namedData "base/1.0") as (_ & _ & _ & Hnamed).
  apply Hnamed; [reflexivity | discriminate].
Defined.

(** The same module name on the framework path: the base string comes
    back without it. *)
Example generateFwModuleUserAgentString_drops_module_name :
  @generateFwModuleUserAgentString namedModule "base/1.0" = "base/1.0".
Proof. reflexivity. Qed.

(** With TF_APPEND_USER_AGENT set the identity has one layer more: it is
    not the host-framework, SDK and product layers joined. *)
Lemma userAgent_has_appended_layer :
  @fullUserAgent appendingPlatform sampleConfig "equinix/ecx-go"
  = "HashiCorp Terraform/1.5.7 (+https://www.terraform.io) Terraform Plugin SDK/2.31.0 ci/42 terraform-provider-equinix/1.20.0 equinix/ecx-go"
  /\ @fullUserAgent appendingPlatform sampleConfig "equinix/ecx-go"
     <> @fourLayers appendingPlatform sampleConfig "equinix/ecx-go".
Proof. split; [vm_compute; reflexivity | vm_compute; discriminate]. Qed.

Example fullUserAgent_without_append :
  @fullUserAgent samplePlatform sampleConfig "equinix/ecx-go"
  = "HashiCorp Terraform/1.5.7 (+https://www.terraform.io) Terraform Plugin SDK/2.31.0 terraform-provider-equinix/1.20.0 equinix/ecx-go".
Proof. vm_compute. reflexivity. Qed.

(** *** Loading the configuration *)

(** [fmt.Errorf] is given the documented message as its format: the
    message has no verb in it, so it is the text of the error. *)
Example emptyCredentialsError_has_no_verb :
  existsb (Ascii.eqb "%") (String.list_ascii_of_string emptyCredentialsError)
  = false.
Proof. vm_compute. reflexivity. Qed.

Section Loading.
Context `{Platform}.

Lemma noCredentials_check (c : Config) :
  is_empty (Token c)
  && (is_empty (ClientID c) || is_empty (ClientSecret c))
  && is_empty (AuthToken c) = true
  <-> noCredentials c.
Proof.
  unfold noCredentials.
  rewrite !andb_true_iff, orb_true_iff, !is_empty_eq. tauto.
Qed.

Lemma authenticate_error (c : Config) (e : error) :
  authenticate c = inr e -> exists msg, e = foreignError "oauth2" msg.
Proof.
  unfold authenticate.
  destruct (negb (is_empty (Token c))); [discriminate | ].
  destruct (negb (is_empty (ClientID c)) && negb (is_empty (ClientSecret c)));
    [ | discriminate ].
  destruct (oauth2_Token _ _ _) as [[tke|] [msg|]]; intros [= <-]; eauto.
Qed.

Lemma NewMetalClient_returns (c : Config) (baseURL : URL) (cl : PackngoClient) :
  url_Parse (BaseURL c) = Some baseURL ->
  packngo_NewClientWithBaseURL consumerToken (AuthToken c)
    (metalStandardClient c "Equinix Metal (packngo)") (metalEndpoint baseURL)
  = Some cl ->
  exists ua,
    NewMetalClient c
    = Return (set_metalUserAgent ua c, packngo_setUserAgent ua cl).
Proof.
  intros Hparse Hnew. unfold NewMetalClient, metalBaseURL.
  rewrite Hparse. cbn [deref bind]. fold (metalEndpoint baseURL).
  rewrite Hnew. cbn [deref bind]. eexists. reflexivity.
Qed.

Lemma NewMetalGoClient_returns (c : Config) (baseURL : URL) :
  url_Parse (BaseURL c) = Some baseURL ->
  exists ua cl,
    NewMetalGoClient c = Return (set_metalGoUserAgent ua c, cl).
Proof.
  intros Hparse. unfold NewMetalGoClient, metalBaseURL.
  rewrite Hparse. cbn [deref bind]. eexists _, _. reflexivity.
Qed.

Lemma NewMetalClient_keeps (c c1 : Config) (cl : PackngoClient) :
  NewMetalClient c = Return (c1, cl) ->
  BaseURL c1 = BaseURL c /\ Ecx c1 = Ecx c /\ Ne c1 = Ne c.
Proof.
  unfold NewMetalClient.
  destruct (metalBaseURL c); cbn [bind]; [ | discriminate ].
  destruct (packngo_NewClientWithBaseURL _ _ _ _); cbn [deref bind];
    [ | discriminate ].
  now intros [= <- _].
Qed.

Lemma NewMetalGoClient_keeps (c c1 : Config) (cl : MetalGoClient) :
  NewMetalGoClient c = Return (c1, cl) ->
  Ecx c1 = Ecx c /\ Ne c1 = Ne c /\ Metal c1 = Metal c.
Proof.
  unfold NewMetalGoClient.
  destruct (metalBaseURL c); cbn [bind]; [ | discriminate ].
  now intros [= <- _].
Qed.

(** Whenever [Load] returns, it returns an error and the configuration
    as it was, or no error and a configuration with every client set. *)
Lemma Load_returns (ctx : Context) (c c' : Config) (err : option error) :
  Load ctx c = Return (c', err) ->
  match err with
  | Some e =>
      c' = c
      /\ (e = errorString "'baseURL' cannot be empty" /\ BaseURL c = EmptyString
          \/ e = errorString emptyCredentialsError
             /\ BaseURL c <> EmptyString /\ noCredentials c
          \/ exists msg, e = foreignError "oauth2" msg)
  | None => clientsPopulated c'
  end.
Proof.
  unfold Load.
  destruct (is_empty (BaseURL c)) eqn:Hbase.
  { intros [= <- <-]. split; [reflexivity | left].
    now apply is_empty_eq in Hbase. }
  assert (Hne : BaseURL c <> EmptyString).
  { intros Heq. apply is_empty_eq in Heq. congruence. }
  destruct (is_empty (Token c) && _ && _) eqn:Hcred.
  { intros [= <- <-]. split; [reflexivity | right; left].
    now apply noCredentials_check in Hcred. }
  destruct (authenticate c) as [[c1 a]|e] eqn:Hauth.
  2: { intros [= <- <-]. split; [reflexivity | right; right].
       eapply authenticate_error, Hauth. }
  destruct (NewMetalClient _) as [[c2 metal]|] eqn:Hmetal; cbn [bind];
    [ | discriminate ].
  destruct (NewMetalGoClient _) as [[c3 metalgo]|] eqn:Hgo; cbn [bind];
    [ | discriminate ].
  intros [= <- <-].
  apply NewMetalClient_keeps in Hmetal as (_ & Hecx & Hne2).
  apply NewMetalGoClient_keeps in Hgo as (Hecx3 & Hne3 & Hmetal3).
  unfold clientsPopulated. cbn.
  rewrite Hecx3, Hne3, Hmetal3. cbn. rewrite Hecx, Hne2. cbn.
  repeat split; eauto.
Qed.

(** With credentials and a BaseURL that the URL parser rejects, [Load]
    does not return: [NewMetalClient] drops the error of the parse and
    dereferences the nil URL. *)
Lemma Load_dereferences_rejected_URL (ctx : Context) (c : Config) :
  BaseURL c <> EmptyString ->
  Token c <> EmptyString ->
  url_Parse (BaseURL c) = None ->
  Load ctx c = Panic "baseURL".
Proof.
  intros Hbase Htoken Hparse. unfold Load.
  destruct (is_empty (BaseURL c)) eqn:Hemp;
    [now apply is_empty_eq in Hemp | ].
  destruct (is_empty (Token c)) eqn:Htok;
    [now apply is_empty_eq in Htok | ].
  cbn [andb]. unfold authenticate. rewrite Htok. cbn [negb].
  unfold NewMetalClient, metalBaseURL.
  destruct (is_empty (FabricAuthToken c)); cbn; rewrite Hparse; reflexivity.
Qed.

(** C2, as the code has it. With an empty BaseURL, [Load] fails with
    the message about the base URL, whatever the credentials are, and
    leaves the configuration as it was. With a non-empty BaseURL, [Load]
    fails with the documented configuration error exactly when no
    credential form is present; and when only the static token is set
    and the URL parser and the packngo constructor accept the BaseURL,
    [Load] succeeds and every per-vendor client handle is set. *)
Theorem Load_credentials (ctx : Context) (c : Config) :
  (BaseURL c = EmptyString ->
   Load ctx c = Return (c, Some (errorString "'baseURL' cannot be empty"))
   /\ ~ failsWith (Load ctx c) emptyCredentialsError)
  /\ (BaseURL c <> EmptyString ->
      (failsWith (Load ctx c) emptyCredentialsError <-> noCredentials c))
  /\ (BaseURL c <> EmptyString ->
      forall (baseURL : URL) (cl : PackngoClient),
        Token c <> EmptyString ->
        ClientID c = EmptyString -> ClientSecret c = EmptyString ->
        AuthToken c = EmptyString ->
        url_Parse (BaseURL c) = Some baseURL ->
        packngo_NewClientWithBaseURL consumerToken (AuthToken c)
          (metalStandardClient c "Equinix Metal (packngo)")
          (metalEndpoint baseURL) = Some cl ->
        exists c', Load ctx c = Return (c', None) /\ clientsPopulated c').
Proof.
  split; [ | split].
  - intros Hbase.
    assert (Hload : Load ctx c
                    = Return (c, Some (errorString "'baseURL' cannot be empty"))).
    { unfold Load. now rewrite Hbase. }
    split; [exact Hload | ].
    intros [c' Hfails]. rewrite Hload in Hfails.
    injection Hfails as _ Hmsg. vm_compute in Hmsg. discriminate.
  - intros Hbase. split.
    + intros [c' Hload]. apply Load_returns in Hload as (_ & Hwhy).
      destruct Hwhy as [[Hmsg _] | [(_ & _ & Hnone) | [msg Hmsg]]];
        [ | exact Hnone | discriminate ].
      exfalso. injection Hmsg as Hmsg. vm_compute in Hmsg. discriminate.
    + intros Hnone. exists c. unfold Load.
      destruct (is_empty (BaseURL c)) eqn:Hemp;
        [now apply is_empty_eq in Hemp | ].
      apply noCredentials_check in Hnone. now rewrite Hnone.
  - intros Hbase baseURL cl Htoken _ _ _ Hparse Hnew.
    assert (Hret : exists c', Load ctx c = Return (c', None)).
    { unfold Load.
      destruct (is_empty (BaseURL c)) eqn:Hemp;
        [now apply is_empty_eq in Hemp | ].
      destruct (is_empty (Token c)) eqn:Htok;
        [now apply is_empty_eq in Htok | ].
      cbn [andb]. unfold authenticate. rewrite Htok. cbn [negb].
      match goal with
      | |- context [NewMetalClient ?c1] =>
          destruct (NewMetalClient_returns c1 baseURL cl) as [ua ->];
          [ destruct (is_empty (FabricAuthToken c)); exact Hparse
          | destruct (is_empty (FabricAuthToken c)); exact Hnew | ]
      end.
      cbn [bind].
      match goal with
      | |- context [NewMetalGoClient ?c2] =>
          destruct (NewMetalGoClient_returns c2 baseURL) as (ua' & go & ->);
          [ destruct (is_empty (FabricAuthToken c)); exact Hparse | ]
      end.
      cbn [bind]. eexists. reflexivity. }
    destruct Hret as [c' Hload]. exists c'. split; [exact Hload | ].
    exact (Load_returns ctx c c' None Hload).
Qed.

End Loading.

Lemma Load_credentials_witness :
  exists c',
    @Load samplePlatform Background sampleConfig = Return (c', None)
    /\ clientsPopulated c'.
Proof.
  destruct (@Load_credentials samplePlatform Background sampleConfig)
    as (_ & _ & Hstatic).
  eapply Hstatic; try reflexivity; discriminate.
Defined.

(** A configuration with every credential and no base URL: the message
    is the one about the base URL. *)
Example Load_empty_baseURL_with_credentials :
  @Load samplePlatform Background
    (mkConfig EmptyString "auth" "id" "secret" 0 0 0 0 "token" None None
       None None EmptyString EmptyString EmptyString EmptyString
       EmptyString None EmptyString)
  = Return (mkConfig EmptyString "auth" "id" "secret" 0 0 0 0 "token" None
              None None None EmptyString EmptyString EmptyString
              EmptyString EmptyString None EmptyString,
            Some (errorString "'baseURL' cannot be empty")).
Proof. reflexivity. Qed.

(** No credential form is present in the zero configuration, and [Load]
    fails on it with the message about the base URL, not with the
    documented configuration error. *)
Lemma Load_checks_baseURL_first :
  noCredentials emptyConfig
  /\ @Load samplePlatform Background emptyConfig
     = Return (emptyConfig, Some (errorString "'baseURL' cannot be empty"))
  /\ ~ failsWith (@Load samplePlatform Background emptyConfig)
         emptyCredentialsError.
Proof.
  split; [ | split ].
  - repeat split; auto.
  - reflexivity.
  - intros [c' Hload]. vm_compute in Hload. discriminate.
Qed.

Example Load_without_credentials :
  @Load samplePlatform Background
    (set_FabricAuthToken EmptyString
       (mkConfig "https://api.equinix.com" EmptyString "client" EmptyString
          0 0 0 0 EmptyString None None None None EmptyString EmptyString
          EmptyString EmptyString EmptyString None EmptyString))
  = Return (mkConfig "https://api.equinix.com" EmptyString "client" EmptyString
              0 0 0 0 EmptyString None None None None EmptyString EmptyString
              EmptyString EmptyString EmptyString None EmptyString,
            Some (errorString emptyCredentialsError)).
Proof. reflexivity. Qed.

End ConfigFacts.

(** ** Fabric schema mapping *)

Module FabricFacts.
Import Go.
Import Fabric.
Import FabricSpec.
Import StringFacts.

Lemma invalidType_spec (stType : string) :
  invalidType stType = true <->
  stType <> EmptyString /\ stType <> "VC_TOKEN".
Proof.
  unfold invalidType.
  rewrite andb_true_iff, !negb_true_iff, <- !not_true_iff_false.
  rewrite is_empty_eq, String.eqb_eq. reflexivity.
Qed.

Lemma firstInvalid_Some (fields : list (string * string)) :
  (exists t, firstInvalid fields = Some t) <->
  Exists (fun f => f.1 <> EmptyString /\ f.1 <> "VC_TOKEN") fields.
Proof.
  induction fields as [|[t u] rest IH]; simpl.
  - split; [intros [? [=]] | intros Hex; inversion Hex].
  - destruct (invalidType t) eqn:Hinv.
    + split; [intros _ | eauto].
      apply Exists_cons_hd. simpl. now apply invalidType_spec.
    + rewrite IH. split; [apply Exists_cons_tl | ].
      intros Hex. inversion Hex as [? ? Hhd | ]; subst; [ | assumption ].
      simpl in Hhd. apply invalidType_spec in Hhd. congruence.
Qed.

Lemma firstInvalid_None (fields : list (string * string)) :
  Forall (fun f => f.1 = EmptyString \/ f.1 = "VC_TOKEN") fields ->
  firstInvalid fields = None.
Proof.
  induction 1 as [|[t u] rest Hhd _ IH]; simpl; [reflexivity | ].
  destruct (invalidType t) eqn:Hinv; [ | exact IH ].
  apply invalidType_spec in Hinv. simpl in Hhd. tauto.
Qed.

Lemma last_after_head {A B} (f : A -> B) (x : A) (rest : list A)
    (acc fresh : B) :
  f x = fresh ->
  from_option f fresh (last rest) = from_option f acc (last (x :: rest)).
Proof.
  intros <-. destruct rest as [|y rest]; [reflexivity | ].
  change (last (x :: y :: rest)) with (last (y :: rest)).
  destruct (last (y :: rest)) eqn:Hlast; [reflexivity | ].
  apply last_None in Hlast. discriminate.
Qed.

(** The loop, on well-formed elements, in closed form. *)
Lemma serviceTokenLoop_closed (l : list iface) :
  forall (fields : list (string * string)) (acc : ServiceToken),
    Forall2 (fun x f => tokenFields x = Some f) l fields ->
    serviceTokenLoop acc l =
    match firstInvalid fields with
    | Some t =>
        Return (emptyServiceToken,
                Some (errorString
                        ("invalid service token type in config. Must be: VC_TOKEN; Received: "
                         +:+ t)))
    | None => Return (from_option tokenOf acc (last fields), None)
    end.
Proof.
  induction l as [|x l IH]; intros fields acc Hwf.
  - inversion Hwf; subst. reflexivity.
  - inversion Hwf as [ | ? [t u] ? rest Hx Hrest ]; subst.
    destruct x as [a|m]; [discriminate | ].
    simpl in Hx.
    destruct (m !! "type") as [[| ty | | |]|] eqn:Hty; try discriminate.
    destruct (m !! "uuid") as [[| uu | | |]|] eqn:Huu; try discriminate.
    injection Hx as -> ->.
    cbn [serviceTokenLoop assertMap bind]. rewrite Hty, Huu.
    cbn [assertString bind firstInvalid]. unfold invalidType.
    destruct (is_empty t) eqn:Hemp; cbn [negb andb].
    + rewrite (IH rest _ Hrest).
      destruct (firstInvalid rest); [reflexivity | ].
      do 2 f_equal.
      now apply last_after_head; unfold tokenOf; simpl; rewrite Hemp.
    + destruct (String.eqb t "VC_TOKEN") eqn:Hvc; cbn [negb]; [ | reflexivity ].
      rewrite (IH rest _ Hrest).
      destruct (firstInvalid rest); [reflexivity | ].
      do 2 f_equal.
      now apply last_after_head; unfold tokenOf; simpl; rewrite Hemp.
Qed.

(** C8. On a list whose elements are maps with string ["type"] and
    ["uuid"], [serviceTokenToFabric] returns an error exactly when some
    element has a non-empty type other than VC_TOKEN; when every type
    is empty or VC_TOKEN it returns, without error, the token of the
    last element (the empty token for the empty list), whose [Type_] is
    set only when that element's type is not empty. *)
Theorem serviceTokenToFabric_error_iff_invalid_type
    (l : list iface) (fields : list (string * string)) :
  Forall2 (fun x f => tokenFields x = Some f) l fields ->
  (failed (serviceTokenToFabric l) <->
   Exists (fun f => f.1 <> EmptyString /\ f.1 <> "VC_TOKEN") fields)
  /\ (Forall (fun f => f.1 = EmptyString \/ f.1 = "VC_TOKEN") fields ->
      serviceTokenToFabric l =
      Return (from_option tokenOf emptyServiceToken (last fields), None)).
Proof.
  intros Hwf. unfold serviceTokenToFabric.
  rewrite (serviceTokenLoop_closed l fields _ Hwf).
  split.
  - rewrite <- firstInvalid_Some.
    destruct (firstInvalid fields) as [t|]; unfold failed.
    + split; eauto.
    + split; [intros (a & e & [=]) | intros [t [=]]].
  - intros Hall. now rewrite (firstInvalid_None _ Hall).
Qed.

Lemma serviceTokenToFabric_error_iff_invalid_type_witness :
  serviceTokenToFabric [vcToken "a1"; untypedToken "b2"] =
  Return ({| Type_ := None; Uuid := "b2" |}, None).
Proof.
  refine (proj2 (serviceTokenToFabric_error_iff_invalid_type
                   [vcToken "a1"; untypedToken "b2"]
                   [("VC_TOKEN", "a1"); (EmptyString, "b2")] _) _).
  - constructor; [vm_compute; reflexivity | ].
    constructor; [vm_compute; reflexivity | constructor].
  - constructor; [right; reflexivity | ].
    constructor; [left; reflexivity | constructor].
Defined.

Example serviceTokenToFabric_rejects_other_types :
  serviceTokenToFabric
    [vcToken "a1";
     IMap (<["uuid" := AString "c3"]> (<["type" := AString "OTHER"]> ∅));
     IAtom ANil]
  = Return (emptyServiceToken,
            Some (errorString
                    "invalid service token type in config. Must be: VC_TOKEN; Received: OTHER")).
Proof. vm_compute. reflexivity. Qed.

Example serviceTokenToFabric_keeps_VC_TOKEN :
  serviceTokenToFabric [untypedToken "b2"; vcToken "a1"]
  = Return ({| Type_ := Some "VC_TOKEN"; Uuid := "a1" |}, None).
Proof. vm_compute. reflexivity. Qed.

Lemma foldl_snoc {A B} (f : A -> B) (l : list A) :
  forall acc : list B,
    foldl (fun acc x => acc ++ [f x]) acc l = acc ++ map f l.
Proof.
  induction l as [|x l IH]; intros acc; simpl.
  - now rewrite app_nil_r.
  - rewrite IH, <- app_assoc. reflexivity.
Qed.

(** C10. For a non-nil list of n bandwidths the result has length 2n:
    its first n entries are nil and its last n entries are the
    bandwidths themselves, as [int] values, in input order; for nil the
    result is nil. *)
Theorem supportedBandwidthsToTerra_prepends_nils (bws : list Z) :
  supportedBandwidthsToTerra None = None
  /\ exists out,
      supportedBandwidthsToTerra (Some bws) = Some out
      /\ length out = (2 * length bws)%nat
      /\ take (length bws) out = replicate (length bws) ANil
      /\ drop (length bws) out = map AInt bws.
Proof.
  split; [reflexivity | ].
  eexists. split; [reflexivity | ].
  rewrite foldl_snoc. unfold make.
  assert (Hlen : length (replicate (length bws) ANil) = length bws)
    by apply length_replicate.
  repeat split.
  - rewrite length_app, length_map, Hlen. lia.
  - rewrite take_app_length'; [reflexivity | now symmetry].
  - rewrite drop_app_length'; [ | now symmetry].
    apply map_ext. intros b. reflexivity.
Qed.

(** Two bandwidths: two nil entries, then the two values. *)
Lemma supportedBandwidthsToTerra_prepends_nils_witness :
  supportedBandwidthsToTerra (Some [50; 1000])
  = Some [ANil; ANil; AInt 50; AInt 1000].
Proof.
  destruct (supportedBandwidthsToTerra_prepends_nils [50; 1000])
    as (_ & out & -> & _ & Htake & Hdrop).
  rewrite <- (take_drop 2 out). cbn [length] in Htake, Hdrop.
  rewrite Htake, Hdrop. reflexivity.
Defined.

Example supportedBandwidthsToTerra_empty :
  supportedBandwidthsToTerra (Some []) = Some [].
Proof. reflexivity. Qed.

End FabricFacts.

(** ** Diagnostics *)

Module DiagFacts.
Import Diag.

Lemma elem_of_Append (new ds : Diagnostics) (d : Diagnostic) :
  d ∈ Append ds new <-> d ∈ ds \/ d ∈ new.
Proof.
  unfold Append. revert ds.
  induction new as [|x new IH]; intros ds; simpl.
  - rewrite elem_of_nil. tauto.
  - rewrite IH, elem_of_cons. unfold Contains.
    destruct (bool_decide_reflect (x ∈ ds)) as [Hin | Hout].
    + split; [tauto | ]. intros [? | [-> | ?]]; tauto.
    + rewrite elem_of_app, list_elem_of_singleton. tauto.
Qed.

Lemma HasError_spec (ds : Diagnostics) :
  HasError ds = true <-> exists d, d ∈ ds /\ isError d = true.
Proof.
  unfold HasError. rewrite existsb_exists.
  split; intros (d & Hin & Herr); exists d; split; try assumption;
    now apply list_elem_of_In.
Qed.

Lemma HasError_Append (ds new : Diagnostics) :
  HasError (Append ds new) = HasError ds || HasError new.
Proof.
  apply eq_true_iff_eq.
  rewrite orb_true_iff, !HasError_spec.
  setoid_rewrite elem_of_Append.
  split.
  - intros (d & [Hin | Hin] & Herr); [left | right]; eauto.
  - intros [(d & Hin & Herr) | (d & Hin & Herr)]; exists d; tauto.
Qed.


Lemma HasError_AddError (ds : Diagnostics) (s d : string) :
  HasError (AddError ds s d) = true.
Proof. unfold AddError. rewrite HasError_Append. apply orb_true_r. Qed.


End DiagFacts.

(** ** The project SSH key resource *)

Module ProjectSSHKeyFacts.
Import Go.
Import Diag.
Import DiagFacts.
Import ProjectSSHKey.
Import ProjectSSHKeySpec.

Section Lifecycle.
Context `{Config.Platform} `{Collaborators}.

(** Up to the vendor call, [Read] and [Delete] do the same. *)
Lemma module_user_agent_set (meta : Config.Config) (m : Config.tfsdkConfig)
    (client : Config.MetalGoClient) :
  Config.Metalgo meta = Some client ->
  exists meta', Config.AddFwModuleToMetalGoUserAgent meta m = Return meta'.
Proof.
  intros Hclient. unfold Config.AddFwModuleToMetalGoUserAgent.
  rewrite Hclient. eexists. reflexivity.
Qed.




End Lifecycle.



(** A "not found" answer: the warning alone, and the resource gone from
    the state. *)
Example Read_not_found_removes :
  exists meta',
    @Read ConfigSpec.samplePlatform (failingVendor 404 notFound)
      loadedConfig sampleRequest freshResponse
    = Return (meta',
              {| resp_Diagnostics := [notFoundWarning "key-1"];
                 resp_State := StateNull |}).
Proof. eexists. vm_compute. reflexivity. Qed.

(** With the server error of the failed call and a [parse] that reads
    through the key, [Read] returns nothing. *)
Lemma Read_server_error_not_surfaced :
  ~ exists meta' resp',
      @Read ConfigSpec.samplePlatform (nilKeyVendor 500 serverError)
        loadedConfig sampleRequest freshResponse
      = Return (meta', resp').
Proof.
  intros (meta' & resp' & Hreturn). vm_compute in Hreturn. discriminate.
Qed.

(** A failure that is neither Forbidden nor Not Found is reported. *)
Example Delete_reports_server_error :
  exists meta',
    @Delete ConfigSpec.samplePlatform (failingVendor 500 serverError)
      loadedConfig sampleRequest freshResponse
    = Return (meta',
              {| resp_Diagnostics :=
                   [mkDiagnostic SeverityError
                      "Failed to delete Project SSHKey key-1"
                      "500 Internal Server Error"];
                 resp_State := storedKey |}).
Proof. eexists. vm_compute. reflexivity. Qed.

Example Delete_ignores_forbidden :
  exists meta',
    @Delete ConfigSpec.samplePlatform (failingVendor 403 serverError)
      loadedConfig sampleRequest freshResponse
    = Return (meta', freshResponse).
Proof. eexists. vm_compute. reflexivity. Qed.

(** After the error diagnostic of [Read] the model is still parsed, and
    the check that follows returns before the state is written. *)
Example Read_reports_server_error :
  exists meta',
    @Read ConfigSpec.samplePlatform (failingVendor 500 serverError)
      loadedConfig sampleRequest freshResponse
    = Return (meta',
              {| resp_Diagnostics :=
                   [mkDiagnostic SeverityError
                      "Failed to get Project SSHKey key-1"
                      "500 Internal Server Error"];
                 resp_State := storedKey |}).
Proof. eexists. vm_compute. reflexivity. Qed.

End ProjectSSHKeyFacts.

(** ** Waiting for a hardware reservation *)

Module ReservationFacts.
Import Go.
Import Reservation.
Import ReservationSpec.

(** Of the four designs the spec's words leave open, the repository's
    test passes on one only. *)
Lemma Test_accepts_one_design (design : Design) :
  Test_waitUntilReservationProvisionable design = true
  <-> design = acceptedDesign.
Proof.
  destruct design as [[|] [|]]; split; intros Heq;
    solve [ reflexivity | discriminate Heq | vm_compute in Heq; discriminate Heq
          | vm_compute; reflexivity ].
Qed.

(** With a changed identity taken as progress, the reprovisioned case of
    the test polls on to the deadline and fails. *)
Example reprovisioned_case_under_progress :
  outcome
    (wait {| onIdentityChange := TreatAsProgress; recheck := false |}
       neverCancelled (mockFetch handler_reprovisioned)
       "reservationId" "instanceId" 50 1000 50)
  = TimedOut "reservationId"
      (Some {| Device := Some EmptyString; Provisionable := false |}).
Proof. vm_compute. reflexivity. Qed.

Section Waiting.
Variable ctxErr : Z -> option error.
Variable fetch : nat -> Fetch.
Variables reservationId instanceId : string.
Variables interval maxWait settle : Z.

Abbreviation time := (tickTime interval).
Abbreviation alive := (live ctxErr interval maxWait).
Abbreviation waits := (pending fetch instanceId).

Abbreviation pollFrom fuel k last :=
  (poll acceptedDesign ctxErr fetch reservationId interval maxWait settle
     fuel (time k) k instanceId last).

Abbreviation waiting :=
  (waitUntilReservationProvisionable ctxErr fetch reservationId instanceId
     interval maxWait settle).

Lemma tickTime_S (k : nat) : time (S k) = time k + interval.
Proof. unfold tickTime. lia. Qed.

Lemma poll_pending_tick (fuel k : nat) (last : option HardwareReservation)
    (r : HardwareReservation) :
  ctxErr (time k) = None -> time k <= maxWait ->
  fetch k = Fetched r -> Provisionable r = false ->
  identityChanged instanceId r = false ->
  pollFrom (S fuel) k last = pollFrom fuel (S k) (Some r).
Proof.
  intros Hctx Hdeadline Hfetch Hprov Hsame. rewrite tickTime_S.
  cbn [poll]. rewrite Hctx.
  destruct (Z.ltb_spec maxWait (time k)) as [Hlate | _]; [lia | ].
  now rewrite Hfetch, Hprov, Hsame.
Qed.

(** [n] live, pending ticks from tick [k] on bring the loop to tick
    [k + n] with the last of these observations in hand. *)
Lemma poll_pending_ticks (n : nat) :
  forall (fuel k : nat) (last : option HardwareReservation),
    (forall i, (i < n)%nat -> alive (k + i) /\ waits (k + i)) ->
    exists last',
      pollFrom (n + fuel) k last = pollFrom fuel (k + n) last'
      /\ match n with
         | O => last' = last
         | S m => exists r, fetch (k + m) = Fetched r /\ last' = Some r
         end.
Proof.
  induction n as [|n IH]; intros fuel k last Hticks.
  - exists last. rewrite Nat.add_0_r. split; reflexivity.
  - destruct (Hticks 0%nat ltac:(lia))
      as [[Hctx Hdeadline] (r & Hfetch & Hprov & Hsame)].
    rewrite Nat.add_0_r in Hctx, Hdeadline, Hfetch.
    destruct (IH fuel (S k) (Some r)) as (last' & Hrun & Hlast).
    { intros i Hi. replace (S k + i)%nat with (k + S i)%nat by lia.
      apply Hticks. lia. }
    exists last'. split.
    + cbn [Nat.add]. rewrite (poll_pending_tick _ _ _ r) by assumption.
      rewrite Hrun. now replace (S k + n)%nat with (k + S n)%nat by lia.
    + destruct n as [|m].
      * exists r. rewrite Nat.add_0_r. split; [assumption | exact Hlast].
      * destruct Hlast as (r' & Hfetch' & ->). exists r'.
        split; [ | reflexivity ].
        now replace (k + S m)%nat with (S k + m)%nat by lia.
Qed.

(** A tick before the deadline is within the fuel that [wait] starts
    with. *)
Lemma live_within_fuel (n : nat) :
  0 < interval -> time n <= maxWait ->
  exists fuel, ticksToDeadline interval maxWait = (n + S fuel)%nat.
Proof.
  unfold tickTime, ticksToDeadline. intros Hpos Hlive.
  assert (Hn : Z.of_nat n <= maxWait / interval).
  { apply Z.div_le_lower_bound; lia. }
  exists (Z.to_nat (maxWait / interval) + 1 - n)%nat. lia.
Qed.

(** After [n] live, pending ticks the wait stands at tick [n] with fuel
    left. *)
Lemma wait_reaches_tick (n : nat) :
  0 < interval -> time n <= maxWait ->
  (forall i, (i < n)%nat -> alive i /\ waits i) ->
  exists fuel last, waiting = pollFrom (S fuel) n last.
Proof.
  intros Hpos Hdeadline Hticks.
  destruct (live_within_fuel n Hpos Hdeadline) as [fuel Hfuel].
  destruct (poll_pending_ticks n (S fuel) 0 None Hticks) as (last & Hrun & _).
  exists fuel, last.
  unfold waitUntilReservationProvisionable, wait. rewrite Hfuel.
  exact Hrun.
Qed.

(** The fuel is enough: when the deadline falls within the fueled
    ticks, the loop returns before the fuel is spent. *)
Lemma poll_returns (fuel : nat) :
  forall (k : nat) (last : option HardwareReservation),
    maxWait < time (k + fuel) ->
    outcome (pollFrom (S fuel) k last) <> OutOfFuel.
Proof.
  induction fuel as [|fuel IH]; intros k last Hdeadline; cbn [poll].
  - rewrite Nat.add_0_r in Hdeadline.
    destruct (ctxErr (time k)); [discriminate | ].
    destruct (Z.ltb_spec maxWait (time k)) as [_ | Hearly];
      [discriminate | lia].
  - destruct (ctxErr (time k)); [discriminate | ].
    destruct (maxWait <? time k); [discriminate | ].
    destruct (fetch k) as [e | r]; [discriminate | ].
    destruct (Provisionable r); [discriminate | ].
    destruct (identityChanged instanceId r); [discriminate | ].
    rewrite <- tickTime_S. apply IH.
    now replace (S k + fuel)%nat with (k + S fuel)%nat by lia.
Qed.

(** With a positive interval the wait always returns. *)
Lemma wait_returns :
  0 < interval -> outcome waiting <> OutOfFuel.
Proof.
  intros Hpos.
  unfold waitUntilReservationProvisionable, wait, ticksToDeadline.
  replace (Z.to_nat (maxWait / interval) + 2)%nat
    with (S (S (Z.to_nat (maxWait / interval)))) by lia.
  change 0 with (time 0) at 1. apply poll_returns.
  unfold tickTime. cbn [Nat.add].
  destruct (Z.lt_ge_cases maxWait 0) as [Hneg | Hnonneg].
  - assert (maxWait / interval < 0) by (apply Z.div_lt_upper_bound; lia).
    nia.
  - pose proof (Z.mul_succ_div_gt maxWait interval Hpos).
    assert (0 <= maxWait / interval) by (apply Z.div_pos; lia).
    nia.
Qed.

(** C3, as the repository's test has it. When, after observations that
    kept the wait going, a live tick observes a reservation that is not
    provisionable and shows a new instance identity, the wait does not
    fail: it ends at that tick with success, without another fetch. *)
Theorem identity_change_ends_wait (n : nat) (r : HardwareReservation) :
  0 < interval ->
  (forall i, (i < n)%nat ->
     live ctxErr interval maxWait i /\ pending fetch instanceId i) ->
  live ctxErr interval maxWait n ->
  fetch n = Fetched r ->
  Provisionable r = false ->
  identityChanged instanceId r = true ->
  waitUntilReservationProvisionable ctxErr fetch reservationId instanceId
    interval maxWait settle
  = {| outcome := Success; fetches := S n; elapsed := tickTime interval n |}.
Proof.
  intros Hpos Hticks [Hctx Hdeadline] Hfetch Hprov Hnew.
  destruct (wait_reaches_tick n Hpos Hdeadline Hticks) as (fuel & last & ->).
  cbn [poll]. rewrite Hctx.
  destruct (Z.ltb_spec maxWait (time n)) as [Hlate | _]; [lia | ].
  now rewrite Hfetch, Hprov, Hnew.
Qed.

(** A provisionable observation at a live tick ends the wait with
    success at that tick. *)
Lemma provisionable_at_tick (n : nat) (r : HardwareReservation) :
  0 < interval ->
  (forall i, (i < n)%nat -> alive i /\ waits i) ->
  alive n ->
  fetch n = Fetched r ->
  Provisionable r = true ->
  waiting = {| outcome := Success; fetches := S n; elapsed := time n |}.
Proof.
  intros Hpos Hticks [Hctx Hdeadline] Hfetch Hprov.
  destruct (wait_reaches_tick n Hpos Hdeadline Hticks) as (fuel & last & ->).
  cbn [poll]. rewrite Hctx.
  destruct (Z.ltb_spec maxWait (time n)) as [Hlate | _]; [lia | ].
  now rewrite Hfetch, Hprov.
Qed.

(** C5. When the first observation is provisionable the wait returns
    success with that one fetch: no re-check and no further tick. And
    the sequence of an unprovisionable reservation with the expected
    instance, then a provisionable one with an empty identifier, gives
    success at the second observation. *)
Theorem provisionable_ends_wait :
  (forall r,
     live ctxErr interval maxWait 0 ->
     fetch 0%nat = Fetched r -> Provisionable r = true ->
     waitUntilReservationProvisionable ctxErr fetch reservationId instanceId
       interval maxWait settle
     = {| outcome := Success; fetches := 1; elapsed := 0 |})
  /\ (0 < interval ->
      live ctxErr interval maxWait 0 -> live ctxErr interval maxWait 1 ->
      fetch 0%nat
      = Fetched {| Device := Some instanceId; Provisionable := false |} ->
      fetch 1%nat
      = Fetched {| Device := Some EmptyString; Provisionable := true |} ->
      waitUntilReservationProvisionable ctxErr fetch reservationId instanceId
        interval maxWait settle
      = {| outcome := Success; fetches := 2; elapsed := interval |}).
Proof.
  split.
  - intros r [Hctx Hdeadline] Hfetch Hprov.
    unfold waitUntilReservationProvisionable, wait, ticksToDeadline.
    rewrite Nat.add_succ_r. cbn [poll].
    change (time 0) with 0 in Hctx, Hdeadline. rewrite Hctx.
    destruct (Z.ltb_spec maxWait 0) as [Hlate | _]; [lia | ].
    now rewrite Hfetch, Hprov.
  - intros Hpos Hlive0 Hlive1 Hfetch0 Hfetch1.
    assert (Hticks : forall i, (i < 1)%nat -> alive i /\ waits i).
    { intros i Hi. assert (i = 0%nat) as -> by lia.
      split; [assumption | ]. eexists. split; [eassumption | ].
      split; [reflexivity | ].
      unfold identityChanged. cbn [Device].
      now rewrite String.eqb_refl, andb_false_r. }
    rewrite (provisionable_at_tick 1 _ Hpos Hticks Hlive1 Hfetch1 eq_refl).
    unfold tickTime. f_equal. lia.
Qed.


End Waiting.

(** *** The runs of the test *)

Lemma identity_change_ends_wait_witness :
  waitUntilReservationProvisionable neverCancelled
    (mockFetch handler_reprovisioned) "reservationId" "instanceId" 50 1000 50
  = {| outcome := Success; fetches := 2; elapsed := 50 |}.
Proof.
  apply (identity_change_ends_wait neverCancelled
           (mockFetch handler_reprovisioned) "reservationId" "instanceId"
           50 1000 50 1
           {| Device := Some "new instance id"; Provisionable := false |}).
  - lia.
  - intros i Hi. assert (i = 0%nat) as -> by lia.
    split; [split; [reflexivity | vm_compute; discriminate] | ].
    exists {| Device := Some "instanceId"; Provisionable := false |}.
    repeat split; reflexivity.
  - split; [reflexivity | vm_compute; discriminate].
  - reflexivity.
  - reflexivity.
  - reflexivity.
Defined.

(** On the sequence of the reprovisioned case the wait returns at the
    observation that shows the new identity: it does not go on polling. *)
Lemma reprovisioned_returns_at_identity_change :
  let run :=
    waitUntilReservationProvisionable neverCancelled
      (mockFetch handler_reprovisioned) "reservationId" "instanceId"
      50 1000 50 in
  mockFetch handler_reprovisioned 0
  = Fetched {| Device := Some "instanceId"; Provisionable := false |}
  /\ mockFetch handler_reprovisioned 1
     = Fetched {| Device := Some "new instance id"; Provisionable := false |}
  /\ outcome run = Success
  /\ fetches run = 2%nat
  /\ ~ (2 < fetches run)%nat.
Proof. vm_compute. repeat split; try reflexivity. lia. Qed.

Lemma provisionable_ends_wait_witness :
  waitUntilReservationProvisionable neverCancelled
    (mockFetch handler_provisionable) "reservationId" "instanceId" 50 1000 50
  = {| outcome := Success; fetches := 2; elapsed := 50 |}.
Proof.
  apply (proj2 (provisionable_ends_wait neverCancelled
                  (mockFetch handler_provisionable) "reservationId"
                  "instanceId" 50 1000 50)).
  - lia.
  - split; [reflexivity | vm_compute; discriminate].
  - split; [reflexivity | vm_compute; discriminate].
  - reflexivity.
  - reflexivity.
Defined.



Example error_case_fails_at_once :
  waitUntilReservationProvisionable neverCancelled (mockFetch handler_error)
    "reservationId" "instanceId" 50 1000 50
  = {| outcome :=
         FetchFailed (foreignError "metalv1.GenericOpenAPIError"
                        "unexpected status");
       fetches := 1; elapsed := 0 |}.
Proof. vm_compute. reflexivity. Qed.

Example cancelled_wait_is_not_a_timeout :
  outcome
    (waitUntilReservationProvisionable
       (fun t => if 100 <=? t then Some Canceled else None)
       (mockFetch handler_foreverDeprovisioning)
       "reservationId" "instanceId" 50 1000 50)
  = Cancelled Canceled.
Proof. vm_compute. reflexivity. Qed.

End ReservationFacts.

(** ** Fabric schema mapping, the other mappers *)

Module FabricMappersFacts.
Import Go.
Import Fabric.
Import FabricMappers.
Import FabricSpec.
Import FabricMappersSpec.

(** *** The loops *)

Lemma forRange_app {S : Type} (body : S -> iface -> result S) (s : S)
    (l1 l2 : list iface) :
  forRange body s (l1 ++ l2)
  = let! s' := forRange body s l1 in forRange body s' l2.
Proof.
  revert s. induction l1 as [|x l1 IH]; intros s; cbn [app forRange bind].
  - reflexivity.
  - destruct (body s x) as [s'|why]; cbn [bind]; [apply IH | reflexivity].
Qed.

(** A loop whose body overwrites what it has: the last element alone
    decides. *)
Lemma forRange_overwrite {S : Type} (g : iface -> result S) (s : S)
    (l : list iface) (x : iface) :
  returns (forRange (fun _ => g) s l) ->
  forRange (fun _ => g) s (l ++ [x]) = forRange (fun _ => g) s [x].
Proof.
  intros [s' Hl]. rewrite forRange_app, Hl. reflexivity.
Qed.

(** Assigning by index over a slice made with the length of the list
    fills every slot, in order. *)
Lemma assignEach_from {A B : Type} (f : A -> B) (z : B) (l : list A) :
  forall (filled : list B),
    foldl (fun mapped ix => <[ix.1 := f ix.2]> mapped)
      (filled ++ replicate (length l) z)
      (imap (fun index x => (length filled + index, x)%nat) l)
    = filled ++ (f <$> l).
Proof.
  induction l as [|x l IH]; intros filled.
  - reflexivity.
  - cbn [length replicate imap foldl fst snd].
    rewrite fmap_cons, Nat.add_0_r, insert_app_r_alt, Nat.sub_diag by lia.
    cbn [insert list_insert].
    change (filled ++ f x :: replicate (length l) z)
      with (filled ++ [f x] ++ replicate (length l) z).
    change (filled ++ f x :: (f <$> l))
      with (filled ++ [f x] ++ (f <$> l)).
    rewrite !app_assoc, <- (IH (filled ++ [f x])).
    f_equal. apply imap_ext. intros i y _. cbn.
    rewrite length_app. cbn. f_equal. lia.
Qed.

Lemma assignEach_replicate {A B : Type} (f : A -> B) (z : B) (l : list A) :
  assignEach f (replicate (length l) z) l = f <$> l.
Proof. exact (assignEach_from f z l []). Qed.

(** *** Additional information *)

(** One round of the loop of [additionalInfoTerraToGo]. *)
Lemma additionalInfo_step (acc : option (list ConnectionSideAdditionalInfo))
    (x : iface) :
  match infoFields x with
  | Some y =>
      (let! aiMap := assertMap x in
       let! key := assertString (aiMap !! "key") in
       let! value := assertString (aiMap !! "value") in
       Return (goAppend acc {| ai_Key := key; ai_Value := value |}))
      = Return (goAppend acc y)
  | None =>
      exists why,
        (let! aiMap := assertMap x in
         let! key := assertString (aiMap !! "key") in
         let! value := assertString (aiMap !! "value") in
         Return (goAppend acc {| ai_Key := key; ai_Value := value |}))
        = Panic why
  end.
Proof.
  destruct x as [a|m]; cbn [infoFields assertMap bind]; [eauto | ].
  destruct (m !! "key") as [[]|]; cbn [assertString bind]; eauto;
    destruct (m !! "value") as [[]|]; cbn [assertString bind]; eauto.
Qed.

(** The loop collects the fields of the elements behind what it has, or
    panics at an element that is not well formed. *)
Lemma additionalInfo_loop (l : list iface) :
  forall acc : option (list ConnectionSideAdditionalInfo),
    (exists fields,
       infoFields <$> l = Some <$> fields
       /\ forRange
            (fun mappedaiArray ai =>
               let! aiMap := assertMap ai in
               let! key := assertString (aiMap !! "key") in
               let! value := assertString (aiMap !! "value") in
               Return (goAppend mappedaiArray
                         {| ai_Key := key; ai_Value := value |}))
            acc l
          = Return (match l with
                    | [] => acc
                    | _ => Some (default [] acc ++ fields)
                    end))
    \/ (Exists (fun x => infoFields x = None) l
        /\ exists why,
             forRange
               (fun mappedaiArray ai =>
                  let! aiMap := assertMap ai in
                  let! key := assertString (aiMap !! "key") in
                  let! value := assertString (aiMap !! "value") in
                  Return (goAppend mappedaiArray
                            {| ai_Key := key; ai_Value := value |}))
               acc l
             = Panic why).
Proof.
  induction l as [|x l IH]; intros acc.
  - left. exists []. split; reflexivity.
  - cbn [forRange]. pose proof (additionalInfo_step acc x) as Hstep.
    destruct (infoFields x) as [y|] eqn:Hx.
    + rewrite Hstep. cbn [bind].
      destruct (IH (goAppend acc y)) as [(fields & Hfields & Hloop) | [Hbad [why Hloop]]].
      * left. exists (y :: fields). rewrite !fmap_cons, Hx, Hfields.
        split; [reflexivity | ]. rewrite Hloop. f_equal.
        destruct l as [|x' l].
        -- destruct fields; [reflexivity | discriminate].
        -- unfold goAppend. cbn [from_option id]. now rewrite <- app_assoc.
      * right. split; [now apply Exists_cons_tl | ]. rewrite Hloop. eauto.
    + right. split; [now apply Exists_cons_hd | ].
      destruct Hstep as [why Hstep]. rewrite Hstep. cbn [bind]. eauto.
Qed.

(** X1. [additionalInfoTerraToGo] returns exactly on the lists whose
    elements are all maps with a string key and a string value; what it
    returns then holds the key and the value of every element, in the
    order of the list, and is the nil slice exactly for the empty list. *)
Theorem additionalInfoTerraToGo_collects (l : list iface) :
  (returns (additionalInfoTerraToGo l)
   <-> Forall (fun x => is_Some (infoFields x)) l)
  /\ (forall r, additionalInfoTerraToGo l = Return r ->
        infoFields <$> l = Some <$> default [] r /\ (r = None <-> l = [])).
Proof.
  unfold additionalInfoTerraToGo.
  destruct (additionalInfo_loop l None)
    as [(fields & Hfields & Hloop) | [Hbad [why Hloop]]]; rewrite Hloop.
  - split.
    + split; [intros _ | intros _; eexists; reflexivity].
      apply Forall_forall. intros x Hx.
      apply (list_elem_of_fmap_2 infoFields) in Hx. rewrite Hfields in Hx.
      apply list_elem_of_fmap in Hx as (y & -> & _). eauto.
    + intros r [= <-]. destruct l as [|x l].
      * destruct fields; [ | discriminate]. split; [reflexivity | tauto].
      * cbn [from_option id app]. split; [exact Hfields | ]. split; discriminate.
  - split.
    + split; [intros [r [=]] | intros Hall].
      apply Exists_exists in Hbad as (x & Hx & Hnone).
      rewrite Forall_forall in Hall. destruct (Hall x Hx) as [y Hy]. congruence.
    + intros r [=].
Qed.

Lemma additionalInfoTerraToGo_collects_witness :
  returns
    (additionalInfoTerraToGo
       [sampleInfo "accessKey" "AKIA"; sampleInfo "secretKey" "s3cr3t"]).
Proof.
  apply additionalInfoTerraToGo_collects.
  repeat constructor; eexists; reflexivity.
Defined.

(** An element without a value: the call panics. *)
Example additionalInfoTerraToGo_missing_value :
  additionalInfoTerraToGo
    [sampleInfo "accessKey" "AKIA"; IMap (<["key" := AString "secretKey"]> ∅)]
  = Panic "interface conversion: not string".
Proof. reflexivity. Qed.

Lemma additionalInfoToTerra_maps (l : list ConnectionSideAdditionalInfo) :
  infoFields <$> terraList (additionalInfoToTerra (Some l)) = Some <$> l.
Proof.
  unfold additionalInfoToTerra, terraList. cbn [from_option id].
  rewrite assignEach_replicate, <- !list_fmap_compose.
  apply list_fmap_ext. intros _ [key value] _. reflexivity.
Qed.

(** X2. Writing a slice of additional information with
    [additionalInfoToTerra] and reading the result back with
    [additionalInfoTerraToGo] gives the slice again, every element in its
    place; only the empty slice and the nil slice both come back as
    nil. *)
Theorem additionalInfo_round_trip (l : list ConnectionSideAdditionalInfo) :
  additionalInfoTerraToGo (terraList (additionalInfoToTerra (Some l)))
  = Return (match l with [] => None | _ => Some l end)
  /\ additionalInfoTerraToGo (terraList (additionalInfoToTerra None))
     = Return None.
Proof.
  split; [ | reflexivity].
  pose proof (additionalInfoToTerra_maps l) as Hmaps.
  unfold additionalInfoTerraToGo.
  destruct (additionalInfo_loop (terraList (additionalInfoToTerra (Some l))) None)
    as [(fields & Hfields & Hloop) | [Hbad [why Hloop]]].
  - rewrite Hloop. rewrite Hmaps in Hfields.
    apply (inj (fmap Some)) in Hfields as <-. f_equal.
    destruct l as [|a l]; [reflexivity | ].
    destruct (terraList _) eqn:Hl; [discriminate Hmaps | reflexivity].
  - exfalso. apply Exists_exists in Hbad as (x & Hx & Hnone).
    apply (list_elem_of_fmap_2 infoFields) in Hx. rewrite Hmaps, Hnone in Hx.
    apply list_elem_of_fmap in Hx as (y & [=] & _).
Qed.

(** *** The mappers that keep one structure *)

(** X3. Each mapper from a list to one vendor structure overwrites its
    result at every element: whenever it returns on a list, one more
    element at the end decides the result alone, as if the list held
    nothing else. *)
Theorem overwriting_mappers_last_wins :
  lastWins cloudRouterToFabric
  /\ lastWins linkProtocolToFabric
  /\ lastWins networkToFabric
  /\ lastWins simplifiedServiceProfileToFabric
  /\ lastWins virtualdeviceToFabric
  /\ lastWins interfaceToFabric
  /\ lastWins routingProtocolDirectIpv4ToFabric
  /\ lastWins routingProtocolDirectIpv6ToFabric
  /\ lastWins routingProtocolBgpIpv4ToFabric
  /\ lastWins routingProtocolBgpIpv6ToFabric
  /\ lastWins routingProtocolBfdToFabric
  /\ lastWins routingProtocolChangeToFabric.
Proof.
  repeat split; intros l x Hl; apply forRange_overwrite; exact Hl.
Qed.

Lemma overwriting_mappers_last_wins_witness :
  networkToFabric ([uuidOnly "net-1"] ++ [uuidOnly "net-2"])
  = networkToFabric [uuidOnly "net-2"].
Proof.
  destruct overwriting_mappers_last_wins as (_ & _ & Hnetwork & _).
  apply Hnetwork. eexists. reflexivity.
Defined.

(** Two elements, of which the first alone would give another result. *)
Example virtualdeviceToFabric_keeps_the_last :
  virtualdeviceToFabric
    [IMap (<["name" := AString "first"]>
             (<["uuid" := AString "u1"]>
                (<["type" := AString "EDGE"]> (<["href" := AString "h1"]> ∅))));
     IMap (<["name" := AString "second"]>
             (<["uuid" := AString "u2"]>
                (<["type" := AString "EDGE"]> (<["href" := AString "h2"]> ∅))))]
  = Return {| vd_Href := "h2"; vd_Type_ := "EDGE"; vd_Uuid := "u2";
              vd_Name := "second" |}.
Proof. reflexivity. Qed.

(** *** Writing a structure and reading it back *)

(** X4. The BFD settings and the two direct connections come back
    unchanged: the items that the writing mapper hands to the set are
    the one map, and the reading mapper gives the structure again on
    them. *)
Theorem bfd_and_direct_round_trip
    (bfd : RoutingProtocolBfd) (d4 : DirectConnectionIpv4)
    (d6 : DirectConnectionIpv6) :
  (exists items,
     itemsAre items (routingProtocolBfdToTerra (Some bfd))
     /\ length items = 1%nat
     /\ routingProtocolBfdToFabric items = Return bfd)
  /\ (exists items,
        itemsAre items (routingProtocolDirectConnectionIpv4ToTerra (Some d4))
        /\ length items = 1%nat
        /\ routingProtocolDirectIpv4ToFabric items = Return d4)
  /\ (exists items,
        itemsAre items (routingProtocolDirectConnectionIpv6ToTerra (Some d6))
        /\ length items = 1%nat
        /\ routingProtocolDirectIpv6ToFabric items = Return d6).
Proof.
  destruct bfd, d4, d6.
  repeat split; eexists; (split; [eexists; reflexivity | split; reflexivity]).
Qed.

(** X5. The BGP connections and the change record do not come back
    whole: the writing mappers write the Equinix peer address and the
    link of the change, and the reading mappers do not read them, so
    the structure read back has them empty and everything else as it
    was. *)
Theorem bgp_and_change_round_trip_forgets
    (b4 : BgpConnectionIpv4) (b6 : BgpConnectionIpv6)
    (change : RoutingProtocolChange) :
  (exists items,
     itemsAre items (routingProtocolBgpConnectionIpv4ToTerra (Some b4))
     /\ routingProtocolBgpIpv4ToFabric items
        = Return {| b4_CustomerPeerIp := b4_CustomerPeerIp b4;
                    b4_EquinixPeerIp := EmptyString;
                    b4_Enabled := b4_Enabled b4 |})
  /\ (exists items,
        itemsAre items (routingProtocolBgpConnectionIpv6ToTerra (Some b6))
        /\ routingProtocolBgpIpv6ToFabric items
           = Return {| b6_CustomerPeerIp := b6_CustomerPeerIp b6;
                       b6_EquinixPeerIp := EmptyString;
                       b6_Enabled := b6_Enabled b6 |})
  /\ (exists items,
        itemsAre items (routingProtocolChangeToTerra (Some change))
        /\ routingProtocolChangeToFabric items
           = Return {| rpc_Uuid := rpc_Uuid change;
                       rpc_Type_ := rpc_Type_ change;
                       rpc_Href := EmptyString |}).
Proof.
  repeat split; eexists; (split; [eexists; reflexivity | reflexivity]).
Qed.

Lemma int32_of_int_id (n : Z) : isInt32 n -> int32_of_int (int_of_int32 n) = n.
Proof.
  unfold isInt32, int32_of_int, int_of_int32. intros Hn.
  rewrite Z.mod_small by lia. lia.
Qed.

(** X6. The mappers that write with [append] after [make] hand the set
    a nil placeholder before the map. On the map alone the reading
    mapper gives the virtual device again, the cloud router without its
    link, and the interface again when its id is an [int32]. *)
Theorem appended_round_trip
    (vd : VirtualDevice) (router : CloudRouter) (il : ModelInterface) :
  isInt32 (mi_Id il) ->
  (exists m, placeholderThen m (virtualDeviceToTerra (Some vd))
             /\ virtualdeviceToFabric [IMap m] = Return vd)
  /\ (exists m, placeholderThen m (cloudRouterToTerra (Some router))
                /\ cloudRouterToFabric [IMap m]
                   = Return {| cr_Uuid := cr_Uuid router;
                               cr_Href := EmptyString |})
  /\ (exists m, placeholderThen m (interfaceToTerra (Some il))
                /\ interfaceToFabric [IMap m] = Return il).
Proof.
  intros Hid. destruct vd, il as [type uuid id]. cbn [mi_Id] in Hid.
  repeat split; eexists; (split; [eexists; reflexivity | ]); try reflexivity.
  transitivity
    (Return {| mi_Type_ := type; mi_Uuid := uuid;
               mi_Id := int32_of_int (int_of_int32 id) |});
    [reflexivity | now rewrite int32_of_int_id].
Qed.

Lemma appended_round_trip_witness :
  exists m,
    placeholderThen m
      (interfaceToTerra
         (Some {| mi_Type_ := "CLOUD"; mi_Uuid := "if-1"; mi_Id := 7 |}))
    /\ interfaceToFabric [IMap m]
       = Return {| mi_Type_ := "CLOUD"; mi_Uuid := "if-1"; mi_Id := 7 |}.
Proof.
  destruct (appended_round_trip
              {| vd_Href := "h"; vd_Type_ := "EDGE"; vd_Uuid := "vd-1";
                 vd_Name := "n" |}
              {| cr_Uuid := "cr-1"; cr_Href := "href" |}
              {| mi_Type_ := "CLOUD"; mi_Uuid := "if-1"; mi_Id := 7 |})
    as (_ & _ & Hil); [unfold isInt32; cbn; lia | exact Hil].
Defined.

(** X7. The link protocol is written only when its type is set: on a
    nil type the writing mapper panics. With the type set and the three
    tags in the range of an [int32], the map behind the placeholder
    reads back as the link protocol. *)
Theorem linkProtocol_round_trip (slp : SimplifiedLinkProtocol) :
  (returns (linkedProtocolToTerra slp) <-> is_Some (slp_Type_ slp))
  /\ (is_Some (slp_Type_ slp) ->
      isInt32 (slp_VlanSTag slp) -> isInt32 (slp_VlanTag slp) ->
      isInt32 (slp_VlanCTag slp) ->
      exists m set,
        linkedProtocolToTerra slp = Return set
        /\ placeholderThen m (Some set)
        /\ linkProtocolToFabric [IMap m] = Return slp).
Proof.
  destruct slp as [[type|] stag tag ctag]; cbn [slp_Type_ slp_VlanSTag slp_VlanTag slp_VlanCTag].
  - split; [split; [eauto | intros _; eexists; reflexivity] | ].
    intros _ Hs Ht Hc. eexists _, _.
    split; [reflexivity | split; [eexists; reflexivity | ]].
    transitivity
      (Return {| slp_Type_ := Some type;
                 slp_VlanSTag := int32_of_int (int_of_int32 stag);
                 slp_VlanTag := int32_of_int (int_of_int32 tag);
                 slp_VlanCTag := int32_of_int (int_of_int32 ctag) |});
      [reflexivity | now rewrite !int32_of_int_id].
  - split; [split; [intros [set [=]] | intros [type [=]]] | intros [type [=]]].
Qed.

Lemma linkProtocol_round_trip_witness :
  exists m set,
    linkedProtocolToTerra
      {| slp_Type_ := Some "DOT1Q"; slp_VlanSTag := 0; slp_VlanTag := 120;
         slp_VlanCTag := 0 |}
    = Return set
    /\ placeholderThen m (Some set)
    /\ linkProtocolToFabric [IMap m]
       = Return {| slp_Type_ := Some "DOT1Q"; slp_VlanSTag := 0;
                   slp_VlanTag := 120; slp_VlanCTag := 0 |}.
Proof.
  destruct (linkProtocol_round_trip
              {| slp_Type_ := Some "DOT1Q"; slp_VlanSTag := 0;
                 slp_VlanTag := 120; slp_VlanCTag := 0 |})
    as [_ Hback].
  apply Hback; [eexists; reflexivity | | | ]; unfold isInt32; cbn; lia.
Defined.

(** X8. The reading mappers narrow an [int] to an [int32] without a
    check: whatever id the element holds, [interfaceToFabric] returns,
    and the id of the interface is the [int32] that agrees with it
    modulo 2^32, which is the id itself exactly when that is in the
    range of an [int32]. *)
Theorem interfaceToFabric_narrows (m : gmap string atom)
    (uuid type : string) (id : Z) :
  m !! "uuid" = Some (AString uuid) ->
  m !! "type" = Some (AString type) ->
  m !! "id" = Some (AInt id) ->
  exists il,
    interfaceToFabric [IMap m] = Return il
    /\ isInt32 (mi_Id il)
    /\ (mi_Id il - id) mod 2 ^ 32 = 0
    /\ (mi_Id il = id <-> isInt32 id).
Proof.
  intros Hu Ht Hi. unfold interfaceToFabric. cbn [forRange assertMap bind].
  rewrite Hu, Ht, Hi. cbn [assertString assertInt bind].
  eexists. split; [reflexivity | ]. cbn [mi_Id].
  unfold int32_of_int, isInt32.
  pose proof (Z.mod_pos_bound (id + 2 ^ 31) (2 ^ 32) ltac:(lia)) as Hb.
  pose proof (Z.div_mod (id + 2 ^ 31) (2 ^ 32) ltac:(lia)) as Hd.
  split; [lia | split].
  - replace ((id + 2 ^ 31) mod 2 ^ 32 - 2 ^ 31 - id)
      with (- ((id + 2 ^ 31) / 2 ^ 32) * 2 ^ 32) by lia.
    apply Z.mod_mul. lia.
  - split; [lia | ]. intros Hr. rewrite Z.mod_small by lia. lia.
Qed.

Lemma interfaceToFabric_narrows_witness :
  exists il,
    interfaceToFabric
      [IMap (<["id" := AInt (2 ^ 32 + 5)]>
               (<["type" := AString "CLOUD"]> (<["uuid" := AString "if-1"]> ∅)))]
    = Return il
    /\ mi_Id il = 5.
Proof.
  destruct (interfaceToFabric_narrows
              (<["id" := AInt (2 ^ 32 + 5)]>
                 (<["type" := AString "CLOUD"]>
                    (<["uuid" := AString "if-1"]> ∅)))
              "if-1" "CLOUD" (2 ^ 32 + 5))
    as (il & Hret & _ & _ & _); try reflexivity.
  exists il. split; [exact Hret | ].
  vm_compute in Hret. injection Hret as <-. reflexivity.
Defined.

(** *** Patch requests *)

Section PatchRequests.
Context `{Vendor}.

Lemma getUpdateRequests_reads (conn : Connection) (d : ResourceDataValues)
    (name : string) (bandwidth : Z) (secrets : AWSSecrets)
    (hasSecrets : bool) (status : string) :
  desired d name bandwidth secrets hasSecrets ->
  providerStatus conn status ->
  getUpdateRequests conn d
  = let changeOps :=
      (if negb (String.eqb (conn_Name conn) name)
       then [namePatch name] else [])
      ++ (if negb (conn_Bandwidth conn =? bandwidth)
          then [bandwidthPatch bandwidth] else [])
      ++ (if String.eqb status PENDING_APPROVAL_ProviderStatus && hasSecrets
          then [secretsPatch secrets] else []) in
    match changeOps with
    | [] =>
        Return (None,
                Some (errorString
                        ("nothing to update for the connection "
                         +:+ conn_Name conn)))
    | _ => Return (Some changeOps, None)
    end.
Proof.
  intros (Hname & Hbw & info & Hinfo & Hsecrets) (operation & Hop & Hstatus).
  unfold getUpdateRequests. rewrite Hname, Hbw, Hinfo.
  cbn [getString getInt getList bind]. rewrite Hsecrets, Hop.
  cbn [bind deref]. rewrite Hstatus. cbn [bind deref].
  unfold int_of_int32.
  destruct (negb (String.eqb (conn_Name conn) name));
    destruct (negb (conn_Bandwidth conn =? bandwidth));
    destruct (String.eqb status PENDING_APPROVAL_ProviderStatus && hasSecrets);
    reflexivity.
Qed.

Lemma secretsDue_check (status : string) (hasSecrets : bool) :
  String.eqb status PENDING_APPROVAL_ProviderStatus && hasSecrets = true
  <-> secretsDue status hasSecrets.
Proof.
  unfold secretsDue. now rewrite andb_true_iff, String.eqb_eq.
Qed.

(** X10. With the resource data readable and the provider status of
    the connection present, [getUpdateRequests] fails exactly when there
    is nothing to send: the name and the bandwidth are the ones the
    connection has, and the AWS secrets are not due. It then returns
    the nil slice and the error that names the connection. *)
Theorem getUpdateRequests_nothing_to_update
    (conn : Connection) (d : ResourceDataValues) (name : string) (bandwidth : Z)
    (secrets : AWSSecrets) (hasSecrets : bool) (status : string) :
  desired d name bandwidth secrets hasSecrets ->
  providerStatus conn status ->
  (failed (getUpdateRequests conn d)
   <-> conn_Name conn = name /\ conn_Bandwidth conn = bandwidth
       /\ ~ secretsDue status hasSecrets)
  /\ (failed (getUpdateRequests conn d) ->
      getUpdateRequests conn d
      = Return (None,
                Some (errorString
                        ("nothing to update for the connection "
                         +:+ conn_Name conn)))).
Proof.
  intros Hd Hs. rewrite (getUpdateRequests_reads _ _ _ _ _ _ _ Hd Hs).
  cbv zeta.
  set (changeOps := (if negb _ then _ else _) ++ _).
  assert (Hnone : changeOps = []
                  <-> conn_Name conn = name /\ conn_Bandwidth conn = bandwidth
                      /\ ~ secretsDue status hasSecrets).
  { unfold changeOps. rewrite <- secretsDue_check.
    destruct (String.eqb_spec (conn_Name conn) name) as [Hn|Hn];
      destruct (Z.eqb_spec (conn_Bandwidth conn) bandwidth) as [Hb|Hb];
      destruct (String.eqb status PENDING_APPROVAL_ProviderStatus && hasSecrets);
      cbn [negb app]; split; try discriminate; try tauto.
    all: intros _; repeat split; auto; discriminate. }
  destruct changeOps as [|patch changeOps].
  - split; [split | reflexivity].
    + intros _. now apply Hnone.
    + intros _. eexists _, _. reflexivity.
  - split; [split | ].
    + intros (a & e & [=]).
    + intros Hsame. apply Hnone in Hsame. discriminate.
    + intros (a & e & [=]).
Qed.

(** X11. What [getUpdateRequests] sends, with the resource data
    readable and the provider status present: a patch for the name
    exactly when the name differs, a patch for the bandwidth exactly
    when the bandwidth differs, a patch that adds the secrets exactly
    when they are due; every patch is one operation, and the patches
    come in this order. *)
Theorem getUpdateRequests_patches
    (conn : Connection) (d : ResourceDataValues) (name : string) (bandwidth : Z)
    (secrets : AWSSecrets) (hasSecrets : bool) (status : string) :
  desired d name bandwidth secrets hasSecrets ->
  providerStatus conn status ->
  exists changeOps err,
    getUpdateRequests conn d = Return (changeOps, err)
    /\ (namePatch name ∈ default [] changeOps <-> conn_Name conn <> name)
    /\ (bandwidthPatch bandwidth ∈ default [] changeOps
        <-> conn_Bandwidth conn <> bandwidth)
    /\ (secretsPatch secrets ∈ default [] changeOps
        <-> secretsDue status hasSecrets)
    /\ Forall (fun patch => length patch = 1%nat) (default [] changeOps)
    /\ sublist (Path <$> concat (default [] changeOps))
         ["/name"; "/bandwidth"; EmptyString].
Proof.
  intros Hd Hs. rewrite (getUpdateRequests_reads _ _ _ _ _ _ _ Hd Hs).
  cbv zeta.
  pose proof (secretsDue_check status hasSecrets) as Hdue.
  destruct (String.eqb_spec (conn_Name conn) name) as [Hn|Hn];
    destruct (Z.eqb_spec (conn_Bandwidth conn) bandwidth) as [Hb|Hb];
    destruct (String.eqb status PENDING_APPROVAL_ProviderStatus && hasSecrets);
    cbn [negb app]; eexists _, _; (split; [reflexivity | ]);
    cbn [from_option id concat app];
    (split; [ | split; [ | split; [ | split]]]);
    rewrite ?elem_of_cons, ?elem_of_nil;
    unfold namePatch, bandwidthPatch, secretsPatch;
    try (intuition (discriminate || congruence); fail);
    try (repeat constructor; fail);
    cbn [fmap list_fmap Path];
    repeat first [apply sublist_nil | apply sublist_cons | apply sublist_skip].
Qed.

(** X12. [getUpdateRequests] returns exactly when the resource data is
    readable (a string name, an int bandwidth, a list of additional
    information that the helper accepts) and the connection has an
    operation with a provider status. Without the operation or without
    its provider status it panics, whatever there is to update. *)
Theorem getUpdateRequests_returns_iff (conn : Connection) (d : ResourceDataValues) :
  returns (getUpdateRequests conn d)
  <-> (exists name bandwidth secrets hasSecrets,
         desired d name bandwidth secrets hasSecrets)
      /\ (exists status, providerStatus conn status).
Proof.
  split.
  - unfold getUpdateRequests, desired, providerStatus.
    destruct (Get d "name") as [[| name | | |]|]; cbn [getString bind];
      try (intros [r Hr]; discriminate Hr).
    destruct (Get d "bandwidth") as [[| | bandwidth | |]|]; cbn [getInt bind];
      try (intros [r Hr]; discriminate Hr).
    destruct (Get d "additional_info") as [other|info]; cbn [getList bind];
      try (intros [r Hr]; discriminate Hr).
    destruct (additionalInfoContainsAWSSecrets info) as [[secrets has]|] eqn:Hs;
      cbn [bind]; try (intros [r Hr]; discriminate Hr).
    destruct (conn_Operation conn) as [operation|]; cbn [deref bind];
      try (intros [r Hr]; discriminate Hr).
    destruct (op_ProviderStatus operation) as [status|] eqn:Hst;
      cbn [deref bind]; try (intros [r Hr]; discriminate Hr).
    intros _. split; [exists name, bandwidth, secrets, has | exists status].
    + repeat split. exists info. split; [reflexivity | exact Hs].
    + exists operation. split; [reflexivity | exact Hst].
  - intros [(name & bandwidth & secrets & has & Hd) (status & Hs)].
    rewrite (getUpdateRequests_reads _ _ _ _ _ _ _ Hd Hs). cbv zeta.
    destruct (_ ++ _); eexists; reflexivity.
Qed.

End PatchRequests.

(** The keys under which [getRoutingProtocolPatchUpdateRequest] asks
    the resource data are not attribute names; data that holds nothing
    under them gives the replacement of the IPv4 switch by nil, though
    the protocol has both switches on. *)
Example getRoutingProtocolPatchUpdateRequest_without_booleans :
  @getRoutingProtocolPatchUpdateRequest sampleVendor
    (sampleProtocol true true) (sampleData "primary" 50 [])
  = Return (@replaceOp sampleVendor "/bgpIpv4/enabled" (DAtom ANil), None).
Proof. reflexivity. Qed.

Lemma getUpdateRequests_nothing_to_update_witness :
  @getUpdateRequests sampleVendor (sampleConnection "PROVISIONED")
    (sampleData "primary" 50 [])
  = Return (None,
            Some (errorString "nothing to update for the connection primary")).
Proof.
  destruct (@getUpdateRequests_nothing_to_update sampleVendor
              (sampleConnection "PROVISIONED") (sampleData "primary" 50 [])
              "primary" 50 [] false "PROVISIONED")
    as [Hiff Herror].
  - repeat split. exists []. split; reflexivity.
  - eexists. split; reflexivity.
  - apply Herror, Hiff. repeat split. intros [[=] _].
Defined.

Lemma getUpdateRequests_patches_witness :
  exists changeOps err,
    @getUpdateRequests sampleVendor (sampleConnection "PENDING_APPROVAL")
      (sampleData "renamed" 50
         [sampleInfo "accessKey" "AKIA"; sampleInfo "secretKey" "s3cr3t"])
    = Return (changeOps, err)
    /\ @namePatch sampleVendor "renamed" ∈ default [] changeOps
    /\ length (default [] changeOps) = 2%nat.
Proof.
  destruct (@getUpdateRequests_patches sampleVendor
              (sampleConnection "PENDING_APPROVAL")
              (sampleData "renamed" 50
                 [sampleInfo "accessKey" "AKIA"; sampleInfo "secretKey" "s3cr3t"])
              "renamed" 50
              [sampleInfo "accessKey" "AKIA"; sampleInfo "secretKey" "s3cr3t"]
              true "PENDING_APPROVAL")
    as (changeOps & err & Hret & Hname & _).
  - repeat split. eexists. split; reflexivity.
  - eexists. split; reflexivity.
  - exists changeOps, err. split; [exact Hret | ].
    split; [apply Hname; discriminate | ].
    vm_compute in Hret. injection Hret as <- _. reflexivity.
Defined.

Lemma getUpdateRequests_returns_iff_witness :
  exists r,
    @getUpdateRequests sampleVendor (sampleConnection "PROVISIONED")
      (sampleData "renamed" 50 [])
    = Return r.
Proof.
  apply (@getUpdateRequests_returns_iff sampleVendor). split.
  - exists "renamed", 50, [], false. repeat split.
    exists []. split; reflexivity.
  - exists "PROVISIONED". eexists. split; reflexivity.
Defined.

(** A connection whose operation is nil: the renaming is not sent. *)
Example getUpdateRequests_without_operation :
  @getUpdateRequests sampleVendor
    {| conn_Name := "primary"; conn_Bandwidth := 50; conn_Operation := None |}
    (sampleData "renamed" 50 [])
  = Panic "conn.Operation".
Proof. reflexivity. Qed.

End FabricMappersFacts.

(** ** Fabric schema mapping, the access point *)

Module FabricAccessPointFacts.
Import Go.
Import Fabric.
Import FabricMappers.
Import FabricAccessPoint.
Import FabricMappersSpec.
Import FabricAccessPointSpec.

Section AccessPoint.
Context `{Helpers}.

Lemma forEach_app {S : Type} (body : S -> apIface -> result S) (s : S)
    (l1 l2 : list apIface) :
  forEach body s (l1 ++ l2)
  = let! s' := forEach body s l1 in forEach body s' l2.
Proof.
  revert s. induction l1 as [|x l1 IH]; intros s; cbn [app forEach bind].
  - reflexivity.
  - destruct (body s x) as [s'|why]; cbn [bind]; [apply IH | reflexivity].
Qed.

(** The request with one more element: the step on what the elements
    before gave. *)
Lemma accessPointToFabric_snoc (l : list apIface) (x : apIface)
    (before : AccessPoint) :
  accessPointToFabric l = Return before ->
  accessPointToFabric (l ++ [x]) = accessPointStep before x.
Proof.
  unfold accessPointToFabric. intros Hl. rewrite forEach_app, Hl.
  cbn [bind forEach]. now destruct (accessPointStep before x).
Qed.

(** The lookups of the step in a map with one key written over. *)
Ltac other_keys m k v :=
  rewrite ?(lookup_insert_ne m k "port" v),
    ?(lookup_insert_ne m k "profile" v),
    ?(lookup_insert_ne m k "location" v),
    ?(lookup_insert_ne m k "virtual_device" v),
    ?(lookup_insert_ne m k "interface" v),
    ?(lookup_insert_ne m k "network" v),
    ?(lookup_insert_ne m k "type" v),
    ?(lookup_insert_ne m k "authentication_key" v),
    ?(lookup_insert_ne m k "provider_connection_id" v),
    ?(lookup_insert_ne m k "seller_region" v),
    ?(lookup_insert_ne m k "peering_type" v),
    ?(lookup_insert_ne m k "router" v),
    ?(lookup_insert_ne m k "gateway" v),
    ?(lookup_insert_ne m k "link_protocol" v)
    by discriminate.

(** Two elements on which the step agrees can stand for each other
    anywhere in the request. *)
Lemma accessPointToFabric_ext (l1 l2 : list apIface) (x y : apIface) :
  (forall before, accessPointStep before x = accessPointStep before y) ->
  accessPointToFabric (l1 ++ x :: l2) = accessPointToFabric (l1 ++ y :: l2).
Proof.
  intros Hstep. unfold accessPointToFabric. rewrite !forEach_app.
  destruct (forEach accessPointStep zeroAccessPoint l1) as [before|];
    cbn [bind forEach]; [ | reflexivity].
  now rewrite Hstep.
Qed.

(** X25. The deprecated gateway attribute is a fallback and nothing
    more. In an element with a router given, what the map holds under
    ["gateway"] makes no difference to the access point, it is not even
    looked at; and in an element with no router given, the list under
    ["gateway"] is mapped as if it had been given under ["router"]. *)
Theorem gateway_is_a_fallback (l1 l2 : list apIface)
    (m : gmap string apValue) (routers gateways : list iface) :
  (m !! "router" = Some (APSet routers) -> routers <> [] ->
   forall v : apValue,
     accessPointToFabric (l1 ++ APMap (<["gateway" := v]> m) :: l2)
     = accessPointToFabric (l1 ++ APMap m :: l2))
  /\ (m !! "router" = Some (APSet []) ->
      m !! "gateway" = Some (APSet gateways) ->
      accessPointToFabric (l1 ++ APMap m :: l2)
      = accessPointToFabric
          (l1 ++ APMap (<["router" := APSet gateways]> m) :: l2)).
Proof.
  split.
  - intros Hrouter Hgiven v. apply accessPointToFabric_ext. intros before.
    unfold accessPointStep.
    cbn [assertAPMap bind]. other_keys m "gateway" v. rewrite Hrouter.
    destruct routers as [|router routers]; [contradiction | ].
    cbn [setList bind nonEmpty negb length Nat.eqb]. reflexivity.
  - intros Hrouter Hgateway. apply accessPointToFabric_ext. intros before.
    unfold accessPointStep.
    cbn [assertAPMap bind]. other_keys m "router" (APSet gateways).
    rewrite lookup_insert_eq, Hrouter, Hgateway.
    destruct gateways; cbn [setList bind nonEmpty negb length Nat.eqb];
      reflexivity.
Qed.

(** *** One step, read by read *)

(** A mapping of a non-empty list of link protocols has its type set:
    the last element sets it. *)
Lemma linkProtocolToFabric_typed (l : list iface)
    (slp : SimplifiedLinkProtocol) :
  l <> [] -> linkProtocolToFabric l = Return slp -> is_Some (slp_Type_ slp).
Proof.
  destruct l as [|x l _] using rev_ind; [contradiction | ]. intros _.
  unfold linkProtocolToFabric.
  rewrite FabricMappersFacts.forRange_app.
  destruct (forRange _ _ l) as [before|]; cbn [bind forRange];
    [ | discriminate].
  destruct (assertMap x) as [m|]; cbn [bind]; [ | discriminate].
  destruct (assertString (m !! "type")) as [type|]; cbn [bind];
    [ | discriminate].
  destruct (assertInt (m !! "vlan_s_tag")); cbn [bind]; [ | discriminate].
  destruct (assertInt (m !! "vlan_tag")); cbn [bind]; [ | discriminate].
  destruct (assertInt (m !! "vlan_c_tag")); cbn [bind]; [ | discriminate].
  intros [= <-]. eexists. reflexivity.
Qed.

(** The head read of a step that returned, returned. *)
Ltac read_next Hstep x Hx :=
  match type of Hstep with
  | bind ?E _ = Return _ =>
      destruct E as [x|] eqn:Hx; cbn [bind] in Hstep; [ | discriminate Hstep]
  end.

(** What a guarded block leaves of a field that it does not set. *)
Ltac block_keeps Hblock :=
  repeat match type of Hblock with
         | (if ?c then _ else _) = _ => destruct c
         | bind ?E _ = _ => destruct E; cbn [bind] in Hblock
         | Panic _ = Return _ => discriminate Hblock
         | Return (if ?c then _ else _) = _ => destruct c
         | Return (match ?c with Some _ => _ | None => _ end) = _ => destruct c
         end;
  injection Hblock as <-; reflexivity.

Ltac block_keeps_copy H :=
  let Hblock := fresh "Hblock" in pose proof H as Hblock; block_keeps Hblock.

(** A field through the blocks of a step: what each block returned,
    and the equation that says so. *)
Ltac after_link f linked profiled located deviced
                Hprofiled Hlocated Hdeviced Hinterfaced :=
  transitivity (f deviced); [block_keeps_copy Hinterfaced | ];
  transitivity (f located); [block_keeps_copy Hdeviced | ];
  transitivity (f profiled); [block_keeps_copy Hlocated | ];
  transitivity (f linked); [block_keeps_copy Hprofiled | ].

Ltac before_link f typeVal routed ported networked
                 Hported Hnetworked Hlinked :=
  transitivity (f networked); [block_keeps_copy Hlinked | ];
  transitivity (f ported); [block_keeps_copy Hnetworked | ];
  transitivity (f (set_ap_Type_ (Some typeVal) routed));
    [block_keeps_copy Hported | ].

Ltac before_type f strings routed Hrouted Hstrings :=
  transitivity (f routed); [reflexivity | ];
  transitivity (f strings); [block_keeps_copy Hrouted | ];
  rewrite Hstrings;
  repeat match goal with
         | |- context [is_empty ?s] => destruct (is_empty s)
         end;
  reflexivity.

Lemma accessPointStep_reads (before after : AccessPoint)
    (m : gmap string apValue) :
  accessPointStep before (APMap m) = Return after ->
  exists typeVal authenticationKey providerConnectionId sellerRegion
         peeringTypeRaw linkProtocolList,
    m !! "type" = Some (APString typeVal)
    /\ m !! "authentication_key" = Some (APString authenticationKey)
    /\ m !! "provider_connection_id" = Some (APString providerConnectionId)
    /\ m !! "seller_region" = Some (APString sellerRegion)
    /\ m !! "peering_type" = Some (APString peeringTypeRaw)
    /\ m !! "link_protocol" = Some (APSet linkProtocolList)
    /\ ap_Type_ after = Some typeVal
    /\ ap_AuthenticationKey after
       = (if is_empty authenticationKey then ap_AuthenticationKey before
          else authenticationKey)
    /\ ap_ProviderConnectionId after
       = (if is_empty providerConnectionId
          then ap_ProviderConnectionId before else providerConnectionId)
    /\ ap_SellerRegion after
       = (if is_empty sellerRegion then ap_SellerRegion before
          else sellerRegion)
    /\ ap_PeeringType after
       = (if is_empty peeringTypeRaw then ap_PeeringType before
          else Some peeringTypeRaw)
    /\ (linkProtocolList = [] -> ap_LinkProtocol after = ap_LinkProtocol before)
    /\ (linkProtocolList <> [] ->
        exists slp, linkProtocolToFabric linkProtocolList = Return slp
                    /\ ap_LinkProtocol after = Some slp).
Proof.
  unfold accessPointStep. cbn [assertAPMap bind]. cbv zeta. intros Hstep.
  read_next Hstep portList Hport.
  read_next Hstep profileList Hprofile.
  read_next Hstep locationList Hlocation.
  read_next Hstep virtualdeviceList Hvd.
  read_next Hstep interfaceList Hinterface.
  read_next Hstep networkList Hnetwork.
  read_next Hstep typeVal Htype.
  read_next Hstep authenticationKey Hkey.
  read_next Hstep providerConnectionId Hpcid.
  read_next Hstep sellerRegion Hregion.
  read_next Hstep peeringTypeRaw Hpeering.
  read_next Hstep routers Hrouters.
  read_next Hstep chosen Hchosen.
  match type of Hstep with
  | context [set_ap_PeeringType (Some peeringTypeRaw) ?a] =>
      remember (if negb (is_empty peeringTypeRaw)
                then set_ap_PeeringType (Some peeringTypeRaw) a else a)
        as strings eqn:Hstrings in Hstep
  end.
  read_next Hstep routed Hrouted.
  read_next Hstep ported Hported.
  read_next Hstep networked Hnetworked.
  read_next Hstep linkProtocolList Hlinks.
  read_next Hstep linked Hlinked.
  read_next Hstep profiled Hprofiled.
  read_next Hstep located Hlocated.
  read_next Hstep deviced Hdeviced.
  read_next Hstep interfaced Hinterfaced.
  injection Hstep as <-.
  exists typeVal, authenticationKey, providerConnectionId, sellerRegion,
    peeringTypeRaw, linkProtocolList.
  assert (Hval : forall x s, apString x = Return s -> x = Some (APString s)).
  { intros [[s'| |]|] s; cbn; intros [=]. now subst. }
  assert (Hset : forall x l, setList x = Return l -> x = Some (APSet l)).
  { intros [[|l'|]|] l; cbn; intros [=]. now subst. }
  repeat (split; [now apply Hval || now apply Hset | ]).
  split.
  { after_link ap_Type_ linked profiled located deviced
      Hprofiled Hlocated Hdeviced Hinterfaced.
    before_link ap_Type_ typeVal routed ported networked
      Hported Hnetworked Hlinked.
    reflexivity. }
  split.
  { after_link ap_AuthenticationKey linked profiled located deviced
      Hprofiled Hlocated Hdeviced Hinterfaced.
    before_link ap_AuthenticationKey typeVal routed ported networked
      Hported Hnetworked Hlinked.
    before_type ap_AuthenticationKey strings routed Hrouted Hstrings. }
  split.
  { after_link ap_ProviderConnectionId linked profiled located deviced
      Hprofiled Hlocated Hdeviced Hinterfaced.
    before_link ap_ProviderConnectionId typeVal routed ported networked
      Hported Hnetworked Hlinked.
    before_type ap_ProviderConnectionId strings routed Hrouted Hstrings. }
  split.
  { after_link ap_SellerRegion linked profiled located deviced
      Hprofiled Hlocated Hdeviced Hinterfaced.
    before_link ap_SellerRegion typeVal routed ported networked
      Hported Hnetworked Hlinked.
    before_type ap_SellerRegion strings routed Hrouted Hstrings. }
  split.
  { after_link ap_PeeringType linked profiled located deviced
      Hprofiled Hlocated Hdeviced Hinterfaced.
    before_link ap_PeeringType typeVal routed ported networked
      Hported Hnetworked Hlinked.
    before_type ap_PeeringType strings routed Hrouted Hstrings. }
  split.
  - intros ->. cbn [nonEmpty length Nat.eqb negb] in Hlinked.
    after_link ap_LinkProtocol linked profiled located deviced
      Hprofiled Hlocated Hdeviced Hinterfaced.
    before_link ap_LinkProtocol typeVal routed ported networked
      Hported Hnetworked Hlinked.
    before_type ap_LinkProtocol strings routed Hrouted Hstrings.
  - intros Hgiven. destruct linkProtocolList as [|lp lps]; [contradiction | ].
    cbn [nonEmpty length Nat.eqb negb] in Hlinked.
    destruct (linkProtocolToFabric (lp :: lps)) as [slp|] eqn:Hslp;
      cbn [bind] in Hlinked; [ | discriminate].
    destruct (linkProtocolToFabric_typed (lp :: lps) slp Hgiven Hslp)
      as [type Htyped].
    rewrite Htyped in Hlinked. injection Hlinked as <-.
    exists slp. split; [reflexivity | ].
    after_link ap_LinkProtocol
      (set_ap_LinkProtocol (Some slp) networked) profiled located deviced
      Hprofiled Hlocated Hdeviced Hinterfaced.
    reflexivity.
Qed.

(** A request that is mapped is mapped up to its last element. *)
Lemma accessPointToFabric_prefix (l : list apIface) (x : apIface)
    (after : AccessPoint) :
  accessPointToFabric (l ++ [x]) = Return after ->
  exists before,
    accessPointToFabric l = Return before
    /\ accessPointStep before x = Return after.
Proof.
  unfold accessPointToFabric. rewrite forEach_app.
  destruct (forEach accessPointStep zeroAccessPoint l) as [before|];
    cbn [bind forEach]; [ | discriminate].
  destruct (accessPointStep before x) as [stepped|] eqn:Hstep;
    cbn [bind]; [ | discriminate].
  intros [= <-]. eauto.
Qed.

(** X26. Whenever [accessPointToFabric] returns, the type of the access
    point is set exactly when the request is not empty: on the empty
    request the zero access point comes back, without a type and
    without a link protocol; on a request with a last element, that
    element is a map, the type is the type it holds, also when that is
    the empty string, and the link protocol is set whenever the element
    gives a non-empty list of link protocols: the check of the mapped
    type that guards the assignment never fails then, for the mapper
    sets the type at every element; with an empty list the link
    protocol of the elements before stays. *)
Theorem accessPointToFabric_type_and_link_protocol
    (request : list apIface) (after : AccessPoint) :
  accessPointToFabric request = Return after ->
  (is_Some (ap_Type_ after) <-> request <> [])
  /\ (request = [] -> after = zeroAccessPoint)
  /\ (forall l x, request = l ++ [x] ->
      exists m before typeVal linkProtocolList,
        x = APMap m
        /\ accessPointToFabric l = Return before
        /\ m !! "type" = Some (APString typeVal)
        /\ ap_Type_ after = Some typeVal
        /\ m !! "link_protocol" = Some (APSet linkProtocolList)
        /\ (linkProtocolList <> [] ->
            exists slp,
              linkProtocolToFabric linkProtocolList = Return slp
              /\ ap_LinkProtocol after = Some slp)
        /\ (linkProtocolList = [] ->
            ap_LinkProtocol after = ap_LinkProtocol before)).
Proof.
  intros Hafter.
  assert (Hlast : forall l x, request = l ++ [x] ->
            exists m before typeVal linkProtocolList,
              x = APMap m
              /\ accessPointToFabric l = Return before
              /\ m !! "type" = Some (APString typeVal)
              /\ ap_Type_ after = Some typeVal
              /\ m !! "link_protocol" = Some (APSet linkProtocolList)
              /\ (linkProtocolList <> [] ->
                  exists slp,
                    linkProtocolToFabric linkProtocolList = Return slp
                    /\ ap_LinkProtocol after = Some slp)
              /\ (linkProtocolList = [] ->
                  ap_LinkProtocol after = ap_LinkProtocol before)).
  { intros l x ->.
    apply accessPointToFabric_prefix in Hafter as (before & Hbefore & Hstep).
    destruct x as [m|]; [ | discriminate Hstep].
    apply accessPointStep_reads in Hstep
      as (typeVal & key & pcid & region & peering & links & Htype & _ & _ & _
          & _ & Hlinks & Htyped & _ & _ & _ & _ & Hnone & Hsome).
    exists m, before, typeVal, links. tauto. }
  split; [ | split; [ | exact Hlast]].
  - destruct request as [|x request _] using rev_ind.
    + injection Hafter as <-. split; [intros [type [=]] | congruence].
    + destruct (Hlast request x eq_refl)
        as (m & before & typeVal & links & _ & _ & _ & Htyped & _).
      split; [intros _ | rewrite Htyped; eauto].
      intros Hnil. now apply app_eq_nil in Hnil as [_ [=]].
  - intros ->. now injection Hafter as <-.
Qed.

(** X27. Unlike the mappers of one structure, the access point is
    built up over the elements of the request: an element that leaves
    the authentication key, the provider connection id, the seller
    region or the peering type empty keeps what the elements before it
    set, and an element that gives one of them overwrites it. *)
Theorem accessPointToFabric_keeps_strings
    (l : list apIface) (m : gmap string apValue)
    (before after : AccessPoint) :
  accessPointToFabric l = Return before ->
  accessPointToFabric (l ++ [APMap m]) = Return after ->
  (forall v, m !! "authentication_key" = Some (APString v) ->
     ap_AuthenticationKey after
     = if is_empty v then ap_AuthenticationKey before else v)
  /\ (forall v, m !! "provider_connection_id" = Some (APString v) ->
        ap_ProviderConnectionId after
        = if is_empty v then ap_ProviderConnectionId before else v)
  /\ (forall v, m !! "seller_region" = Some (APString v) ->
        ap_SellerRegion after
        = if is_empty v then ap_SellerRegion before else v)
  /\ (forall v, m !! "peering_type" = Some (APString v) ->
        ap_PeeringType after
        = if is_empty v then ap_PeeringType before else Some v).
Proof.
  intros Hbefore Hafter.
  rewrite (accessPointToFabric_snoc l _ before Hbefore) in Hafter.
  apply accessPointStep_reads in Hafter
    as (typeVal & key & pcid & region & peering & links & _ & Hkey & Hpcid
        & Hregion & Hpeering & _ & _ & Hkey' & Hpcid' & Hregion' & Hpeering'
        & _).
  split; [ | split; [ | split]]; intros v Hv.
  - rewrite Hkey in Hv. injection Hv as <-. exact Hkey'.
  - rewrite Hpcid in Hv. injection Hv as <-. exact Hpcid'.
  - rewrite Hregion in Hv. injection Hv as <-. exact Hregion'.
  - rewrite Hpeering in Hv. injection Hv as <-. exact Hpeering'.
Qed.

End AccessPoint.

Lemma gateway_is_a_fallback_witness :
  @accessPointToFabric sampleHelpers
    [APMap (<["gateway" := APOther]>
              (<["router" := APSet [uuidItem "router-1"]]>
                 (bareAccessPoint "CLOUD_ROUTER")))]
  = @accessPointToFabric sampleHelpers
      [APMap (<["router" := APSet [uuidItem "router-1"]]>
                (bareAccessPoint "CLOUD_ROUTER"))].
Proof.
  apply (proj1 (@gateway_is_a_fallback sampleHelpers [] []
                  (<["router" := APSet [uuidItem "router-1"]]>
                     (bareAccessPoint "CLOUD_ROUTER"))
                  [uuidItem "router-1"] []));
    [reflexivity | discriminate].
Defined.

(** A router named under the deprecated attribute. *)
Example accessPointToFabric_reads_gateway :
  exists accessPoint,
    @accessPointToFabric sampleHelpers
      [APMap (<["gateway" := APSet [uuidItem "router-1"]]>
                (bareAccessPoint "CLOUD_ROUTER"))]
    = Return accessPoint
    /\ ap_Router accessPoint
       = Some {| cr_Uuid := "router-1"; cr_Href := EmptyString |}.
Proof. eexists. split; reflexivity. Qed.

Lemma accessPointToFabric_type_and_link_protocol_witness :
  exists after,
    @accessPointToFabric sampleHelpers
      [APMap (<["link_protocol" := APSet [dot1q 120]]>
                (bareAccessPoint EmptyString))]
    = Return after
    /\ ap_Type_ after = Some EmptyString
    /\ is_Some (ap_LinkProtocol after).
Proof.
  destruct (@accessPointToFabric sampleHelpers
              [APMap (<["link_protocol" := APSet [dot1q 120]]>
                        (bareAccessPoint EmptyString))])
    as [after|why] eqn:Hafter; [ | vm_compute in Hafter; discriminate].
  exists after. split; [reflexivity | ].
  destruct (@accessPointToFabric_type_and_link_protocol sampleHelpers
              [APMap (<["link_protocol" := APSet [dot1q 120]]>
                        (bareAccessPoint EmptyString))]
              after Hafter)
    as (_ & _ & Hlast).
  destruct (Hlast []
              (APMap (<["link_protocol" := APSet [dot1q 120]]>
                        (bareAccessPoint EmptyString)))
              eq_refl)
    as (m & before & typeVal & links & Hm & _ & Htype & Htyped & Hlinks
        & Hsome & _).
  injection Hm as <-. split.
  - rewrite Htyped. vm_compute in Htype. injection Htype as <-. reflexivity.
  - vm_compute in Hlinks. injection Hlinks as <-.
    destruct Hsome as (slp & _ & ->); [discriminate | eauto].
Defined.

(** The empty request: the zero access point, which has no type. *)
Example accessPointToFabric_empty_request :
  @accessPointToFabric sampleHelpers [] = Return (@zeroAccessPoint sampleHelpers)
  /\ ap_Type_ (@zeroAccessPoint sampleHelpers) = None.
Proof. split; reflexivity. Qed.

Lemma accessPointToFabric_keeps_strings_witness :
  exists after,
    @accessPointToFabric sampleHelpers
      [APMap (<["authentication_key" := APString "key-1"]>
                (bareAccessPoint "COLO"));
       APMap (bareAccessPoint "COLO")]
    = Return after
    /\ ap_AuthenticationKey after = "key-1".
Proof.
  destruct (@accessPointToFabric sampleHelpers
              [APMap (<["authentication_key" := APString "key-1"]>
                        (bareAccessPoint "COLO"));
               APMap (bareAccessPoint "COLO")])
    as [after|why] eqn:Hafter; [ | vm_compute in Hafter; discriminate].
  exists after. split; [reflexivity | ].
  destruct (@accessPointToFabric sampleHelpers
              [APMap (<["authentication_key" := APString "key-1"]>
                        (bareAccessPoint "COLO"))])
    as [before|why] eqn:Hbefore; [ | vm_compute in Hbefore; discriminate].
  destruct (@accessPointToFabric_keeps_strings sampleHelpers
              [APMap (<["authentication_key" := APString "key-1"]>
                        (bareAccessPoint "COLO"))]
              (bareAccessPoint "COLO") before after Hbefore Hafter)
    as (Hkey & _).
  rewrite (Hkey EmptyString eq_refl). cbn [is_empty].
  vm_compute in Hbefore. injection Hbefore as <-. reflexivity.
Defined.

End FabricAccessPointFacts.

(** ** Package [config], what [Load] leaves behind *)

Module ConfigLoadFacts.
Import Go.
Import Config.
Import ConfigSpec.
Import ConfigLoadSpec.
Import StringFacts.

Section Loading.
Context `{Platform}.

(** Authentication touches the fabric token at most. *)
Lemma authenticate_inl (c c0 : Config) (authClient : HttpClient) :
  authenticate c = inl (c0, authClient) ->
  c0 = set_FabricAuthToken (FabricAuthToken c0) c
  /\ http_Timeout authClient = 0.
Proof.
  unfold authenticate.
  destruct (negb (is_empty (Token c))).
  { intros [= <- <-]. now destruct c. }
  destruct (negb (is_empty (ClientID c)) && negb (is_empty (ClientSecret c))).
  2: { intros [= <- <-]. now destruct c. }
  destruct (oauth2_Token _ _ _) as [[tke|] [msg|]]; intros [= <- <-];
    now destruct c.
Qed.

Lemma NewMetalClient_inv (c c1 : Config) (client : PackngoClient) :
  NewMetalClient c = Return (c1, client) ->
  c1 = set_metalUserAgent (packngo_UserAgent client) c
  /\ exists baseURL made,
       url_Parse (BaseURL c) = Some baseURL
       /\ packngo_NewClientWithBaseURL consumerToken (AuthToken c)
            (metalStandardClient c "Equinix Metal (packngo)")
            (metalEndpoint baseURL)
          = Some made
       /\ client
          = packngo_setUserAgent (fullUserAgent c (packngo_UserAgent made))
              made.
Proof.
  unfold NewMetalClient, metalBaseURL.
  destruct (url_Parse (BaseURL c)) as [baseURL|] eqn:Hparse;
    cbn [deref bind]; [ | discriminate].
  fold (metalEndpoint baseURL).
  destruct (packngo_NewClientWithBaseURL _ _ _ _) as [made|] eqn:Hmade;
    cbn [deref bind]; [ | discriminate].
  intros [= <- <-]. split; [reflexivity | eauto 6].
Qed.

Lemma NewMetalGoClient_inv (c c1 : Config) (client : MetalGoClient) :
  NewMetalGoClient c = Return (c1, client) ->
  c1 = set_metalGoUserAgent (mg_UserAgent (mg_cfg client)) c
  /\ mg_UserAgent (mg_cfg client)
     = fullUserAgent c (mg_UserAgent metalv1_NewConfiguration)
  /\ mg_DefaultHeader (mg_cfg client) !! "X-Auth-Token" = Some (AuthToken c)
  /\ is_Some (url_Parse (BaseURL c)).
Proof.
  unfold NewMetalGoClient, metalBaseURL.
  destruct (url_Parse (BaseURL c)) as [baseURL|] eqn:Hparse;
    cbn [deref bind]; [ | discriminate].
  intros [= <- <-]. cbn [mg_cfg mg_UserAgent mg_DefaultHeader].
  rewrite lookup_insert. eauto.
Qed.

Lemma fullUserAgent_version (c1 c2 : Config) (suffix : string) :
  TerraformVersion c1 = TerraformVersion c2 ->
  fullUserAgent c1 suffix = fullUserAgent c2 suffix.
Proof. unfold fullUserAgent. now intros ->. Qed.

(** A successful [Load], step by step: the checks passed, the
    authentication gave a client, and the two Metal constructors
    returned. *)
Ltac load_steps c Hbase Hcred c0 authClient Hauth c1 metal Hmetal c2 metalgo Hgo :=
  unfold loaded, Load;
  destruct (is_empty (BaseURL c)) eqn:Hbase; [discriminate | ];
  destruct (is_empty (Token c)
            && (is_empty (ClientID c) || is_empty (ClientSecret c))
            && is_empty (AuthToken c)) eqn:Hcred; [discriminate | ];
  destruct (authenticate c) as [[c0 authClient]|?] eqn:Hauth; [ | discriminate];
  destruct (NewMetalClient _) as [[c1 metal]|] eqn:Hmetal; cbn [bind];
    [ | discriminate];
  destruct (NewMetalGoClient _) as [[c2 metalgo]|] eqn:Hgo; cbn [bind];
    [ | discriminate];
  apply authenticate_inl in Hauth as [Hauth _];
  apply NewMetalClient_inv in Hmetal as [-> Hmetal];
  apply NewMetalGoClient_inv in Hgo as (-> & Hgo).

(** X13. [Load] changes no setting: whenever it returns, the base
    URL, the credentials, the retry and timeout settings, the page size
    and the Terraform version are as they were; and when it returns an
    error it has changed nothing at all, no client is set and no
    identity recorded. *)
Theorem Load_keeps_settings (ctx : Context) (c c' : Config)
    (err : option error) :
  Load ctx c = Return (c', err) ->
  sameSettings c c' /\ (is_Some err -> c' = c).
Proof.
  destruct err as [e|].
  - intros Hload. apply ConfigFacts.Load_returns in Hload as [-> _].
    split; [repeat split | reflexivity].
  - intros Hload. split; [ | intros [e [=]]]. revert Hload.
    load_steps c Hbase Hcred c0 authClient Hauth c1 metal Hmetal c2 metalgo Hgo.
    intros [= <-]. rewrite Hauth.
    destruct (is_empty (FabricAuthToken _)); repeat split.
Qed.

(** X14. After a successful [Load] every client sends the identity
    that the configuration recorded for it; the ECX and the NE client
    are one and the same client, under the same identity with the ECX
    suffix; and the identity of the metal-go client is the base identity
    of the given configuration around the SDK's own. *)
Theorem Load_records_agents (ctx : Context) (c c' : Config) :
  loaded ctx c c' ->
  recordedAgents c'
  /\ Ecx c' = Ne c'
  /\ ecxUserAgent c' = fullUserAgent c "equinix/ecx-go"
  /\ neUserAgent c' = fullUserAgent c "equinix/ecx-go"
  /\ metalGoUserAgent c'
     = fullUserAgent c (mg_UserAgent metalv1_NewConfiguration).
Proof.
  load_steps c Hbase Hcred c0 authClient Hauth c1 metal Hmetal c2 metalgo Hgo.
  destruct Hgo as (Hagent & _). intros [= <-].
  split; [repeat split | split; [reflexivity | ]].
  repeat split; cbn [ecxUserAgent neUserAgent metalGoUserAgent set_FabricClient
                     set_Metalgo set_metalGoUserAgent set_Metal
                     set_metalUserAgent set_Ne set_Ecx set_neUserAgent
                     set_ecxUserAgent];
    try rewrite Hagent; apply fullUserAgent_version; rewrite Hauth;
    destruct (is_empty (FabricAuthToken _)); reflexivity.
Qed.

Lemma FabricAuthToken_default (c : Config) :
  FabricAuthToken
    (if is_empty (FabricAuthToken c) then set_FabricAuthToken (Token c) c
     else c)
  = if is_empty (FabricAuthToken c) then Token c else FabricAuthToken c.
Proof. destruct (is_empty (FabricAuthToken c)); reflexivity. Qed.

(** X15. The fabric token after a successful [Load]. With a static
    token, a fabric token set beforehand is kept, and the static token
    is taken when none was set. Without a static token, the access token
    of the exchange replaces whatever was set; and where no exchange is
    made, or it hands back no token, the fabric token stays as it
    was. *)
Theorem Load_fabric_token (ctx : Context) (c c' : Config) :
  loaded ctx c c' ->
  (Token c <> EmptyString ->
   FabricAuthToken c'
   = if is_empty (FabricAuthToken c) then Token c else FabricAuthToken c)
  /\ (Token c = EmptyString ->
      ClientID c <> EmptyString -> ClientSecret c <> EmptyString ->
      forall tke,
        (oauth2_Token (ClientID c) (ClientSecret c) (BaseURL c)).1 = Some tke ->
        FabricAuthToken c' = tok_AccessToken tke)
  /\ (Token c = EmptyString ->
      ClientID c = EmptyString \/ ClientSecret c = EmptyString
      \/ (oauth2_Token (ClientID c) (ClientSecret c) (BaseURL c)).1 = None ->
      FabricAuthToken c' = FabricAuthToken c).
Proof.
  unfold loaded, Load.
  destruct (is_empty (BaseURL c)) eqn:Hbase; [discriminate | ].
  destruct (is_empty (Token c)
            && (is_empty (ClientID c) || is_empty (ClientSecret c))
            && is_empty (AuthToken c)) eqn:Hcred; [discriminate | ].
  destruct (authenticate c) as [[c0 authClient]|?] eqn:Hauth; [ | discriminate].
  destruct (NewMetalClient _) as [[c1 metal]|] eqn:Hmetal; cbn [bind];
    [ | discriminate].
  destruct (NewMetalGoClient _) as [[c2 metalgo]|] eqn:Hgo; cbn [bind];
    [ | discriminate].
  apply NewMetalClient_inv in Hmetal as [-> _].
  apply NewMetalGoClient_inv in Hgo as (-> & _).
  intros [= <-].
  cbn [FabricAuthToken set_FabricClient set_Metalgo set_metalGoUserAgent
       set_Metal set_metalUserAgent set_Ne set_Ecx set_neUserAgent
       set_ecxUserAgent].
  rewrite FabricAuthToken_default.
  unfold authenticate in Hauth.
  destruct (is_empty (Token c)) eqn:Htok; cbn [negb] in Hauth.
  - apply is_empty_eq in Htok.
    split; [congruence | ].
    destruct (is_empty (ClientID c)) eqn:Hid;
      [ | destruct (is_empty (ClientSecret c)) eqn:Hsecret ];
      cbn [negb andb] in Hauth.
    + apply is_empty_eq in Hid. injection Hauth as <- _.
      split; [congruence | intros _ _].
      rewrite Htok. now destruct (is_empty (FabricAuthToken c)) eqn:Hf;
        [apply is_empty_eq in Hf | ].
    + apply is_empty_eq in Hsecret. injection Hauth as <- _.
      split; [congruence | intros _ _].
      rewrite Htok. now destruct (is_empty (FabricAuthToken c)) eqn:Hf;
        [apply is_empty_eq in Hf | ].
    + assert (Hid' : ClientID c <> EmptyString)
        by (intros Heq; apply is_empty_eq in Heq; congruence).
      assert (Hsecret' : ClientSecret c <> EmptyString)
        by (intros Heq; apply is_empty_eq in Heq; congruence).
      destruct (oauth2_Token _ _ _) as [[tke|] [msg|]]; try discriminate;
        injection Hauth as <- _; cbn [fst].
      * split.
        -- intros _ _ _ tke' [= <-]. cbn [FabricAuthToken set_FabricAuthToken Token].
           rewrite Htok.
           now destruct (is_empty (tok_AccessToken tke)) eqn:Hf;
             [apply is_empty_eq in Hf | ].
        -- intros _ [? | [? | ?]]; congruence.
      * split; [intros _ _ _ tke' [=] | intros _ _].
        rewrite Htok. now destruct (is_empty (FabricAuthToken c)) eqn:Hf;
          [apply is_empty_eq in Hf | ].
  - injection Hauth as <- _.
    split; [intros _; reflexivity | ].
    split; intros Hempty; apply is_empty_eq in Hempty; congruence.
Qed.

Lemma authenticate_exchange (c : Config) :
  (exists c0 authClient, authenticate c = inl (c0, authClient))
  <-> exchangeSucceeds c.
Proof.
  unfold authenticate, exchangeSucceeds.
  destruct (is_empty (Token c)) eqn:Htok; cbn [negb].
  2: { split; [ | eauto]. intros _ Hempty.
       apply is_empty_eq in Hempty. congruence. }
  destruct (is_empty (ClientID c)) eqn:Hid; cbn [negb andb].
  { split; [ | eauto]. intros _ _ Hne.
    apply is_empty_eq in Hid. congruence. }
  destruct (is_empty (ClientSecret c)) eqn:Hsecret; cbn [negb andb].
  { split; [ | eauto]. intros _ _ _ Hne.
    apply is_empty_eq in Hsecret. congruence. }
  assert (Htok' : Token c = EmptyString) by now apply is_empty_eq.
  assert (Hid' : ClientID c <> EmptyString)
    by (intros Heq; apply is_empty_eq in Heq; congruence).
  assert (Hsecret' : ClientSecret c <> EmptyString)
    by (intros Heq; apply is_empty_eq in Heq; congruence).
  destruct (oauth2_Token _ _ _) as [[tke|] [msg|]]; cbn [snd]; split; eauto;
    try (intros (c0 & a & [=])); intros Hnone;
    specialize (Hnone Htok' Hid' Hsecret'); discriminate.
Qed.

(** X16. [Load] succeeds exactly when the base URL is not empty, some
    credential form is present, the token exchange (attempted without a
    static token and with both client credentials) gives no error, the
    URL parser accepts the base URL and the packngo constructor hands
    back a client. *)
Theorem Load_succeeds_iff (ctx : Context) (c : Config) :
  (exists c', loaded ctx c c')
  <-> BaseURL c <> EmptyString /\ ~ noCredentials c
      /\ exchangeSucceeds c /\ metalReachable c.
Proof.
  split.
  - intros [c' Hload]. revert Hload. unfold loaded, Load.
    destruct (is_empty (BaseURL c)) eqn:Hbase; [discriminate | ].
    destruct (is_empty (Token c)
              && (is_empty (ClientID c) || is_empty (ClientSecret c))
              && is_empty (AuthToken c)) eqn:Hcred; [discriminate | ].
    destruct (authenticate c) as [[c0 authClient]|?] eqn:Hauth;
      [ | discriminate].
    destruct (NewMetalClient _) as [[c1 metal]|] eqn:Hmetal; cbn [bind];
      [ | discriminate].
    intros _.
    split; [intros Heq; apply is_empty_eq in Heq; congruence | ].
    split; [intros Hnone; apply ConfigFacts.noCredentials_check in Hnone;
            congruence | ].
    split; [apply authenticate_exchange; eauto | ].
    apply authenticate_inl in Hauth as [Hauth _].
    apply NewMetalClient_inv in Hmetal as (_ & baseURL & made & Hparse & Hmade & _).
    exists baseURL, made. rewrite Hauth in Hparse, Hmade.
    destruct (is_empty (FabricAuthToken _)); split; assumption.
  - intros (Hbase & Hcred & Hexchange & baseURL & made & Hparse & Hmade).
    apply authenticate_exchange in Hexchange as (c0 & authClient & Hauth).
    unfold loaded, Load.
    destruct (is_empty (BaseURL c)) eqn:Hemp;
      [now apply is_empty_eq in Hemp | ].
    destruct (is_empty (Token c)
              && (is_empty (ClientID c) || is_empty (ClientSecret c))
              && is_empty (AuthToken c)) eqn:Hnone;
      [now apply ConfigFacts.noCredentials_check in Hnone | ].
    rewrite Hauth. apply authenticate_inl in Hauth as [Hauth _].
    match goal with
    | |- context [NewMetalClient ?c1] =>
        destruct (ConfigFacts.NewMetalClient_returns c1 baseURL made)
          as [ua ->];
        [ rewrite Hauth; destruct (is_empty (FabricAuthToken _)); exact Hparse
        | rewrite Hauth; destruct (is_empty (FabricAuthToken _)); exact Hmade
        | ]
    end.
    cbn [bind].
    match goal with
    | |- context [NewMetalGoClient ?c2] =>
        destruct (ConfigFacts.NewMetalGoClient_returns c2 baseURL)
          as (ua' & go & ->);
        [ rewrite Hauth; destruct (is_empty (FabricAuthToken _)); exact Hparse
        | ]
    end.
    cbn [bind]. eexists. reflexivity.
Qed.

(** The metal-go client after a successful [Load], and the identity
    recorded for it. *)
Lemma Load_records_agents_go (ctx : Context) (c c' : Config) :
  loaded ctx c c' ->
  is_Some (Metalgo c')
  /\ metalGoUserAgent c'
     = fullUserAgent c (mg_UserAgent metalv1_NewConfiguration).
Proof.
  load_steps c Hbase Hcred c0 authClient Hauth c1 metal Hmetal c2 metalgo Hgo.
  destruct Hgo as (Hagent & _). intros [= <-].
  split; [eexists; reflexivity | ].
  cbn [metalGoUserAgent set_FabricClient set_Metalgo set_metalGoUserAgent].
  rewrite Hagent. apply fullUserAgent_version. rewrite Hauth.
  destruct (is_empty (FabricAuthToken _)); reflexivity.
Qed.

(** *** The module name in the identity *)


(** X18. [Load] and then a call for a module: the call returns, the
    metal-go client sends the module name (when the metadata is read
    without error and names one) in front of the base identity of the
    given configuration around the SDK's own identity, and the identity
    recorded in the configuration is still the one without the module
    name. *)
Theorem Load_then_module_agent (ctx : Context) (c c' : Config)
    (meta : tfsdkConfig) :
  loaded ctx c c' ->
  exists c'',
    AddFwModuleToMetalGoUserAgent c' meta = Return c''
    /\ metalGoAgent c''
       = Some (generateFwModuleUserAgentString meta
                 (fullUserAgent c (mg_UserAgent metalv1_NewConfiguration)))
    /\ metalGoUserAgent c''
       = fullUserAgent c (mg_UserAgent metalv1_NewConfiguration).
Proof.
  intros Hload.
  destruct (Load_records_agents_go ctx c c' Hload) as [[metalgo Hclient] Hagent].
  unfold AddFwModuleToMetalGoUserAgent, metalGoAgent. rewrite Hclient.
  cbn [deref bind]. eexists. split; [reflexivity | ].
  rewrite <- Hagent. split; reflexivity.
Qed.

(** *** The retry policy *)

(** X19. The retry policy never looks at the response: with any
    response, or none, the decision is the same, so no status code alone
    makes it retry. The error it hands back is the error of the context,
    and it asks for another attempt only with the context alive and an
    error at hand. *)
Theorem MetalRetryPolicy_ignores_response
    (ctx : Context) (resp resp' : option Response) (err : option error) :
  MetalRetryPolicy ctx resp err = MetalRetryPolicy ctx resp' err
  /\ (MetalRetryPolicy ctx resp err).2 = ctx_Err ctx
  /\ ((MetalRetryPolicy ctx resp err).1 = true ->
      ctx_Err ctx = None /\ is_Some err)
  /\ (MetalRetryPolicy ctx resp None).1 = false.
Proof.
  split; [reflexivity | ]. unfold MetalRetryPolicy.
  destruct (ctx_Err ctx) as [cerr|]; cbn [fst snd].
  - repeat split; discriminate.
  - split; [ | split; [ | reflexivity]].
    + destruct err as [[| |op url inner| |]|]; try reflexivity.
      destruct (Regexp.MatchStringToEnd _ _); [reflexivity | ].
      now destruct inner.
    + intros Hretry. split; [reflexivity | ].
      destruct err; [eauto | discriminate].
Qed.

End Loading.

Lemma sample_loaded :
  @loaded samplePlatform Background sampleConfig loadedSample.
Proof. vm_compute. reflexivity. Qed.

Lemma exchanging_loaded :
  @loaded samplePlatform Background exchangingConfig loadedExchanging.
Proof. vm_compute. reflexivity. Qed.

Lemma Load_keeps_settings_witness :
  sameSettings sampleConfig loadedSample.
Proof.
  exact (proj1 (@Load_keeps_settings samplePlatform Background sampleConfig
                  loadedSample None sample_loaded)).
Defined.

Lemma Load_records_agents_witness :
  Ecx loadedSample = Ne loadedSample
  /\ metalAgent loadedSample
     = Some "HashiCorp Terraform/1.5.7 (+https://www.terraform.io) Terraform Plugin SDK/2.31.0 terraform-provider-equinix/1.20.0 packngo/0.30.0".
Proof.
  destruct (@Load_records_agents samplePlatform Background sampleConfig
              loadedSample sample_loaded)
    as ((_ & _ & Hmetal & _) & Hsame & _).
  split; [exact Hsame | ]. unfold metalAgent. rewrite Hmetal.
  vm_compute. reflexivity.
Defined.

(** The token of the exchange replaces the fabric token set
    beforehand. *)
Lemma Load_fabric_token_witness :
  FabricAuthToken exchangingConfig = "preset"
  /\ FabricAuthToken loadedExchanging = "acquired".
Proof.
  split; [reflexivity | ].
  destruct (@Load_fabric_token samplePlatform Background exchangingConfig
              loadedExchanging exchanging_loaded) as (_ & Hexchanged & _).
  apply (Hexchanged eq_refl ltac:(discriminate) ltac:(discriminate)
           {| tok_AccessToken := "acquired" |}).
  reflexivity.
Defined.

(** With the static token, the fabric token set beforehand stays. *)
Example Load_keeps_preset_fabric_token :
  exists c',
    @loaded samplePlatform Background
      (set_FabricAuthToken "preset" sampleConfig) c'
    /\ FabricAuthToken c' = "preset".
Proof. eexists. split; vm_compute; reflexivity. Qed.

Lemma Load_succeeds_iff_witness :
  exists c', @loaded samplePlatform Background sampleConfig c'.
Proof.
  apply (@Load_succeeds_iff samplePlatform Background sampleConfig).
  split; [discriminate | ].
  split; [intros (Htoken & _); discriminate Htoken | ].
  split; [intros Htoken; discriminate Htoken | ].
  eexists _, _. split; reflexivity.
Defined.


(** The block names a module; reading it into [ProviderMeta] fails, so
    the client sends the base identity. *)
Lemma Load_then_module_agent_witness :
  exists c'',
    @AddFwModuleToMetalGoUserAgent loadedSample namedModule = Return c''
    /\ metalGoAgent c''
       = Some "HashiCorp Terraform/1.5.7 (+https://www.terraform.io) Terraform Plugin SDK/2.31.0 terraform-provider-equinix/1.20.0 metal-go/0.29.0".
Proof.
  destruct (@Load_then_module_agent samplePlatform Background sampleConfig
              loadedSample namedModule sample_loaded)
    as (c'' & Hcall & Hagent & _).
  exists c''. split; [exact Hcall | ]. rewrite Hagent.
  vm_compute. reflexivity.
Defined.

Lemma MetalRetryPolicy_ignores_response_witness :
  (@MetalRetryPolicy samplePlatform Background
     (Some {| StatusCode := 503 |}) None).1 = false.
Proof.
  exact (proj2 (proj2 (proj2
           (@MetalRetryPolicy_ignores_response samplePlatform Background
              (Some {| StatusCode := 503 |}) None None)))).
Defined.

End ConfigLoadFacts.

(** ** The project SSH key resource, the writing methods *)

Module ProjectSSHKeyWriteFacts.
Import Go.
Import Diag.
Import DiagFacts.
Import ProjectSSHKey.
Import ProjectSSHKeyWrite.
Import ProjectSSHKeySpec.
Import ProjectSSHKeyWriteSpec.

Section Lifecycle.
Context `{Config.Platform} `{WriteApi}.

(** X20. When the plan is read without error and the vendor call
    fails, [Create] returns at once: it adds the error diagnostic with
    the text of the vendor error, leaves the state as it was, and does
    not parse the key of the failed call. *)
Theorem Create_vendor_error
    (meta : Config.Config) (req : WriteRequest) (resp : ResourceResponse)
    (client : Config.MetalGoClient) (diags : Diagnostics)
    (plan : ResourceModel) (key : option SSHKey)
    (httpResp : option Response) (err : error) :
  Config.Metalgo meta = Some client ->
  Plan_Get (wreq_Plan req) = (diags, plan) ->
  HasError (Append (resp_Diagnostics resp) diags) = false ->
  CreateProjectSSHKey (ValueString (ProjectID plan)) (createBody plan)
  = (key, httpResp, Some err) ->
  exists meta' resp',
    Create meta req resp = Return (meta', resp')
    /\ resp_Diagnostics resp'
       = Append (Append (resp_Diagnostics resp) diags) [createFailure err]
    /\ HasError (resp_Diagnostics resp') = true
    /\ resp_State resp' = resp_State resp.
Proof.
  intros Hclient Hplan Hok Hcall.
  destruct (ProjectSSHKeyFacts.module_user_agent_set meta
              (wreq_ProviderMeta req) client Hclient) as [meta' Hmeta].
  unfold Create. rewrite Hmeta. cbn [bind]. rewrite Hplan.
  cbn [appendDiags resp_Diagnostics resp_State]. rewrite Hok.
  fold (createBody plan). rewrite Hcall.
  eexists _, _. split; [reflexivity | ].
  cbn [resp_Diagnostics resp_State]. split; [reflexivity | ].
  split; [apply HasError_AddError | reflexivity].
Qed.

(** X21. When the plan and the state are read without error and the
    vendor call fails, [Update] returns at once: it adds the error
    diagnostic that names the id of the plan and carries the text of
    the vendor error, and leaves the state as it was. The key that is
    updated is the one the plan names, and the body holds the changes
    of the plan against the state. *)
Theorem Update_vendor_error
    (meta : Config.Config) (req : WriteRequest) (resp : ResourceResponse)
    (client : Config.MetalGoClient) (planDiags stateDiags : Diagnostics)
    (plan state : ResourceModel) (key : option SSHKey)
    (httpResp : option Response) (err : error) :
  Config.Metalgo meta = Some client ->
  Plan_Get (wreq_Plan req) = (planDiags, plan) ->
  State_Get (wreq_State req) = (stateDiags, state) ->
  HasError (Append (Append (resp_Diagnostics resp) planDiags) stateDiags)
  = false ->
  UpdateSSHKey (ValueString (ID plan)) (updateRequest state plan)
  = (key, httpResp, Some err) ->
  exists meta' resp',
    Update meta req resp = Return (meta', resp')
    /\ resp_Diagnostics resp'
       = Append (Append (Append (resp_Diagnostics resp) planDiags) stateDiags)
           [updateFailure (ValueString (ID plan)) err]
    /\ HasError (resp_Diagnostics resp') = true
    /\ resp_State resp' = resp_State resp.
Proof.
  intros Hclient Hplan Hstate Hok Hcall.
  destruct (ProjectSSHKeyFacts.module_user_agent_set meta
              (wreq_ProviderMeta req) client Hclient) as [meta' Hmeta].
  unfold Update. rewrite Hmeta. cbn [bind]. rewrite Hplan, Hstate.
  cbn [appendDiags resp_Diagnostics resp_State]. rewrite Hok, Hcall.
  eexists _, _. split; [reflexivity | ].
  cbn [resp_Diagnostics resp_State]. split; [reflexivity | ].
  split; [apply HasError_AddError | reflexivity].
Qed.

Lemma Equal_eq (a b : tfString) : Equal a b = true <-> a = b.
Proof. unfold Equal. apply bool_decide_eq_true. Qed.

Lemma ValueStringPointer_nil (v : tfString) :
  ValueStringPointer v = None <-> v = StringNull.
Proof. destruct v; cbn; split; (reflexivity || discriminate). Qed.

(** X22. The body of an update holds only what changed. The label is
    left out exactly when the name of the plan is the name of the state
    or is null, the key exactly when the public key of the plan is the
    one of the state or is null; what is sent is what the plan holds.
    In particular a plan equal to the state gives the empty body, which
    [Update] sends all the same. *)
Theorem updateRequest_holds_changes (state plan : ResourceModel) :
  (input_Label (updateRequest state plan) = None
   <-> Name state = Name plan \/ Name plan = StringNull)
  /\ (input_Key (updateRequest state plan) = None
      <-> PublicKey state = PublicKey plan \/ PublicKey plan = StringNull)
  /\ (forall label, input_Label (updateRequest state plan) = Some label ->
        ValueStringPointer (Name plan) = Some label)
  /\ (forall key, input_Key (updateRequest state plan) = Some key ->
        ValueStringPointer (PublicKey plan) = Some key)
  /\ updateRequest plan plan = {| input_Label := None; input_Key := None |}.
Proof.
  unfold updateRequest.
  split; [ | split; [ | split; [ | split]]].
  - destruct (Equal (Name state) (Name plan)) eqn:Hname;
      destruct (Equal (PublicKey state) (PublicKey plan)) eqn:Hkey;
      cbn [negb input_Label]; rewrite ?ValueStringPointer_nil;
      try (apply Equal_eq in Hname; tauto);
      (split; [tauto | intros [Heq | Hnull]; [ | exact Hnull]]);
      apply Equal_eq in Heq; congruence.
  - destruct (Equal (Name state) (Name plan)) eqn:Hname;
      destruct (Equal (PublicKey state) (PublicKey plan)) eqn:Hkey;
      cbn [negb input_Key]; rewrite ?ValueStringPointer_nil;
      try (apply Equal_eq in Hkey; tauto);
      (split; [tauto | intros [Heq | Hnull]; [ | exact Hnull]]);
      apply Equal_eq in Heq; congruence.
  - intros label.
    destruct (Equal (Name state) (Name plan));
      destruct (Equal (PublicKey state) (PublicKey plan));
      cbn [negb input_Label]; (discriminate || tauto).
  - intros key.
    destruct (Equal (Name state) (Name plan));
      destruct (Equal (PublicKey state) (PublicKey plan));
      cbn [negb input_Key]; (discriminate || tauto).
  - assert (Hname : Equal (Name plan) (Name plan) = true) by now apply Equal_eq.
    assert (Hkey : Equal (PublicKey plan) (PublicKey plan) = true)
      by now apply Equal_eq.
    now rewrite Hname, Hkey.
Qed.

(** *** What every method keeps *)

Ltac kept :=
  intros [= <- <-]; unfold keepsDiagnostics; intros d Hd;
  cbn [resp_Diagnostics resp_State appendDiags];
  unfold AddError, AddWarning; rewrite ?elem_of_Append; tauto.

(** X23. No method of the resource drops a diagnostic: whatever
    [Create], [Read], [Update] or [Delete] returns, every diagnostic
    that the response held when the method was entered is still in
    it. *)
Theorem methods_keep_diagnostics
    (meta meta' : Config.Config) (req : Request) (wreq : WriteRequest)
    (resp resp' : ResourceResponse) :
  (Create meta wreq resp = Return (meta', resp') -> keepsDiagnostics resp resp')
  /\ (Read meta req resp = Return (meta', resp') -> keepsDiagnostics resp resp')
  /\ (Update meta wreq resp = Return (meta', resp')
      -> keepsDiagnostics resp resp')
  /\ (Delete meta req resp = Return (meta', resp')
      -> keepsDiagnostics resp resp').
Proof.
  split; [ | split; [ | split]].
  - unfold Create.
    destruct (Config.AddFwModuleToMetalGoUserAgent _ _) as [meta1|];
      cbn [bind]; [ | discriminate].
    destruct (Plan_Get _) as [diags plan].
    destruct (HasError _); [kept | ].
    destruct (CreateProjectSSHKey _ _) as [[key httpResp] [err|]]; [kept | ].
    destruct (parse plan key) as [[parsed plan']|]; cbn [bind];
      [ | discriminate].
    destruct (HasError _); [kept | ].
    destruct (State_Set _ _) as [setDiags st]. kept.
  - unfold Read.
    destruct (Config.AddFwModuleToMetalGoUserAgent _ _) as [meta1|];
      cbn [bind]; [ | discriminate].
    destruct (State_Get _) as [diags state].
    destruct (HasError _); [kept | ].
    destruct (FindSSHKeyById _) as [[key httpResp] [err|]].
    + destruct (IsNotFound _); [kept | ].
      destruct (parse state key) as [[parsed state']|]; cbn [bind];
        [ | discriminate].
      destruct (HasError _); [kept | ].
      destruct (State_Set _ _) as [setDiags st]. kept.
    + destruct (parse state key) as [[parsed state']|]; cbn [bind];
        [ | discriminate].
      destruct (HasError _); [kept | ].
      destruct (State_Set _ _) as [setDiags st]. kept.
  - unfold Update.
    destruct (Config.AddFwModuleToMetalGoUserAgent _ _) as [meta1|];
      cbn [bind]; [ | discriminate].
    destruct (Plan_Get _) as [planDiags plan].
    destruct (State_Get _) as [stateDiags state].
    destruct (HasError _); [kept | ].
    destruct (UpdateSSHKey _ _) as [[key httpResp] [err|]]; [kept | ].
    destruct (parse plan key) as [[parsed plan']|]; cbn [bind];
      [ | discriminate].
    destruct (HasError _); [kept | ].
    destruct (State_Set _ _) as [setDiags st]. kept.
  - unfold Delete.
    destruct (Config.AddFwModuleToMetalGoUserAgent _ _) as [meta1|];
      cbn [bind]; [ | discriminate].
    destruct (State_Get _) as [diags state].
    destruct (HasError _); [kept | ].
    destruct (DeleteSSHKey _) as [deleteResp err].
    destruct (IgnoreHttpResponseErrors _ _ _); [ | kept].
    destruct err as [err|]; cbn [deref bind]; [kept | discriminate].
Qed.



End Lifecycle.

Lemma Create_vendor_error_witness :
  exists meta' resp',
    @Create ConfigSpec.samplePlatform (failingVendor 500 serverError)
      (failingWrites 500 serverError) loadedConfig sampleWriteRequest
      emptyResponse
    = Return (meta', resp')
    /\ resp_Diagnostics resp'
       = [mkDiagnostic SeverityError "Failed to create Project SSH Key"
            "500 Internal Server Error"]
    /\ resp_State resp' = StateNull.
Proof.
  destruct (@Create_vendor_error ConfigSpec.samplePlatform
              (failingVendor 500 serverError) (failingWrites 500 serverError)
              loadedConfig sampleWriteRequest emptyResponse sampleClient []
              (modelOf plannedKey) None (Some {| StatusCode := 500 |})
              serverError)
    as (meta' & resp' & Hcreate & Hdiags & _ & Hstate); try reflexivity.
  exists meta', resp'. split; [exact Hcreate | ].
  split; [rewrite Hdiags; reflexivity | exact Hstate].
Defined.

Lemma Update_vendor_error_witness :
  exists meta' resp',
    @Update ConfigSpec.samplePlatform (failingVendor 500 serverError)
      (failingWrites 500 serverError) loadedConfig sampleWriteRequest
      freshResponse
    = Return (meta', resp')
    /\ resp_Diagnostics resp'
       = [mkDiagnostic SeverityError "Error updating resource"
            "Could not update resource with ID key-1: 500 Internal Server Error"]
    /\ resp_State resp' = storedKey.
Proof.
  destruct (@Update_vendor_error ConfigSpec.samplePlatform
              (failingVendor 500 serverError) (failingWrites 500 serverError)
              loadedConfig sampleWriteRequest freshResponse sampleClient [] []
              (modelOf plannedKey) (modelOf storedKey) None
              (Some {| StatusCode := 500 |}) serverError)
    as (meta' & resp' & Hupdate & Hdiags & _ & Hstate); try reflexivity.
  exists meta', resp'. split; [exact Hupdate | ].
  split; [rewrite Hdiags; reflexivity | exact Hstate].
Defined.

(** The state holds the id only; the plan names the key and gives its
    text: both are sent. *)
Lemma updateRequest_holds_changes_witness :
  updateRequest (modelOf storedKey) (modelOf plannedKey)
  = {| input_Label := Some "laptop"; input_Key := Some "ssh-ed25519 AAAA" |}
  /\ ValueStringPointer (Name (modelOf plannedKey)) = Some "laptop".
Proof.
  split; [reflexivity | ].
  destruct (updateRequest_holds_changes (modelOf storedKey)
              (modelOf plannedKey)) as (_ & _ & Hlabel & _).
  apply Hlabel. reflexivity.
Defined.

Lemma methods_keep_diagnostics_witness :
  exists meta' resp',
    @Delete ConfigSpec.samplePlatform (failingVendor 500 serverError)
      loadedConfig sampleRequest erroredResponse
    = Return (meta', resp')
    /\ earlierError ∈ resp_Diagnostics resp'.
Proof.
  destruct (@Delete ConfigSpec.samplePlatform (failingVendor 500 serverError)
              loadedConfig sampleRequest erroredResponse)
    as [[meta' resp']|why] eqn:Hdelete; [ | vm_compute in Hdelete; discriminate].
  exists meta', resp'. split; [reflexivity | ].
  destruct (@methods_keep_diagnostics ConfigSpec.samplePlatform
              (failingVendor 500 serverError) (failingWrites 500 serverError)
              loadedConfig meta' sampleRequest sampleWriteRequest
              erroredResponse resp')
    as (_ & _ & _ & Hkept).
  apply (Hkept Hdelete). apply list_elem_of_singleton. reflexivity.
Defined.


End ProjectSSHKeyWriteFacts.
